(** * Verification of the WhatsApp duplicate-message bot

    A shallow embedding of the three variants of the bot that live in the
    repository,

    - [Bot]    : [bot.js], the file the launcher script starts
                 (rolling 24 hour window, replies latest-first);
    - [Backup] : [backup/bot.js] (day anchored to Israel midnight);
    - [Main]   : the longest, fully commented variant (day anchored to
                 Israel midnight, defensive word filter);

    followed by the properties of the temporal de-duplication core: day
    boundary, history table with insert / query / evict, duplicate
    detection, reply formatting and persistence.

    Conventions of the embedding.

    - A JavaScript string is the list of its UTF-16 code units, each a [Z].
    - A valid [Date] is its time value, a [Z] counting milliseconds since
      the epoch.  A [Date] that may be invalid (only [new Date(ts)] applied
      to file content produces one) is an [option Z].
    - The [Map] holding the history is a [gmap] from keys to lists of time
      values; no property below depends on the insertion order of a [Map].
    - The [Set] of processed message identifiers is the list of its members
      in insertion order, which is the order [forEach] visits them in.
    - The clock, the time zone of the Node process, the rows of the page and
      the availability of the compose box are inputs of a polling step.
    - Text produced by [toLocaleTimeString] comes from the host's Intl data
      and is a parameter of the reply builders.
    - [toLowerCase] is the case mapping of the host's engine, a parameter
      of the key; it is known on texts of Basic Latin, where it maps the
      letters A to Z and nothing else.
    - The block that loads [history.json] is modelled on the files the bot
      writes; what the start of the process does after it is stated for
      every table of Dates the block can leave.
    - A call on the page or on the file system that throws sends the callback
      to its catch block; these failures of the surroundings are not part of
      the model. *)

From Stdlib Require Import ZArith List Bool Lia Permutation Sorted.
From stdpp Require Import base option list gmap.
Import ListNotations.
Local Open Scope Z_scope.

(** A JavaScript string: UTF-16 code units. *)
Abbreviation jsstring := (list Z).

(** A list of code units that is a string: every unit fits 16 bits. *)
Definition isString (s : jsstring) : Prop := Forall (fun c => 0 <= c < 65536) s.

(** ** JavaScript built-ins used by the bot *)

Module JS.

(** [\s] of a regular expression and the characters removed by [trim]:
    WhiteSpace and LineTerminator of ECMAScript. *)
Definition isWhiteSpace (c : Z) : bool :=
  ((9 <=? c) && (c <=? 13)) || (c =? 32) || (c =? 160) || (c =? 5760)
  || ((8192 <=? c) && (c <=? 8202)) || (c =? 8232) || (c =? 8233)
  || (c =? 8239) || (c =? 8287) || (c =? 12288) || (c =? 65279).

Fixpoint trimStart (s : jsstring) : jsstring :=
  match s with
  | [] => []
  | c :: s' => if isWhiteSpace c then trimStart s' else s
  end.

Definition trimEnd (s : jsstring) : jsstring := rev (trimStart (rev s)).

(** [String.prototype.trim] *)
Definition trim (s : jsstring) : jsstring := trimEnd (trimStart s).

(** [s.split(/\s+/)]: the pieces between maximal runs of white space.
    [in_gap] tells that the previous code unit was white space.  The empty
    string gives one empty piece; leading or trailing white space gives an
    empty first or last piece. *)
Fixpoint split_ws_from (in_gap : bool) (s : jsstring) : list jsstring :=
  match s with
  | [] => [[]]
  | c :: s' =>
      if isWhiteSpace c then
        if in_gap then split_ws_from true s' else [] :: split_ws_from true s'
      else
        match split_ws_from false s' with
        | w :: ws => (c :: w) :: ws
        | [] => [[c]]
        end
  end.

Definition split_ws (s : jsstring) : list jsstring := split_ws_from false s.

(** [word => word.length > 0] *)
Definition nonEmpty (w : jsstring) : bool :=
  match w with [] => false | _ :: _ => true end.

(** A text of Basic Latin: every code unit is below 128. *)
Definition isBasicLatin (s : jsstring) : Prop := Forall (fun c => 0 <= c < 128) s.

(** What [String.prototype.toLowerCase] gives for a text of Basic Latin:
    the letters A to Z become a to z and every other code unit stays.  For
    other text the result is given by the case mappings of Unicode, which
    belong to the engine (see [Host]). *)
Definition lowerUnit (c : Z) : Z :=
  if (65 <=? c) && (c <=? 90) then c + 32 else c.

Definition lowerBasicLatin (s : jsstring) : jsstring := map lowerUnit s.

(** [Array.prototype.join] *)
Fixpoint join (sep : jsstring) (parts : list jsstring) : jsstring :=
  match parts with
  | [] => []
  | [p] => p
  | p :: ps => p ++ sep ++ join sep ps
  end.

(** [Array.prototype.sort] with a comparator: a stable sort; [x] stays in
    front of [y] when [cmp x y <= 0]. *)
Fixpoint insert_by (cmp : Z -> Z -> Z) (x : Z) (l : list Z) : list Z :=
  match l with
  | [] => [x]
  | y :: l' => if cmp x y <=? 0 then x :: l else y :: insert_by cmp x l'
  end.

Fixpoint sort (cmp : Z -> Z -> Z) (l : list Z) : list Z :=
  match l with
  | [] => []
  | x :: l' => insert_by cmp x (sort cmp l')
  end.

(** [Set.prototype.has] and [Set.prototype.add] *)
Definition set_has (id : jsstring) (ids : list jsstring) : bool :=
  bool_decide (id ∈ ids).

Definition set_add (id : jsstring) (ids : list jsstring) : list jsstring :=
  if set_has id ids then ids else ids ++ [id].

(** [Set.prototype.delete] *)
Definition set_delete (id : jsstring) (ids : list jsstring) : list jsstring :=
  List.filter (fun x => negb (bool_decide (x = id))) ids.

(** [rows[rows.length - 1]] *)
Definition last_of {A} (l : list A) : option A := last l.

End JS.

(** ** Day numbers and calendar dates (the Date abstract operations) *)

Module Calendar.

Definition msPerDay : Z := 86400000.

Definition Day (t : Z) : Z := t / msPerDay.
Definition TimeWithinDay (t : Z) : Z := t mod msPerDay.

(** Day number of a proleptic Gregorian date, month in 1..12. *)
Definition days_from_civil (y m d : Z) : Z :=
  let y' := if m <=? 2 then y - 1 else y in
  let era := y' / 400 in
  let yoe := y' - era * 400 in
  let doy := (153 * (if 2 <? m then m - 3 else m + 9) + 2) / 5 + d - 1 in
  let doe := yoe * 365 + yoe / 4 - yoe / 100 + doy in
  era * 146097 + doe - 719468.

(** Year, month (1..12) and day of the month of a day number:
    YearFromTime, MonthFromTime + 1 and DateFromTime.  A day of the era
    of 400 years that starts on 1 March is located in its century of
    36524 days, its group of four years and its year; the year starts in
    March, so January and February carry into the next calendar year. *)
Definition civil_of_doe (doe : Z) : Z * Z * Z * Z :=
  let c := Z.min (doe / 36524) 3 in
  let r1 := doe - 36524 * c in
  let q := r1 / 1461 in
  let r2 := r1 - 1461 * q in
  let yr := Z.min (r2 / 365) 3 in
  let doy := r2 - 365 * yr in
  let yoe := 100 * c + 4 * q + yr in
  let mp := (5 * doy + 2) / 153 in
  let d := doy - (153 * mp + 2) / 5 + 1 in
  let m := if mp <? 10 then mp + 3 else mp - 9 in
  (yoe, (if m <=? 2 then 1 else 0), m, d).

Definition civil_from_days (z : Z) : Z * Z * Z :=
  let z' := z + 719468 in
  let era := z' / 146097 in
  let doe := z' - era * 146097 in
  let '(yoe, carry, m, d) := civil_of_doe doe in
  (yoe + era * 400 + carry, m, d).

Definition isLeap (y : Z) : bool :=
  (y mod 4 =? 0) && (negb (y mod 100 =? 0) || (y mod 400 =? 0)).

Definition daysInMonth (y m : Z) : Z :=
  if m =? 2 then (if isLeap y then 29 else 28)
  else if (m =? 4) || (m =? 6) || (m =? 9) || (m =? 11) then 30 else 31.

(** MakeDay(year, month, date) with a zero-based month. *)
Definition MakeDay (year month date : Z) : Z :=
  days_from_civil (year + month / 12) (month mod 12 + 1) 1 + date - 1.

Definition MakeTime (h m s ms : Z) : Z :=
  h * 3600000 + m * 60000 + s * 1000 + ms.

Definition MakeDate (day time : Z) : Z := day * msPerDay + time.

(** Day of the week of a day number, 0 = Sunday. *)
Definition weekDayOf (day : Z) : Z := (day + 4) mod 7.

(** The first day on or after [day] that falls on week day [wd]. *)
Definition onOrAfter (wd day : Z) : Z := day + (wd - weekDayOf day) mod 7.

(** The largest time value of a Date, 8.64e15. *)
Definition maxTime : Z := 8640000000000000.

Definition validTime (t : Z) : Prop := - maxTime <= t <= maxTime.

End Calendar.

(** ** Time zones *)

Module Zone.
Import Calendar.

(** A zone gives the offset from UTC in force at an instant, and the
    offset the Date constructor uses for a local time value. *)
Record TimeZone := {
  utc_offset : Z -> Z;
  local_offset : Z -> Z
}.

Definition LocalTime (tz : TimeZone) (t : Z) : Z := t + utc_offset tz t.
Definition UTC (tz : TimeZone) (tl : Z) : Z := tl - local_offset tz tl.

Definition hours (h : Z) : Z := h * 3600000.

Definition fixed (off : Z) : TimeZone :=
  {| utc_offset := fun _ => off; local_offset := fun _ => off |}.

Definition Etc_UTC : TimeZone := fixed 0.

(** Eastern Standard Time all year, five hours behind UTC. *)
Definition EST : TimeZone := fixed (hours (-5)).

(** Asia/Jerusalem under the rules in force since 2013: standard time is
    UTC+2; summer time (UTC+3) starts at 02:00 on the first Friday on or
    after 23 March and ends at 02:00 on the last Sunday of October.
    Instants before 2013 are outside this model. *)
Definition il_dst_start_day (y : Z) : Z := onOrAfter 5 (days_from_civil y 3 23).
Definition il_dst_end_day (y : Z) : Z := onOrAfter 0 (days_from_civil y 10 25).

Definition il_utc_offset (t : Z) : Z :=
  let '(y, _, _) := civil_from_days (Day (t + hours 2)) in
  let start := il_dst_start_day y * msPerDay + hours 2 - hours 2 in
  let stop := il_dst_end_day y * msPerDay + hours 2 - hours 3 in
  if (start <=? t) && (t <? stop) then hours 3 else hours 2.

(** A local time that is skipped or repeated at a transition takes the
    offset in force before the transition. *)
Definition il_local_offset (tl : Z) : Z :=
  let '(y, _, _) := civil_from_days (Day tl) in
  let start := il_dst_start_day y * msPerDay + hours 3 in
  let stop := il_dst_end_day y * msPerDay + hours 2 in
  if (start <=? tl) && (tl <? stop) then hours 3 else hours 2.

Definition Asia_Jerusalem : TimeZone :=
  {| utc_offset := il_utc_offset; local_offset := il_local_offset |}.

(** [new Date(year, monthIndex, day, h, mi, s, ms)]: the fields are read
    in the zone of the process; a year from 0 to 99 means 1900 + year. *)
Definition newDate_local (pz : TimeZone) (year monthIndex day h mi s ms : Z) : Z :=
  let yr := if (0 <=? year) && (year <=? 99) then 1900 + year else year in
  UTC pz (MakeDate (MakeDay yr monthIndex day) (MakeTime h mi s ms)).

(** [d.toLocaleDateString('en-US', { timeZone })], the text "M/D/YYYY",
    as the three numbers the callers read back with [split('/')] and
    [Number]: month, day, year. *)
Definition toLocaleDateString_enUS (tz : TimeZone) (t : Z) : Z * Z * Z :=
  let '(y, m, d) := civil_from_days (Day (LocalTime tz t)) in (m, d, y).

(** The instant [m] is the start of the calendar day of [now] in zone
    [tz]: the wall clock of [tz] shows 00:00:00.000 at [m], on the date it
    shows at [now]. *)
Definition startOfDayIn (tz : TimeZone) (now m : Z) : Prop :=
  LocalTime tz m = Day (LocalTime tz now) * msPerDay.

End Zone.

(** ** [Date.prototype.toISOString] and [new Date(isoString)] *)

Module IsoDate.
Import Calendar.

(** The decimal digits of [n], exactly [w] of them. *)
Fixpoint pad (w : nat) (n : Z) : jsstring :=
  match w with
  | O => []
  | S w' => pad w' (n / 10) ++ [48 + n mod 10]
  end.

(** Four digits for the years 0 to 9999, a sign and six digits otherwise. *)
Definition yearString (y : Z) : jsstring :=
  if (0 <=? y) && (y <=? 9999) then pad 4 y
  else (if y <? 0 then 45 else 43) :: pad 6 (Z.abs y).

(** "YYYY-MM-DDTHH:mm:ss.sssZ", the fields read in UTC. *)
Definition toISOString (t : Z) : jsstring :=
  let '(y, m, d) := civil_from_days (Day t) in
  let tod := TimeWithinDay t in
  yearString y ++ [45] ++ pad 2 m ++ [45] ++ pad 2 d ++ [84]
    ++ pad 2 (tod / 3600000) ++ [58] ++ pad 2 (tod / 60000 mod 60) ++ [58]
    ++ pad 2 (tod / 1000 mod 60) ++ [46] ++ pad 3 (tod mod 1000) ++ [90].

Definition digit (c : Z) : option Z :=
  if (48 <=? c) && (c <=? 57) then Some (c - 48) else None.

(** Reads exactly [w] decimal digits. *)
Fixpoint digits (w : nat) (acc : Z) (s : jsstring) : option (Z * jsstring) :=
  match w with
  | O => Some (acc, s)
  | S w' =>
      match s with
      | c :: s' =>
          match digit c with
          | Some v => digits w' (acc * 10 + v) s'
          | None => None
          end
      | [] => None
      end
  end.

Definition expect (c : Z) (s : jsstring) : option jsstring :=
  match s with
  | x :: s' => if x =? c then Some s' else None
  | [] => None
  end.

Definition parseYear (s : jsstring) : option (Z * jsstring) :=
  match s with
  | c :: s' =>
      if c =? 43 then digits 6 0 s'
      else if c =? 45 then
        match digits 6 0 s' with
        | Some (y, r) => if y =? 0 then None else Some (- y, r)
        | None => None
        end
      else digits 4 0 s
  | [] => None
  end.

(** The bounds V8 puts on the fields it has read: a day up to 31 in any
    month (MakeDay carries the excess into the next month), and hour 24
    only as the end of a day. *)
Definition validFields (m d h mi s ms : Z) : bool :=
  (1 <=? m) && (m <=? 12) && (1 <=? d) && (d <=? 31)
  && ((h <=? 23) || ((h =? 24) && (mi =? 0) && (s =? 0) && (ms =? 0)))
  && (mi <=? 59) && (s <=? 59).

(** TimeClip: a time value beyond 8.64e15 ms is not a time value. *)
Definition TimeClip (t : Z) : option Z :=
  if (- maxTime <=? t) && (t <=? maxTime) then Some t else None.

(** [new Date(string)] on the complete date-time form in UTC, the form
    [toISOString] writes.  [None] is an invalid Date; the other forms a
    host accepts (date only, explicit offsets, legacy formats) are outside
    this model and give [None] as well. *)
Definition parse (str : jsstring) : option Z :=
  '(y, r) ← parseYear str;
  r ← expect 45 r;
  '(m, r) ← digits 2 0 r;
  r ← expect 45 r;
  '(d, r) ← digits 2 0 r;
  r ← expect 84 r;
  '(h, r) ← digits 2 0 r;
  r ← expect 58 r;
  '(mi, r) ← digits 2 0 r;
  r ← expect 58 r;
  '(s, r) ← digits 2 0 r;
  r ← expect 46 r;
  '(ms, r) ← digits 3 0 r;
  r ← expect 90 r;
  match r with
  | [] =>
      if validFields m d h mi s ms
      then TimeClip (MakeDate (MakeDay y (m - 1) d) (MakeTime h mi s ms))
      else None
  | _ :: _ => None
  end.

(** A reference rendering of an instant as two-digit hour and minute of
    the wall clock of [tz]. *)
Definition hhmm (tz : Zone.TimeZone) (t : Z) : jsstring :=
  let tod := TimeWithinDay (Zone.LocalTime tz t) in
  pad 2 (tod / 3600000) ++ [58] ++ pad 2 (tod / 60000 mod 60).

End IsoDate.

(** ** [JSON.stringify] and [JSON.parse] on the shape of [history.json] *)

Module JSON.

(** The value written by [persist]: an object whose members are arrays of
    strings, as the list of its members. *)
Abbreviation object := (list (jsstring * list jsstring)).

Definition hexDigit (v : Z) : Z := if v <? 10 then 48 + v else 87 + v.

Definition unicodeEscape (c : Z) : jsstring :=
  [92; 117; hexDigit (c / 4096 mod 16); hexDigit (c / 256 mod 16);
   hexDigit (c / 16 mod 16); hexDigit (c mod 16)].

Definition isHigh (c : Z) : bool := (55296 <=? c) && (c <=? 56319).
Definition isLow (c : Z) : bool := (56320 <=? c) && (c <=? 57343).

(** QuoteJSONString on a code unit that is not a surrogate. *)
Definition escapeUnit (c : Z) : jsstring :=
  if c =? 8 then [92; 98]
  else if c =? 9 then [92; 116]
  else if c =? 10 then [92; 110]
  else if c =? 12 then [92; 102]
  else if c =? 13 then [92; 114]
  else if c =? 34 then [92; 34]
  else if c =? 92 then [92; 92]
  else if c <? 32 then unicodeEscape c
  else [c].

(** A surrogate pair is written as it is, a lone surrogate as an escape. *)
Fixpoint quoteBody (s : jsstring) : jsstring :=
  match s with
  | [] => []
  | c :: s' =>
      if isHigh c then
        match s' with
        | d :: s'' =>
            if isLow d then c :: d :: quoteBody s''
            else unicodeEscape c ++ quoteBody s'
        | [] => unicodeEscape c
        end
      else if isLow c then unicodeEscape c ++ quoteBody s'
      else escapeUnit c ++ quoteBody s'
  end.

Definition quote (s : jsstring) : jsstring := [34] ++ quoteBody s ++ [34].

Definition stringifyArray (l : list jsstring) : jsstring :=
  [91] ++ JS.join [44] (map quote l) ++ [93].

Definition stringifyMember (e : jsstring * list jsstring) : jsstring :=
  quote (fst e) ++ [58] ++ stringifyArray (snd e).

(** [JSON.stringify(obj)] without indentation. *)
Definition stringify (obj : object) : jsstring :=
  [123] ++ JS.join [44] (map stringifyMember obj) ++ [125].

Definition isJsonWs (c : Z) : bool :=
  (c =? 32) || (c =? 9) || (c =? 10) || (c =? 13).

Fixpoint skipWs (s : jsstring) : jsstring :=
  match s with
  | [] => []
  | c :: s' => if isJsonWs c then skipWs s' else s
  end.

Definition hexValue (c : Z) : option Z :=
  if (48 <=? c) && (c <=? 57) then Some (c - 48)
  else if (97 <=? c) && (c <=? 102) then Some (c - 87)
  else if (65 <=? c) && (c <=? 70) then Some (c - 55)
  else None.

Definition hex4 (a b c d : Z) : option Z :=
  x ← hexValue a; y ← hexValue b; z ← hexValue c; w ← hexValue d;
  Some (x * 4096 + y * 256 + z * 16 + w).

Definition unescape (e : Z) : option Z :=
  if e =? 34 then Some 34
  else if e =? 92 then Some 92
  else if e =? 47 then Some 47
  else if e =? 98 then Some 8
  else if e =? 102 then Some 12
  else if e =? 110 then Some 10
  else if e =? 114 then Some 13
  else if e =? 116 then Some 9
  else None.

(** The characters of a string up to its closing quote, and what follows. *)
Fixpoint readChars (s : jsstring) : option (jsstring * jsstring) :=
  match s with
  | [] => None
  | c :: r =>
      if c =? 34 then Some ([], r)
      else if c =? 92 then
        match r with
        | e :: r' =>
            if e =? 117 then
              match r' with
              | h1 :: h2 :: h3 :: h4 :: r'' =>
                  match hex4 h1 h2 h3 h4, readChars r'' with
                  | Some u, Some (str, rest) => Some (u :: str, rest)
                  | _, _ => None
                  end
              | _ => None
              end
            else
              match unescape e, readChars r' with
              | Some u, Some (str, rest) => Some (u :: str, rest)
              | _, _ => None
              end
        | [] => None
        end
      else if c <? 32 then None
      else
        match readChars r with
        | Some (str, rest) => Some (c :: str, rest)
        | None => None
        end
  end.

Definition readString (s : jsstring) : option (jsstring * jsstring) :=
  match s with
  | c :: s' => if c =? 34 then readChars s' else None
  | [] => None
  end.

(** The strings of an array after its first one, up to the bracket. *)
Fixpoint readItems (fuel : nat) (s : jsstring) : option (list jsstring * jsstring) :=
  match fuel with
  | O => None
  | S f =>
      '(x, s1) ← readString s;
      match skipWs s1 with
      | c :: s2 =>
          if c =? 44 then
            '(xs, s3) ← readItems f (skipWs s2); Some (x :: xs, s3)
          else if c =? 93 then Some ([x], s2)
          else None
      | [] => None
      end
  end.

Definition readArray (s : jsstring) : option (list jsstring * jsstring) :=
  match s with
  | c :: s1 =>
      if c =? 91 then
        match skipWs s1 with
        | d :: s2 => if d =? 93 then Some ([], s2) else readItems (length s1) (skipWs s1)
        | [] => None
        end
      else None
  | [] => None
  end.

Definition readMember (s : jsstring) : option ((jsstring * list jsstring) * jsstring) :=
  '(k, s1) ← readString s;
  match skipWs s1 with
  | c :: s2 =>
      if c =? 58 then
        '(arr, s3) ← readArray (skipWs s2); Some ((k, arr), s3)
      else None
  | [] => None
  end.

Fixpoint readMembers (fuel : nat) (s : jsstring) : option (object * jsstring) :=
  match fuel with
  | O => None
  | S f =>
      '(e, s1) ← readMember s;
      match skipWs s1 with
      | c :: s2 =>
          if c =? 44 then
            '(es, s3) ← readMembers f (skipWs s2); Some (e :: es, s3)
          else if c =? 125 then Some ([e], s2)
          else None
      | [] => None
      end
  end.

(** A code unit put in front of the string that was read. *)
Definition prepend (c : Z) (r : option (jsstring * jsstring)) : option (jsstring * jsstring) :=
  match r with
  | Some (str, rest) => Some (c :: str, rest)
  | None => None
  end.

(** A member whose name and values are strings. *)
Definition isMember (e : jsstring * list jsstring) : Prop :=
  isString (fst e) /\ Forall isString (snd e).

(** [JSON.parse] on texts of the shape [stringify] writes, white space
    allowed between tokens: the members in the order of the text.  [None]
    stands for the SyntaxError of [JSON.parse]; a text that is JSON of
    another shape is outside this model and gives [None] as well. *)
Definition parse (text : jsstring) : option object :=
  match skipWs text with
  | c :: s1 =>
      if c =? 123 then
        match skipWs s1 with
        | d :: s2 =>
            if d =? 125 then
              match skipWs s2 with [] => Some [] | _ :: _ => None end
            else
              '(es, s3) ← readMembers (length s1) (skipWs s1);
              match skipWs s3 with [] => Some es | _ :: _ => None end
        | [] => None
        end
      else None
  | [] => None
  end.

End JSON.

(** ** The history file *)

Module Persist.

(** [persist()]: the content written to [history.json].  The members are
    written in the order the table lists its entries.  The file is taken to
    hold the text as it was written. *)
Definition persist (history : gmap jsstring (list Z)) : jsstring :=
  JSON.stringify
    (map (fun e : jsstring * list Z => (fst e, map IsoDate.toISOString (snd e)))
         (map_to_list history)).

(** [new Date(ts)] on a string read from the file. *)
Definition newDate (ts : jsstring) : option Z := IsoDate.parse ts.

(** The start-up block that fills [history] from the file, for the files
    the bot writes: no file, or the text [persist] wrote, an object whose
    members are arrays of strings in the form of [toISOString].
    [history.set] runs for every member in turn.  A file of another form
    (a number for a Date, a date string in another form, a member that is
    not an array, a member after which reading throws) is outside this
    function: the code may keep entries of such a file, and nothing below is
    stated of one. *)
Definition load (file : option jsstring) : gmap jsstring (list (option Z)) :=
  match file with
  | None => ∅
  | Some text =>
      match JSON.parse text with
      | None => ∅
      | Some raw =>
          fold_left
            (fun (h : gmap jsstring (list (option Z))) (e : jsstring * list jsstring) =>
               <[fst e := map newDate (snd e)]> h)
            raw ∅
      end
  end.

(** A table of the bot: the keys are strings and the instants are time
    values of Dates. *)
Definition wellFormed (history : gmap jsstring (list Z)) : Prop :=
  forall k ts, history !! k = Some ts -> isString k /\ Forall Calendar.validTime ts.

(** The table of valid Dates as the Dates [load] builds. *)
Definition asDates (history : gmap jsstring (list Z)) : gmap jsstring (list (option Z)) :=
  (map Some) <$> history.

End Persist.

(** ** What a polling step is given *)

(** The Node process the bot runs in: the zone its Date constructor uses;
    [toLocaleTimeString(locale, { hour: '2-digit', minute: '2-digit',
    hour12: false, timeZone })] of its Intl implementation, applied to a
    locale, a zone and an instant; and [String.prototype.toLowerCase] of its
    engine, which maps every cased letter of Unicode and may change the
    length of a text.  Of the case mapping the development uses one fact,
    which holds in every engine: on a text of Basic Latin it maps A to Z and
    nothing else. *)
Record Host := {
  processZone : Zone.TimeZone;
  toLocaleTimeString : jsstring -> Zone.TimeZone -> Z -> jsstring;
  toLowerCase : jsstring -> jsstring;
  toLowerCase_basicLatin :
    forall s, JS.isBasicLatin s -> toLowerCase s = JS.lowerBasicLatin s
}.

(** A host whose times read as two-digit hour and minute, for polls whose
    texts are Basic Latin. *)
Definition referenceHost (pz : Zone.TimeZone) : Host :=
  {| processZone := pz;
     toLocaleTimeString := fun _ tz t => IsoDate.hhmm tz t;
     toLowerCase := JS.lowerBasicLatin;
     toLowerCase_basicLatin := fun _ _ => eq_refl |}.

(** A message row of the page: its [data-id] attribute, the [innerText] of
    the text element the selectors of the variant find in it, and the two
    numbers [/\[(\d{2}):(\d{2})/] finds in its [data-pre-plain-text]
    attribute (only [bot.js] looks at them). *)
Record Row := {
  data_id : option jsstring;
  text_node : option jsstring;
  pre_plain_time : option (Z * Z)
}.

(** What one poll sees: the rows matching [div[data-id]], and whether the
    compose box can take the reply. *)
Record Poll := {
  rows : list Row;
  compose_box : bool
}.

(** The newest row of the poll is [row], a message with the identifier
    [id] and the text [text]. *)
Definition delivers (p : Poll) (row : Row) (id text : jsstring) : Prop :=
  last (rows p) = Some row /\ data_id row = Some id /\ id <> []
  /\ text_node row = Some text.

(** What one poll did. *)
Inductive Outcome :=
| Skipped                              (* returned before touching the history *)
| Recorded                             (* stored a first occurrence, no reply *)
| Replied (reply : jsstring)           (* stored and typed the reply *)
| ReplyNotSent (reply : jsstring).     (* stored, built the reply, no compose box *)

(** The reply a poll built, sent or not. *)
Definition replyOf (o : Outcome) : option jsstring :=
  match o with
  | Replied r | ReplyNotSent r => Some r
  | Skipped | Recorded => None
  end.

(** The loop of [midnightPrune] and of [prune] over the entries of the
    table: keep the instants at or after the cutoff, and drop a key that
    keeps none. *)
Module Evict.

Definition keep (cutoff : Z) (timestamps : list Z) : list Z :=
  List.filter (fun t => cutoff <=? t) timestamps.

Definition visit (cutoff : Z) (history : gmap jsstring (list Z))
    (e : jsstring * list Z) : gmap jsstring (list Z) :=
  let recent := keep cutoff (snd e) in
  if (0 <? length recent)%nat then <[fst e := recent]> history
  else delete (fst e) history.

Definition loop (cutoff : Z) (history : gmap jsstring (list Z)) : gmap jsstring (list Z) :=
  fold_left (visit cutoff) (map_to_list history) history.

(** What is to remain under a key that held [timestamps]: the instants
    that are not strictly before the cutoff, in their order, and no entry
    at all when there is none. *)
Definition kept (cutoff : Z) (timestamps : list Z) : option (list Z) :=
  match keep cutoff timestamps with
  | [] => None
  | t :: recent => Some (t :: recent)
  end.

End Evict.

(** [getIsraelMidnight()], the same text in [backup/bot.js] and in the
    commented variant: the calendar date of [now] in Asia/Jerusalem, then
    [new Date(year, month - 1, day, 0, 0, 0, 0).getTime()]. *)
Definition getIsraelMidnight (host : Host) (now : Z) : Z :=
  let '(month, day, year) := Zone.toLocaleDateString_enUS Zone.Asia_Jerusalem now in
  Zone.newDate_local (processZone host) year (month - 1) day 0 0 0 0.

(** ** The commented variant *)

Module Main.

Record State := {
  history : gmap jsstring (list Z);
  processedIds : list jsstring;
  lastPruneMidnight : Z;
  disk : option jsstring
}.

(** The three readings of the clock in one poll: in the rollover check,
    inside [midnightPrune], and for the timestamp of the message. *)
Record Clock := {
  at_check : Z;
  at_prune : Z;
  at_stamp : Z
}.

Definition midnightPrune (host : Host) (now : Z) (s : State) : State :=
  let cutoffTimestamp := getIsraelMidnight host now in
  let history' := Evict.loop cutoffTimestamp (history s) in
  {| history := history';
     processedIds := [];
     lastPruneMidnight := cutoffTimestamp;
     disk := Some (Persist.persist history') |}.

Definition replyHead : jsstring :=
  [9888; 65039; 32; 1492; 1492; 1493; 1491; 1506; 1492; 32; 34].
Definition replyMiddle : jsstring :=
  [34; 32; 1492; 1493; 1508; 1497; 1506; 1492; 32; 1492; 1497; 1493; 1501;
   32; 1490; 1501; 32; 1489; 1513; 1506; 1493; 1514; 58; 32].
Definition separator : jsstring := [44; 32].
Definition en_US : jsstring := [101; 110; 45; 85; 83].

(** [buildReply(msg, times)].  [sort] works in place, on the array the
    caller made with [map] for this call. *)
Definition buildReply (host : Host) (msg : jsstring) (times : list Z) : jsstring :=
  let formattedTimes :=
    JS.join separator
      (map (toLocaleTimeString host en_US Zone.Asia_Jerusalem)
           (JS.sort (fun a b => a - b) times)) in
  replyHead ++ msg ++ replyMiddle ++ formattedTimes.

(** The text filter: one to three words and not empty. *)
Definition accepted (messageText : jsstring) : bool :=
  let words := List.filter JS.nonEmpty (JS.split_ws messageText) in
  negb ((length words =? 0)%nat || (3 <? length words)%nat
        || (length messageText =? 0)%nat).

Definition historyKey (host : Host) (messageText : jsstring) : jsstring :=
  toLowerCase host messageText.

Definition setProcessed (ids : list jsstring) (s : State) : State :=
  {| history := history s; processedIds := ids;
     lastPruneMidnight := lastPruneMidnight s; disk := disk s |}.

Definition store (key : jsstring) (timestamps : list Z) (s : State) : State :=
  let history' := <[key := timestamps]> (history s) in
  {| history := history'; processedIds := processedIds s;
     lastPruneMidnight := lastPruneMidnight s;
     disk := Some (Persist.persist history') |}.

(** The rollover check at the head of the polling callback. *)
Definition rollover (host : Host) (c : Clock) (s : State) : State :=
  if lastPruneMidnight s <? getIsraelMidnight host (at_check c)
  then midnightPrune host (at_prune c) s
  else s.

(** The block guarded by [previousTimestamps.length > 0]: build the
    reply from the earlier occurrences and type it when the compose box is
    there. *)
Definition answer (host : Host) (p : Poll) (messageText : jsstring)
    (previousTimestamps : list Z) : Outcome :=
  match previousTimestamps with
  | [] => Recorded
  | _ :: _ =>
      let replyMessage := buildReply host messageText previousTimestamps in
      if compose_box p then Replied replyMessage else ReplyNotSent replyMessage
  end.

(** The polling callback after the rollover check. *)
Definition handle (host : Host) (c : Clock) (p : Poll) (s : State) : State * Outcome :=
  match JS.last_of (rows p) with
  | None => (s, Skipped)
  | Some lastMessageElement =>
      match data_id lastMessageElement with
      | None | Some [] => (s, Skipped)
      | Some messageId =>
          if JS.set_has messageId (processedIds s) then (s, Skipped)
          else
            let s := setProcessed (JS.set_add messageId (processedIds s)) s in
            match text_node lastMessageElement with
            | None => (s, Skipped)
            | Some innerText =>
                let messageText := JS.trim innerText in
                if accepted messageText then
                  let key := historyKey host messageText in
                  let previousTimestamps := default [] (history s !! key) in
                  let currentTimestamp := at_stamp c in
                  let outcome := answer host p messageText previousTimestamps in
                  (store key (previousTimestamps ++ [currentTimestamp]) s, outcome)
                else (s, Skipped)
            end
      end
  end.

(** One run of the polling callback. *)
Definition tick (host : Host) (c : Clock) (p : Poll) (s : State) : State * Outcome :=
  handle host c p (rollover host c s).

(** No day rollover is due when the poll at [c] starts in state [s]. *)
Definition quiet (host : Host) (c : Clock) (s : State) : Prop :=
  getIsraelMidnight host (at_check c) <= lastPruneMidnight s.

(** No day rollover is due in any of the polls [steps] run from [s]. *)
Fixpoint quietRun (host : Host) (steps : list (Clock * Poll)) (s : State) : Prop :=
  match steps with
  | [] => True
  | cp :: rest =>
      quiet host (fst cp) s /\ quietRun host rest (fst (tick host (fst cp) (snd cp) s))
  end.

(** The state after a sequence of polls. *)
Fixpoint run (host : Host) (steps : list (Clock * Poll)) (s : State) : State :=
  match steps with
  | [] => s
  | cp :: rest => run host rest (fst (tick host (fst cp) (snd cp) s))
  end.

(** An observation of [text1] and a later observation of [text2] with the
    same key, under a new identifier and with no day rollover due since the
    first.  The list found under the key before the second append is the
    list found before the first one, the time of the first observation, and
    what the polls in between appended.  The reply of the second
    observation is the template with the times of that list in ascending
    order, each rendered in Asia/Jerusalem and joined by a comma and a
    space; the time of the second observation is appended to the list and is
    not in the reply.  When the key was not in the table before and no poll
    came in between, the reply lists the time of the first observation and
    nothing else. *)
Definition detects (host : Host) (text1 text2 : jsstring) : Prop :=
  forall (s0 : State) c1 p1 row1 id1 mid c2 p2 row2 id2,
    delivers p1 row1 id1 text1 ->
    id1 ∉ processedIds (rollover host c1 s0) ->
    let s1 := fst (tick host c1 p1 s0) in
    quietRun host mid s1 ->
    let s2 := run host mid s1 in
    quiet host c2 s2 ->
    delivers p2 row2 id2 text2 ->
    id2 ∉ processedIds s2 ->
    let key := historyKey host (JS.trim text2) in
    let before := default [] (history (rollover host c1 s0) !! key) in
    let render := toLocaleTimeString host en_US Zone.Asia_Jerusalem in
    let template := fun times => replyHead ++ JS.trim text2 ++ replyMiddle ++ times in
    exists between listed,
      let prior := before ++ [at_stamp c1] ++ between in
      history s2 !! key = Some prior
      /\ (mid = [] -> between = [])
      /\ Permutation prior listed /\ StronglySorted Z.le listed
      /\ snd (tick host c2 p2 s2)
         = (if compose_box p2
            then Replied (template (JS.join [44; 32] (map render listed)))
            else ReplyNotSent (template (JS.join [44; 32] (map render listed))))
      /\ (before = [] -> between = [] ->
          replyOf (snd (tick host c2 p2 s2)) = Some (template (render (at_stamp c1))))
      /\ history (fst (tick host c2 p2 s2)) !! key = Some (prior ++ [at_stamp c2]).

End Main.

(** ** [backup/bot.js]: its reply *)

Module Backup.

Definition replyHead : jsstring :=
  [9888; 65039; 32; 1492; 1492; 1493; 1491; 1506; 1492; 32; 34].
Definition replyMiddle : jsstring :=
  [34; 32; 1492; 1493; 1508; 1497; 1506; 1492; 32; 1489; 1497; 1502; 1502;
   1492; 32; 1492; 1488; 1495; 1512; 1493; 1504; 1492; 32; 1489; 1513; 1506;
   1493; 1514; 32; 40].
Definition replyTail : jsstring := [41].
Definition separator : jsstring := [44; 32].
Definition en_US : jsstring := [101; 110; 45; 85; 83].

Definition buildReply (host : Host) (msg : jsstring) (times : list Z) : jsstring :=
  let formatted :=
    JS.join separator
      (map (toLocaleTimeString host en_US Zone.Asia_Jerusalem)
           (JS.sort (fun a b => a - b) times)) in
  replyHead ++ msg ++ replyMiddle ++ formatted ++ replyTail.

End Backup.

(** ** [bot.js], the variant the launcher starts *)

Module Bot.

Definition DAY_MS : Z := 24 * 60 * 60 * 1000.
Definition MAX_IDS : nat := 2000.

Record State := {
  history : gmap jsstring (list Z);
  processedIds : list jsstring;
  lastSeenId : option jsstring;
  disk : option jsstring
}.

(** The readings of the clock in one poll: [new Date()] for the message,
    [new Date()] for today's date when the row carries a time, and
    [Date.now()] inside [prune]. *)
Record Clock := {
  at_stamp : Z;
  at_today : Z;
  at_prune : Z
}.

Definition replyHead : jsstring := [1492; 1492; 1493; 1491; 1506; 1492; 32; 60].
Definition replyMiddle : jsstring :=
  [62; 32; 1492; 1493; 1508; 1497; 1506; 1492; 32; 1489; 1497; 1502; 1502;
   1492; 32; 1492; 1488; 1495; 1512; 1493; 1504; 1492; 32; 1489; 1513; 1506;
   1493; 1514; 32].
Definition replyTail : jsstring := [32; 40; 73; 76; 84; 41].
Definition separator : jsstring := [32; 1493; 1489].
Definition he_IL : jsstring := [104; 101; 45; 73; 76].

(** [buildReply(msg, times)].  [sort] works in place, on the array that
    the table held before [history.set] put a new one in its place. *)
Definition buildReply (host : Host) (msg : jsstring) (times : list Z) : jsstring :=
  let formatted :=
    JS.join separator
      (map (toLocaleTimeString host he_IL Zone.Asia_Jerusalem)
           (JS.sort (fun a b => b - a) times)) in
  replyHead ++ msg ++ replyMiddle ++ formatted ++ replyTail.

(** The tail of [prune]: above [MAX_IDS] members, [forEach] visits every
    member and deletes it unless [excess <= 0]; [excess] is a constant. *)
Definition trimIds (ids : list jsstring) : list jsstring :=
  if (MAX_IDS <? length ids)%nat then
    let excess := Z.of_nat (length ids) - Z.of_nat MAX_IDS in
    fold_left (fun acc id => if excess <=? 0 then acc else JS.set_delete id acc) ids ids
  else ids.

Definition prune (now : Z) (s : State) : State :=
  let cutoff := now - DAY_MS in
  let history' := Evict.loop cutoff (history s) in
  {| history := history';
     processedIds := trimIds (processedIds s);
     lastSeenId := lastSeenId s;
     disk := Some (Persist.persist history') |}.

(** The text filter: at most three pieces. *)
Definition accepted (msgText : jsstring) : bool :=
  let words := JS.split_ws msgText in
  negb ((length words =? 0)%nat || (3 <? length words)%nat).

Definition historyKey (host : Host) (msgText : jsstring) : jsstring :=
  toLowerCase host msgText.

(** The Date of the message: now, or today's date in the zone of the
    process with the hour and minute shown in the row. *)
Definition messageDate (host : Host) (c : Clock) (r : Row) : Z :=
  match pre_plain_time r with
  | None => at_stamp c
  | Some (h, mn) =>
      let '(y, m, d) :=
        Calendar.civil_from_days
          (Calendar.Day (Zone.LocalTime (processZone host) (at_today c))) in
      Zone.newDate_local (processZone host) y (m - 1) d h mn 0 0
  end.

Definition markProcessed (msgId : jsstring) (s : State) : State :=
  {| history := history s; processedIds := JS.set_add msgId (processedIds s);
     lastSeenId := Some msgId; disk := disk s |}.

Definition store (key : jsstring) (timestamps : list Z) (s : State) : State :=
  let history' := <[key := timestamps]> (history s) in
  {| history := history'; processedIds := processedIds s;
     lastSeenId := lastSeenId s;
     disk := Some (Persist.persist history') |}.

(** The block guarded by [prev.length]: build the reply from the earlier
    occurrences and type it when the compose box is found. *)
Definition answer (host : Host) (p : Poll) (msgText : jsstring) (prev : list Z) : Outcome :=
  match prev with
  | [] => Recorded
  | _ :: _ =>
      let reply := buildReply host msgText prev in
      if compose_box p then Replied reply else ReplyNotSent reply
  end.

(** One run of the polling callback. *)
Definition tick (host : Host) (c : Clock) (p : Poll) (s : State) : State * Outcome :=
  match JS.last_of (rows p) with
  | None => (s, Skipped)
  | Some last =>
      match data_id last with
      | None | Some [] => (s, Skipped)
      | Some msgId =>
          if JS.set_has msgId (processedIds s) then (s, Skipped)
          else
            let s := markProcessed msgId s in
            match text_node last with
            | None => (s, Skipped)
            | Some innerText =>
                let msgText := JS.trim innerText in
                if accepted msgText then
                  let msgDate := messageDate host c last in
                  let s := prune (at_prune c) s in
                  let key := historyKey host msgText in
                  let prev := default [] (history s !! key) in
                  let s := store key (prev ++ [msgDate]) s in
                  (s, answer host p msgText prev)
                else (s, Skipped)
            end
      end
  end.

(** The prune in the poll at [c] removes nothing from the table of [s]. *)
Definition quiet (c : Clock) (s : State) : Prop :=
  Evict.loop (at_prune c - DAY_MS) (history s) = history s.

Fixpoint quietRun (host : Host) (steps : list (Clock * Poll)) (s : State) : Prop :=
  match steps with
  | [] => True
  | cp :: rest =>
      quiet (fst cp) s /\ quietRun host rest (fst (tick host (fst cp) (snd cp) s))
  end.

(** The state after a sequence of polls. *)
Fixpoint run (host : Host) (steps : list (Clock * Poll)) (s : State) : State :=
  match steps with
  | [] => s
  | cp :: rest => run host rest (fst (tick host (fst cp) (snd cp) s))
  end.

(** An observation of [text1] and a later observation of [text2] with the
    same key, under a new identifier and with nothing pruned away since the
    first.  The list found under the key before the second append is the
    list the prune of the first poll left, the Date of the first message,
    and what the polls in between appended.  The reply of the second
    observation is the template with the times of that list in descending
    order, each rendered in Asia/Jerusalem; the Date of the second message
    is appended to the list and is not in the reply.  When the key was not
    in the table before and no poll came in between, the reply lists the
    time of the first observation and nothing else. *)
Definition detects (host : Host) (text1 text2 : jsstring) : Prop :=
  forall (s0 : State) c1 p1 row1 id1 mid c2 p2 row2 id2,
    delivers p1 row1 id1 text1 ->
    id1 ∉ processedIds s0 ->
    let s1 := fst (tick host c1 p1 s0) in
    quietRun host mid s1 ->
    let s2 := run host mid s1 in
    quiet c2 s2 ->
    delivers p2 row2 id2 text2 ->
    id2 ∉ processedIds s2 ->
    let key := historyKey host (JS.trim text2) in
    let before :=
      default [] (Evict.loop (at_prune c1 - DAY_MS) (history s0) !! key) in
    let render := toLocaleTimeString host he_IL Zone.Asia_Jerusalem in
    let template :=
      fun times => replyHead ++ JS.trim text2 ++ replyMiddle ++ times ++ replyTail in
    exists between listed,
      let prior := before ++ [messageDate host c1 row1] ++ between in
      history s2 !! key = Some prior
      /\ (mid = [] -> between = [])
      /\ Permutation prior listed /\ StronglySorted Z.ge listed
      /\ snd (tick host c2 p2 s2)
         = (if compose_box p2
            then Replied (template (JS.join [32; 1493; 1489] (map render listed)))
            else ReplyNotSent (template (JS.join [32; 1493; 1489] (map render listed))))
      /\ (before = [] -> between = [] ->
          replyOf (snd (tick host c2 p2 s2))
          = Some (template (render (messageDate host c1 row1))))
      /\ history (fst (tick host c2 p2 s2)) !! key
         = Some (prior ++ [messageDate host c2 row2]).

End Bot.

(** ** Words of the specification *)

(** The number of words of a text: the maximal runs of code units that are
    not white space.  [after_ws] tells that a word may start here. *)
Fixpoint countWords (after_ws : bool) (s : jsstring) : nat :=
  match s with
  | [] => O
  | c :: s' =>
      if JS.isWhiteSpace c then countWords true s'
      else ((if after_ws then 1 else 0) + countWords false s')%nat
  end.

Definition wordCount (s : jsstring) : nat := countWords true s.

(** Whether a text starts, or ends, with white space. *)
Definition headIsWs (s : jsstring) : bool :=
  match s with c :: _ => JS.isWhiteSpace c | [] => false end.

Definition lastIsWs (s : jsstring) : bool :=
  match last s with Some c => JS.isWhiteSpace c | None => false end.

(** A qualifying text has one to three words. *)
Definition qualifying (text : jsstring) : Prop :=
  (1 <= wordCount text <= 3)%nat.




(** ** Polls and states used as examples *)

(** A row with an identifier and a text, and the poll that shows it with
    the compose box in place. *)
Definition rowOf (id text : jsstring) : Row :=
  {| data_id := Some id; text_node := Some text; pre_plain_time := None |}.

Definition pollOf (id text : jsstring) : Poll :=
  {| rows := [rowOf id text]; compose_box := true |}.

Definition mainClock (t : Z) : Main.Clock :=
  {| Main.at_check := t; Main.at_prune := t; Main.at_stamp := t |}.

Definition botClock (t : Z) : Bot.Clock :=
  {| Bot.at_stamp := t; Bot.at_today := t; Bot.at_prune := t |}.

(** The commented variant on the morning of 10 January 2024, Israel time,
    with nothing stored yet. *)
Definition mainMorning : Main.State :=
  {| Main.history := ∅; Main.processedIds := [];
     Main.lastPruneMidnight := 1704837600000; Main.disk := None |}.

(** [bot.js] with the given identifiers processed and nothing stored. *)
Definition botWith (ids : list jsstring) : Bot.State :=
  {| Bot.history := ∅; Bot.processedIds := ids; Bot.lastSeenId := None;
     Bot.disk := None |}.

(** Two thousand identifiers. *)
Definition manyIds : list jsstring := map (fun n => [Z.of_nat n]) (seq 100 2000).

(** ** [backup/bot.js]: its polling callback *)

(** The variables of [backup/bot.js] are those of the commented variant, and
    its [midnightPrune] and rollover check have the same text: the state, the
    clock, [Main.midnightPrune] and [Main.rollover] stand for them. *)
Module BackupLoop.

(** The text filter: at most three pieces. *)
Definition accepted (msgText : jsstring) : bool :=
  let words := JS.split_ws msgText in
  negb ((length words =? 0)%nat || (3 <? length words)%nat).

(** The block guarded by [prev.length], after the table and the file were
    updated. *)
Definition answer (host : Host) (p : Poll) (msgText : jsstring) (prev : list Z) : Outcome :=
  match prev with
  | [] => Recorded
  | _ :: _ =>
      let reply := Backup.buildReply host msgText prev in
      if compose_box p then Replied reply else ReplyNotSent reply
  end.

(** The polling callback after the rollover check. *)
Definition handle (host : Host) (c : Main.Clock) (p : Poll) (s : Main.State)
    : Main.State * Outcome :=
  match JS.last_of (rows p) with
  | None => (s, Skipped)
  | Some last =>
      match data_id last with
      | None | Some [] => (s, Skipped)
      | Some msgId =>
          if JS.set_has msgId (Main.processedIds s) then (s, Skipped)
          else
            let s := Main.setProcessed (JS.set_add msgId (Main.processedIds s)) s in
            match text_node last with
            | None => (s, Skipped)
            | Some innerText =>
                let msgText := JS.trim innerText in
                if accepted msgText then
                  let key := toLowerCase host msgText in
                  let prev := default [] (Main.history s !! key) in
                  let s := Main.store key (prev ++ [Main.at_stamp c]) s in
                  (s, answer host p msgText prev)
                else (s, Skipped)
            end
      end
  end.

(** One run of the polling callback. *)
Definition tick (host : Host) (c : Main.Clock) (p : Poll) (s : Main.State)
    : Main.State * Outcome :=
  handle host c p (Main.rollover host c s).

(** No day rollover is due in any of the polls [steps] run from [s]. *)
Fixpoint quietRun (host : Host) (steps : list (Main.Clock * Poll)) (s : Main.State) : Prop :=
  match steps with
  | [] => True
  | cp :: rest =>
      Main.quiet host (fst cp) s
      /\ quietRun host rest (fst (tick host (fst cp) (snd cp) s))
  end.

(** The state after a sequence of polls. *)
Fixpoint run (host : Host) (steps : list (Main.Clock * Poll)) (s : Main.State) : Main.State :=
  match steps with
  | [] => s
  | cp :: rest => run host rest (fst (tick host (fst cp) (snd cp) s))
  end.

End BackupLoop.

(** ** Start-up of the midnight variants: the file is read, then pruned *)

Module Startup.

(** [timestamps.filter(t => t.getTime() >= cutoff)] on Dates that may be
    invalid: [getTime()] of an invalid Date is NaN, and NaN is not at or
    after anything. *)
Definition recentDates (cutoff : Z) (timestamps : list (option Z)) : list (option Z) :=
  List.filter (fun t => match t with Some v => cutoff <=? v | None => false end)
              timestamps.

Definition visit (cutoff : Z) (history : gmap jsstring (list (option Z)))
    (e : jsstring * list (option Z)) : gmap jsstring (list (option Z)) :=
  let recent := recentDates cutoff (snd e) in
  if (0 <? length recent)%nat then <[fst e := recent]> history
  else delete (fst e) history.

(** The loop of [midnightPrune] on the table as loaded. *)
Definition loop (cutoff : Z) (history : gmap jsstring (list (option Z)))
    : gmap jsstring (list (option Z)) :=
  fold_left (visit cutoff) (map_to_list history) history.

(** The time values of the valid Dates of a list. *)
Definition timeValues (dates : list (option Z)) : list Z := omap id dates.

(** [midnightPrune()] as the start of the process runs it at the instant
    [now], on the table the load block left: Dates under string keys, valid
    or not.  The Dates the prune leaves are all valid, and the table is
    given by their time values from here on. *)
Definition pruneLoaded (host : Host) (now : Z)
    (loaded : gmap jsstring (list (option Z))) : Main.State :=
  let cutoffTimestamp := getIsraelMidnight host now in
  let history := timeValues <$> loop cutoffTimestamp loaded in
  {| Main.history := history;
     Main.processedIds := [];
     Main.lastPruneMidnight := cutoffTimestamp;
     Main.disk := Some (Persist.persist history) |}.

(** The module-level code run when the process starts on a file the bot
    wrote: fill the table from the file, then [midnightPrune()]. *)
Definition start (host : Host) (now : Z) (file : option jsstring) : Main.State :=
  pruneLoaded host now (Persist.load file).

(** What the start-up leaves of the Dates loaded under a key. *)
Definition keptDates (cutoff : Z) (timestamps : list (option Z)) : option (list Z) :=
  match recentDates cutoff timestamps with
  | [] => None
  | d :: recent => Some (timeValues (d :: recent))
  end.

End Startup.

(** ** Conditions on tables and states *)

(** No key holds an empty list. *)
Definition noEmptyList (h : gmap jsstring (list Z)) : Prop :=
  forall k l, h !! k = Some l -> l <> [].

(** Every instant of the table is at or after [cutoff]. *)
Definition nothingBefore (cutoff : Z) (h : gmap jsstring (list Z)) : Prop :=
  forall k l, h !! k = Some l -> Forall (fun t => cutoff <= t) l.

(** The file holds what [persist] writes for the table in memory. *)
Definition fileHoldsTable (history : gmap jsstring (list Z)) (disk : option jsstring) : Prop :=
  disk = Some (Persist.persist history).

(** The poll [p] with the compose box there, or not. *)
Definition withComposeBox (b : bool) (p : Poll) : Poll :=
  {| rows := rows p; compose_box := b |}.

(** A row of [bot.js] that shows the time [h]:[mn]. *)
Definition rowAt (id text : jsstring) (h mn : Z) : Row :=
  {| data_id := Some id; text_node := Some text; pre_plain_time := Some (h, mn) |}.

(** A zone whose offsets for two local times differ by less than a day. *)
Definition offsetsWithinADay (tz : Zone.TimeZone) : Prop :=
  forall a b, Zone.local_offset tz a - Zone.local_offset tz b < Calendar.msPerDay.

(** * Properties *)

(** ** Eviction *)

Section EvictFacts.
Implicit Types (h acc : gmap jsstring (list Z)) (k : jsstring) (ts : list Z).

Lemma visit_same cutoff acc k ts :
  Evict.visit cutoff acc (k, ts) !! k = Evict.kept cutoff ts.
Proof.
  unfold Evict.visit, Evict.kept; simpl.
  destruct (Evict.keep cutoff ts) as [|t r]; simpl.
  - apply lookup_delete_eq.
  - apply lookup_insert_eq.
Qed.

Lemma visit_other cutoff acc k k' ts :
  k <> k' -> Evict.visit cutoff acc (k, ts) !! k' = acc !! k'.
Proof.
  intros Hne. unfold Evict.visit; simpl.
  destruct (0 <? length (Evict.keep cutoff ts))%nat.
  - by apply lookup_insert_ne.
  - by apply lookup_delete_ne.
Qed.

Lemma fold_visit_absent cutoff (l : list (jsstring * list Z)) acc k :
  k ∉ l.*1 -> fold_left (Evict.visit cutoff) l acc !! k = acc !! k.
Proof.
  revert acc. induction l as [|[k0 ts0] l IH]; intros acc Hk; simpl; [done|].
  simpl in Hk. apply not_elem_of_cons in Hk as [Hne Hk].
  rewrite IH by done. apply visit_other. congruence.
Qed.

Lemma fold_visit_present cutoff (l : list (jsstring * list Z)) acc k ts :
  NoDup l.*1 -> (k, ts) ∈ l ->
  fold_left (Evict.visit cutoff) l acc !! k = Evict.kept cutoff ts.
Proof.
  revert acc. induction l as [|[k0 ts0] l IH]; intros acc Hnd Hin; simpl.
  - by apply elem_of_nil in Hin.
  - simpl in Hnd. apply NoDup_cons in Hnd as [Hfresh Hnd].
    apply elem_of_cons in Hin as [Heq|Hin].
    + inversion Heq; subst k0 ts0.
      rewrite fold_visit_absent by done. apply visit_same.
    + by apply IH.
Qed.

(** The loop, key by key. *)
Lemma loop_lookup cutoff h k :
  Evict.loop cutoff h !! k = h !! k ≫= Evict.kept cutoff.
Proof.
  unfold Evict.loop. destruct (h !! k) as [ts|] eqn:Hk; simpl.
  - apply fold_visit_present.
    + apply NoDup_fst_map_to_list.
    + by apply elem_of_map_to_list.
  - rewrite fold_visit_absent; [done|].
    intros Hin. apply list_elem_of_fmap in Hin as [[k' ts] [-> Hin]].
    apply elem_of_map_to_list in Hin. simpl in *. congruence.
Qed.

Lemma keep_keep cutoff ts :
  Evict.keep cutoff (Evict.keep cutoff ts) = Evict.keep cutoff ts.
Proof.
  unfold Evict.keep. induction ts as [|t ts IH]; simpl; [done|].
  destruct (cutoff <=? t) eqn:Ht; simpl; [rewrite Ht|]; congruence.
Qed.

Lemma kept_Some cutoff ts r :
  Evict.kept cutoff ts = Some r <-> Evict.keep cutoff ts = r /\ r <> [].
Proof.
  unfold Evict.kept. destruct (Evict.keep cutoff ts) as [|t l]; split.
  - discriminate.
  - intros [<- Hne]. congruence.
  - intros [= <-]. done.
  - intros [<- _]. done.
Qed.

Lemma kept_None cutoff ts :
  Evict.kept cutoff ts = None <-> Evict.keep cutoff ts = [].
Proof. unfold Evict.kept. by destruct (Evict.keep cutoff ts). Qed.

Lemma kept_kept cutoff ts :
  Evict.kept cutoff ts ≫= Evict.kept cutoff = Evict.kept cutoff ts.
Proof.
  destruct (Evict.kept cutoff ts) as [r|] eqn:E; simpl; [|done].
  apply kept_Some in E as [<- Hne]. apply kept_Some. by rewrite keep_keep.
Qed.

Lemma loop_idempotent cutoff h :
  Evict.loop cutoff (Evict.loop cutoff h) = Evict.loop cutoff h.
Proof.
  apply map_eq; intros k. rewrite !loop_lookup.
  destruct (h !! k) as [ts|]; simpl; [apply kept_kept|done].
Qed.

Lemma keep_count cutoff ts t :
  ~ t < cutoff ->
  count_occ Z.eq_dec (Evict.keep cutoff ts) t = count_occ Z.eq_dec ts t.
Proof.
  intros Ht. unfold Evict.keep. induction ts as [|x ts IH]; [done|].
  cbn [List.filter]. destruct (cutoff <=? x) eqn:Hx.
  - cbn [count_occ]. by rewrite IH.
  - apply Z.leb_gt in Hx. cbn [count_occ].
    destruct (Z.eq_dec x t) as [->|Hne]; [lia|done].
Qed.

Lemma elem_of_keep cutoff ts t :
  In t (Evict.keep cutoff ts) <-> In t ts /\ cutoff <= t.
Proof.
  unfold Evict.keep. rewrite filter_In. rewrite Z.leb_le. done.
Qed.

End EvictFacts.

(** ** The two pruning functions *)

Lemma filter_filter_and {A} (f g : A -> bool) (l : list A) :
  List.filter f (List.filter g l) = List.filter (fun x => g x && f x) l.
Proof.
  induction l as [|x l IH]; [done|]. cbn [List.filter].
  destruct (g x); cbn [List.filter andb]; [destruct (f x)|]; by rewrite IH.
Qed.

Lemma fold_set_delete (l acc : list jsstring) :
  fold_left (fun acc id => JS.set_delete id acc) l acc
  = List.filter (fun x => negb (bool_decide (x ∈ l))) acc.
Proof.
  revert acc. induction l as [|id l IH]; intros acc; cbn [fold_left].
  - symmetry. apply forallb_filter_id. apply forallb_forall. intros x _.
    apply negb_true_iff, bool_decide_eq_false, not_elem_of_nil.
  - rewrite IH. unfold JS.set_delete. rewrite filter_filter_and.
    apply filter_ext. intros x.
    destruct (decide (x = id)) as [->|Hne].
    + rewrite (bool_decide_eq_true_2 (id = id)) by done.
      rewrite (bool_decide_eq_true_2 (id ∈ id :: l)) by left. done.
    + rewrite (bool_decide_eq_false_2 (x = id)) by done.
      rewrite (bool_decide_ext (x ∈ id :: l) (x ∈ l)); [done|].
      rewrite elem_of_cons. split; [intros [Heq|Hin]; [congruence|done] | by right].
Qed.

(** Above the ceiling [trimIds] empties the set; at or below it the set is
    left alone. *)
Lemma trimIds_spec (ids : list jsstring) :
  Bot.trimIds ids = if (Bot.MAX_IDS <? length ids)%nat then [] else ids.
Proof.
  unfold Bot.trimIds. destruct (Bot.MAX_IDS <? length ids)%nat eqn:Hlen; [|done].
  apply Nat.ltb_lt in Hlen.
  replace (Z.of_nat (length ids) - Z.of_nat Bot.MAX_IDS <=? 0) with false
    by (symmetry; apply Z.leb_gt; lia).
  rewrite fold_set_delete.
  assert (forall acc : list jsstring, (forall x, x ∈ acc -> x ∈ ids) ->
            List.filter (fun x => negb (bool_decide (x ∈ ids))) acc = []) as Hall.
  { induction acc as [|x acc IHacc]; intros Hsub; simpl; [done|].
    rewrite bool_decide_eq_true_2 by (apply Hsub; left). simpl.
    apply IHacc. intros y Hy. apply Hsub. by right. }
  by apply Hall.
Qed.

Lemma trimIds_idempotent (ids : list jsstring) :
  Bot.trimIds (Bot.trimIds ids) = Bot.trimIds ids.
Proof.
  rewrite (trimIds_spec ids). destruct (Bot.MAX_IDS <? length ids)%nat eqn:Hlen.
  - reflexivity.
  - rewrite trimIds_spec, Hlen. reflexivity.
Qed.

Lemma midnightPrune_history host now s k :
  Main.history (Main.midnightPrune host now s) !! k
  = Main.history s !! k ≫= Evict.kept (getIsraelMidnight host now).
Proof. apply loop_lookup. Qed.

Lemma prune_history now s k :
  Bot.history (Bot.prune now s) !! k
  = Bot.history s !! k ≫= Evict.kept (now - Bot.DAY_MS).
Proof. apply loop_lookup. Qed.

Lemma midnightPrune_idempotent host now s :
  Main.midnightPrune host now (Main.midnightPrune host now s)
  = Main.midnightPrune host now s.
Proof.
  unfold Main.midnightPrune; simpl. rewrite loop_idempotent. reflexivity.
Qed.

Lemma prune_idempotent now s :
  Bot.prune now (Bot.prune now s) = Bot.prune now s.
Proof.
  unfold Bot.prune; simpl. rewrite loop_idempotent, trimIds_idempotent. reflexivity.
Qed.

(** C1 (as amended).  Eviction removes, under every key, exactly the
    instants strictly before its cutoff, keeps the others in their order and
    number, and drops a key that keeps none.  The cutoff of [midnightPrune]
    is the value of [getIsraelMidnight] at the time of the prune; the cutoff
    of [prune] in [bot.js] is the current instant minus 24 hours, a rolling
    window. *)
Theorem C1_eviction_removes_exactly_before_cutoff (host : Host) (now : Z) :
  (forall s k,
      Main.history (Main.midnightPrune host now s) !! k
      = Main.history s !! k ≫= Evict.kept (getIsraelMidnight host now))
  /\ (forall s k,
      Bot.history (Bot.prune now s) !! k
      = Bot.history s !! k ≫= Evict.kept (now - Bot.DAY_MS))
  /\ (forall cutoff ts,
      (forall t, In t (Evict.keep cutoff ts) <-> In t ts /\ ~ t < cutoff)
      /\ (forall t, ~ t < cutoff ->
            count_occ Z.eq_dec (Evict.keep cutoff ts) t = count_occ Z.eq_dec ts t)
      /\ sublist (Evict.keep cutoff ts) ts
      /\ (Evict.kept cutoff ts = None <-> forall t, In t ts -> t < cutoff)
      /\ (forall r, Evict.kept cutoff ts = Some r -> r = Evict.keep cutoff ts)).
Proof.
  split; [|split].
  - intros s k. apply midnightPrune_history.
  - intros s k. apply prune_history.
  - intros cutoff ts. split; [|split; [|split; [|split]]].
    + intros t. rewrite elem_of_keep. split; intros [Hin Hge]; (split; [done|lia]).
    + intros t Ht. by apply keep_count.
    + unfold Evict.keep. induction ts as [|t ts IH]; simpl; [constructor|].
      destruct (cutoff <=? t); by constructor.
    + rewrite kept_None. split.
      * intros Hnone t Hin.
        destruct (Z.lt_ge_cases t cutoff) as [|Hge]; [done|].
        assert (In t (Evict.keep cutoff ts)) as Hk by (by apply elem_of_keep).
        rewrite Hnone in Hk. destruct Hk.
      * intros Hall.
        destruct (Evict.keep cutoff ts) as [|t r] eqn:Hk; [done|].
        assert (In t (Evict.keep cutoff ts)) as Hin by (rewrite Hk; by left).
        apply elem_of_keep in Hin as [Hin Hge]. specialize (Hall t Hin). lia.
    + intros r Hr. apply kept_Some in Hr as [Hr _]. done.
Qed.

(** C1, the claim as stated fails on [bot.js]: at noon of 10 January 2024
    in Israel, an instant of the evening of 9 January lies strictly before
    the start of the day in Asia/Jerusalem, and [prune] keeps it. *)
Lemma C1_counterexample_rolling_window :
  let now := 1704880800000 in
  let boundary := 1704837600000 in
  let t := 1704830400000 in
  let s := Bot.store [104; 105] [t] (botWith []) in
  Zone.startOfDayIn Zone.Asia_Jerusalem now boundary
  /\ t < boundary
  /\ Bot.history (Bot.prune now s) !! [104; 105] = Some [t].
Proof.
  split; [|split].
  - vm_compute. reflexivity.
  - reflexivity.
  - rewrite prune_history. simpl. rewrite lookup_insert_eq. reflexivity.
Qed.

(** C9.  Running the eviction twice with one boundary gives the table of
    running it once; so do the whole of [midnightPrune], run again at once
    or later on the same day, and the whole of [prune], with the set of
    processed identifiers and the file. *)
Theorem C9_eviction_idempotent (host : Host) (now cutoff : Z) :
  (forall h, Evict.loop cutoff (Evict.loop cutoff h) = Evict.loop cutoff h)
  /\ (forall s, Main.midnightPrune host now (Main.midnightPrune host now s)
                = Main.midnightPrune host now s)
  /\ (forall later s,
        getIsraelMidnight host later = getIsraelMidnight host now ->
        Main.midnightPrune host later (Main.midnightPrune host now s)
        = Main.midnightPrune host now s)
  /\ (forall s, Bot.prune now (Bot.prune now s) = Bot.prune now s).
Proof.
  split; [|split; [|split]].
  - apply loop_idempotent.
  - apply midnightPrune_idempotent.
  - intros later s Hsame. unfold Main.midnightPrune. rewrite Hsame. simpl.
    by rewrite loop_idempotent.
  - apply prune_idempotent.
Qed.

(** ** Trimming, splitting and counting words *)

Section Words.
Implicit Types (s t : jsstring) (c : Z).

Lemma split_ws_from_cons g s : exists w ws, JS.split_ws_from g s = w :: ws.
Proof.
  revert g. induction s as [|c s IH]; intros g; simpl; [by eauto|].
  destruct (JS.isWhiteSpace c).
  - destruct g; [apply IH | by eauto].
  - destruct (JS.split_ws_from false s); by eauto.
Qed.

Lemma countWords_head s :
  (countWords true s + (if headIsWs s then 1 else 0)
   = countWords false s + (if s is [] then 0 else 1))%nat.
Proof. destruct s as [|c s]; simpl; [done|]. destruct (JS.isWhiteSpace c); lia. Qed.

(** The words are the pieces of [split] that are not empty. *)
Lemma filter_split_count g s :
  length (List.filter JS.nonEmpty (JS.split_ws_from g s)) = countWords true s.
Proof.
  revert g. induction s as [|c s IH]; intros g; [done|].
  cbn [JS.split_ws_from countWords]. destruct (JS.isWhiteSpace c) eqn:Hc.
  - destruct g; cbn [List.filter JS.nonEmpty]; apply IH.
  - specialize (IH false).
    destruct (split_ws_from_cons false s) as (w & ws & Hs). rewrite Hs in *.
    cbn [List.filter JS.nonEmpty length] in *.
    destruct w as [|c' w]; cbn [JS.nonEmpty length] in IH.
    + (* the next piece is empty: [s] is empty or starts with white space *)
      destruct s as [|c2 s]; [simpl in *; lia|].
      cbn [JS.split_ws_from countWords] in *.
      destruct (JS.isWhiteSpace c2); [simpl; lia|].
      destruct (JS.split_ws_from false s); discriminate.
    + destruct s as [|c2 s]; [discriminate|].
      cbn [JS.split_ws_from countWords] in *.
      destruct (JS.isWhiteSpace c2).
      * destruct (JS.split_ws_from true s); discriminate.
      * simpl in *. lia.
Qed.

(** All the pieces of [split], the empty ones at the two ends included. *)
Lemma split_length g s :
  length (JS.split_ws_from g s)
  = (countWords true s + (if g then 0 else if headIsWs s then 1 else 0)
     + (if lastIsWs s || (if s is [] then true else false) then 1 else 0))%nat.
Proof.
  revert g. induction s as [|c s IH]; intros g; [by destruct g|].
  cbn [JS.split_ws_from countWords headIsWs].
  assert (lastIsWs (c :: s) = if s is [] then JS.isWhiteSpace c else lastIsWs s) as Hlast.
  { unfold lastIsWs. destruct s as [|c2 s]; [done|]. by rewrite last_cons_cons. }
  rewrite Hlast, orb_false_r. destruct (JS.isWhiteSpace c) eqn:Hc.
  - destruct g; cbn [length]; rewrite (IH true); destruct s;
      rewrite ?orb_true_r, ?orb_false_r;(try destruct (lastIsWs (_ :: _))); lia.
  - pose proof (IH false) as IHf. pose proof (countWords_head s) as Hh.
    destruct (split_ws_from_cons false s) as (w & ws & Hs). rewrite Hs in *.
    cbn [length] in *. rewrite IHf. destruct s as [|c2 s].
    + rewrite orb_true_r. simpl. destruct g; lia.
    + rewrite orb_false_r. destruct (lastIsWs (c2 :: s)); destruct g; lia.
Qed.

Lemma trimStart_head s : headIsWs (JS.trimStart s) = false.
Proof.
  induction s as [|c s IH]; [done|]. simpl.
  destruct (JS.isWhiteSpace c) eqn:Hc; [done|]. simpl. by rewrite Hc.
Qed.

Lemma trimStart_snoc s c :
  JS.isWhiteSpace c = false -> JS.trimStart (s ++ [c]) = JS.trimStart s ++ [c].
Proof.
  intros Hc. induction s as [|c' s IH]; simpl; [by rewrite Hc|].
  by destruct (JS.isWhiteSpace c').
Qed.

Lemma trimStart_split s :
  exists pre, s = pre ++ JS.trimStart s /\ forallb JS.isWhiteSpace pre = true.
Proof.
  induction s as [|c s (pre & Hs & Hpre)]; [by exists []|]. simpl.
  destruct (JS.isWhiteSpace c) eqn:Hc.
  - exists (c :: pre). simpl. rewrite Hc, Hpre. split; [by f_equal|done].
  - by exists [].
Qed.

Lemma trimEnd_split s :
  exists suf, s = JS.trimEnd s ++ suf /\ forallb JS.isWhiteSpace suf = true.
Proof.
  destruct (trimStart_split (rev s)) as (pre & Hs & Hpre).
  exists (rev pre). split.
  - unfold JS.trimEnd. rewrite <- rev_app_distr, <- Hs. by rewrite rev_involutive.
  - rewrite forallb_forall in *. intros x Hx. apply Hpre. by apply in_rev.
Qed.

Lemma last_rev_head {A} (l : list A) : last (rev l) = head l.
Proof. destruct l as [|x l]; [done|]. simpl. by rewrite last_snoc. Qed.

Lemma trimEnd_last s : lastIsWs (JS.trimEnd s) = false.
Proof.
  unfold lastIsWs, JS.trimEnd. rewrite last_rev_head.
  pose proof (trimStart_head (rev s)) as Hh.
  by destruct (JS.trimStart (rev s)).
Qed.

Lemma trimEnd_head s : headIsWs s = false -> headIsWs (JS.trimEnd s) = false.
Proof.
  destruct s as [|c s]; [done|]. simpl. intros Hc.
  unfold JS.trimEnd. simpl. rewrite trimStart_snoc by done.
  rewrite rev_app_distr. simpl. done.
Qed.

Lemma trim_head s : headIsWs (JS.trim s) = false.
Proof. apply trimEnd_head, trimStart_head. Qed.

Lemma trim_last s : lastIsWs (JS.trim s) = false.
Proof. apply trimEnd_last. Qed.

Lemma countWords_trimStart s : countWords true (JS.trimStart s) = countWords true s.
Proof.
  induction s as [|c s IH]; [done|]. simpl.
  destruct (JS.isWhiteSpace c) eqn:Hc; [done|]. simpl. by rewrite Hc.
Qed.

Lemma countWords_ws g s : forallb JS.isWhiteSpace s = true -> countWords g s = O.
Proof.
  revert g. induction s as [|c s IH]; intros g; [done|]. simpl.
  intros [Hc Hs]%andb_true_iff. rewrite Hc. by apply IH.
Qed.

Lemma countWords_app_ws g s suf :
  forallb JS.isWhiteSpace suf = true -> countWords g (s ++ suf) = countWords g s.
Proof.
  intros Hsuf. revert g. induction s as [|c s IH]; intros g; simpl.
  - by apply countWords_ws.
  - destruct (JS.isWhiteSpace c); by rewrite IH.
Qed.

Lemma countWords_trimEnd s : countWords true (JS.trimEnd s) = countWords true s.
Proof.
  destruct (trimEnd_split s) as (suf & Hs & Hsuf).
  rewrite Hs at 2. by rewrite countWords_app_ws.
Qed.

(** Trimming keeps the words. *)
Lemma wordCount_trim s : wordCount (JS.trim s) = wordCount s.
Proof.
  unfold wordCount, JS.trim. by rewrite countWords_trimEnd, countWords_trimStart.
Qed.

Lemma wordCount_nil_iff s : headIsWs s = false -> (wordCount s = O <-> s = []).
Proof.
  destruct s as [|c s]; [done|]. unfold wordCount. simpl. intros ->.
  split; [lia|discriminate].
Qed.

(** The filter of the commented variant lets through the qualifying texts
    and no other. *)
Lemma Main_accepted_iff text :
  Main.accepted (JS.trim text) = true <-> qualifying text.
Proof.
  unfold Main.accepted, qualifying, JS.split_ws.
  rewrite filter_split_count. fold (wordCount (JS.trim text)).
  pose proof (wordCount_nil_iff (JS.trim text) (trim_head text)) as Hnil.
  rewrite wordCount_trim in *.
  rewrite negb_true_iff, !orb_false_iff, !Nat.eqb_neq, Nat.ltb_ge.
  split.
  - lia.
  - intros [H1 H3]. repeat split; [lia|lia|].
    intros Hlen. apply length_zero_iff_nil in Hlen. apply Hnil in Hlen. lia.
Qed.

(** The filter of [bot.js] lets through the texts of at most three
    words: [split] gives one piece for the empty text. *)
Lemma Bot_accepted_iff text :
  Bot.accepted (JS.trim text) = true <-> (wordCount text <= 3)%nat.
Proof.
  unfold Bot.accepted, JS.split_ws. rewrite split_length.
  rewrite trim_head, trim_last. fold (wordCount (JS.trim text)).
  rewrite wordCount_trim.
  pose proof (wordCount_nil_iff (JS.trim text) (trim_head text)) as Hnil.
  rewrite wordCount_trim in Hnil.
  rewrite negb_true_iff, !orb_false_iff, !Nat.eqb_neq, Nat.ltb_ge.
  destruct (JS.trim text) as [|c s] eqn:Ht; simpl.
  - assert (wordCount text = O) by (by apply Hnil). lia.
  - assert (wordCount text <> O) by (intros H0; apply Hnil in H0; discriminate). lia.
Qed.

End Words.

(** ** The polling callback of the commented variant *)

Section MainFacts.
Variable host : Host.
Implicit Types (s : Main.State) (c : Main.Clock) (p : Poll) (k id text : jsstring).

Lemma set_has_true id (ids : list jsstring) : JS.set_has id ids = true <-> id ∈ ids.
Proof. unfold JS.set_has. apply bool_decide_eq_true. Qed.

Lemma set_has_false id (ids : list jsstring) : JS.set_has id ids = false <-> id ∉ ids.
Proof. unfold JS.set_has. apply bool_decide_eq_false. Qed.

Lemma set_add_elem id id' (ids : list jsstring) :
  id' ∈ JS.set_add id ids <-> id' = id \/ id' ∈ ids.
Proof.
  unfold JS.set_add. destruct (JS.set_has id ids) eqn:Hhas.
  - apply set_has_true in Hhas. split; [by right|]. intros [->|?]; done.
  - rewrite elem_of_app, list_elem_of_singleton. tauto.
Qed.

Lemma Main_rollover_quiet c s : Main.quiet host c s -> Main.rollover host c s = s.
Proof.
  unfold Main.quiet, Main.rollover. intros Hq.
  by rewrite (proj2 (Z.ltb_ge _ _) Hq).
Qed.

Lemma Main_rollover_due c s :
  Main.lastPruneMidnight s < getIsraelMidnight host (Main.at_check c) ->
  Main.rollover host c s = Main.midnightPrune host (Main.at_prune c) s.
Proof.
  unfold Main.rollover. intros Hlt. by rewrite (proj2 (Z.ltb_lt _ _) Hlt).
Qed.

Lemma Main_tick_quiet c p s :
  Main.quiet host c s -> Main.tick host c p s = Main.handle host c p s.
Proof. intros Hq. unfold Main.tick. by rewrite Main_rollover_quiet. Qed.

(** A new message with a qualifying text is stored, and answered from
    the occurrences found before it. *)
Lemma Main_handle_admit c p s row id text :
  delivers p row id text -> id ∉ Main.processedIds s -> qualifying text ->
  let key := Main.historyKey host (JS.trim text) in
  let prev := default [] (Main.history s !! key) in
  Main.handle host c p s
  = (Main.store key (prev ++ [Main.at_stamp c])
       (Main.setProcessed (JS.set_add id (Main.processedIds s)) s),
     Main.answer host p (JS.trim text) prev).
Proof.
  intros (Hrow & Hid & Hne & Htext) Hnew Hq. unfold Main.handle, JS.last_of.
  rewrite Hrow, Hid. destruct id as [|u id]; [done|].
  rewrite (proj2 (set_has_false _ _) Hnew), Htext.
  rewrite (proj2 (Main_accepted_iff text) Hq). reflexivity.
Qed.

(** A message whose text does not qualify leaves the table and the file
    as they were, and is not answered. *)
Lemma Main_handle_reject c p s row text :
  last (rows p) = Some row -> text_node row = Some text -> ~ qualifying text ->
  Main.history (Main.handle host c p s).1 = Main.history s
  /\ Main.disk (Main.handle host c p s).1 = Main.disk s
  /\ (Main.handle host c p s).2 = Skipped.
Proof.
  intros Hrow Htext Hq. unfold Main.handle, JS.last_of. rewrite Hrow, Htext.
  assert (Main.accepted (JS.trim text) = false) as ->.
  { destruct (Main.accepted (JS.trim text)) eqn:Ha; [|done].
    by apply Main_accepted_iff in Ha. }
  destruct (data_id row) as [[|u id]|]; [done| |done].
  by destruct (JS.set_has (u :: id) (Main.processedIds s)).
Qed.

(** A message whose identifier was processed already changes nothing. *)
Lemma Main_handle_seen c p s row id :
  last (rows p) = Some row -> data_id row = Some id -> id ∈ Main.processedIds s ->
  Main.handle host c p s = (s, Skipped).
Proof.
  intros Hrow Hid Hin. unfold Main.handle, JS.last_of. rewrite Hrow, Hid.
  destruct id as [|u id]; [done|].
  by rewrite (proj2 (set_has_true _ _) Hin).
Qed.

(** The callback never removes an identifier, and never shortens a list
    of the table: it only appends. *)
Lemma Main_handle_grows c p s :
  (forall id, id ∈ Main.processedIds s -> id ∈ Main.processedIds (Main.handle host c p s).1)
  /\ (forall k l, Main.history s !! k = Some l ->
        exists l', Main.history (Main.handle host c p s).1 !! k = Some (l ++ l')).
Proof.
  assert (forall k l, Main.history s !! k = Some l ->
            exists l', Main.history s !! k = Some (l ++ l')) as Hsame.
  { intros k l Hl. exists []. by rewrite app_nil_r. }
  unfold Main.handle.
  destruct (JS.last_of (rows p)) as [row|]; [|by split].
  destruct (data_id row) as [[|u id]|]; [by split| |by split].
  destruct (JS.set_has (u :: id) (Main.processedIds s)); [by split|].
  assert (forall id', id' ∈ Main.processedIds s ->
            id' ∈ JS.set_add (u :: id) (Main.processedIds s)) as Hids
    by (intros id' Hin; apply set_add_elem; by right).
  destruct (text_node row) as [text|]; [|by split].
  destruct (Main.accepted (JS.trim text)); [|by split].
  split; [exact Hids|]. intros k l Hl. simpl.
  destruct (decide (Main.historyKey host (JS.trim text) = k)) as [<-|Hne].
  - rewrite lookup_insert_eq, Hl. simpl. by eauto.
  - rewrite lookup_insert_ne by done. by apply Hsame.
Qed.

Lemma Main_handle_marks c p s row id :
  last (rows p) = Some row -> data_id row = Some id -> id <> [] ->
  id ∈ Main.processedIds (Main.handle host c p s).1.
Proof.
  intros Hrow Hid Hne. unfold Main.handle, JS.last_of. rewrite Hrow, Hid.
  destruct id as [|u id]; [done|].
  destruct (JS.set_has (u :: id) (Main.processedIds s)) eqn:Hhas.
  - by apply set_has_true in Hhas.
  - assert (u :: id ∈ JS.set_add (u :: id) (Main.processedIds s)) as Hin
      by (apply set_add_elem; by left).
    destruct (text_node row) as [text|]; [|done].
    by destruct (Main.accepted (JS.trim text)).
Qed.

Lemma Main_run_grows steps s :
  Main.quietRun host steps s ->
  (forall id, id ∈ Main.processedIds s -> id ∈ Main.processedIds (Main.run host steps s))
  /\ (forall k l, Main.history s !! k = Some l ->
        exists l', Main.history (Main.run host steps s) !! k = Some (l ++ l')).
Proof.
  revert s. induction steps as [|[c p] steps IH]; intros s Hq; simpl.
  - split; [done|]. intros k l Hl. exists []. by rewrite app_nil_r.
  - simpl in Hq. destruct Hq as [Hq Hrest].
    destruct (IH _ Hrest) as [IHids IHhist].
    rewrite Main_tick_quiet in * by done.
    destruct (Main_handle_grows c p s) as [Hids Hhist].
    split.
    + intros id Hin. by apply IHids, Hids.
    + intros k l Hl. destruct (Hhist k l Hl) as [l1 Hl1].
      destruct (IHhist k _ Hl1) as [l2 Hl2]. exists (l1 ++ l2).
      by rewrite app_assoc.
Qed.

End MainFacts.

(** What the loop leaves under a key, with the filter written out. *)
Lemma kept_filter (cutoff : Z) (l : list Z) :
  Evict.kept cutoff l
  = match List.filter (fun t => cutoff <=? t) l with
    | [] => None
    | t :: r => Some (t :: r)
    end.
Proof. reflexivity. Qed.

(** C8 (as amended).  In the commented variant and in [backup/bot.js],
    when the day boundary read at the head of a poll is strictly after the
    boundary recorded at the last eviction, the poll runs [midnightPrune]:
    under every key the instants at or after the boundary read in it stay,
    in their order, and a key that keeps none is dropped; the set of
    processed identifiers is emptied; that boundary is recorded and the file
    is rewritten; the rest of the callback then runs on this state, and a
    poll that sees no row stops there.  [bot.js] records no boundary: its
    [prune] evicts what is older than 24 hours, whatever the day, and leaves
    a set of at most [MAX_IDS] identifiers as it is. *)
Theorem C8_rollover_evicts_clears_records (host : Host) (c : Main.Clock) (s : Main.State) :
  Main.lastPruneMidnight s < getIsraelMidnight host (Main.at_check c) ->
  let today := getIsraelMidnight host (Main.at_prune c) in
  let s' := Main.rollover host c s in
  (forall k, Main.history s' !! k
             = match Main.history s !! k with
               | Some l =>
                   match List.filter (fun t => today <=? t) l with
                   | [] => None
                   | t :: r => Some (t :: r)
                   end
               | None => None
               end)
  /\ Main.processedIds s' = []
  /\ Main.lastPruneMidnight s' = today
  /\ Main.disk s' = Some (Persist.persist (Main.history s'))
  /\ (forall p, Main.tick host c p s = Main.handle host c p s')
  /\ (forall p, BackupLoop.tick host c p s = BackupLoop.handle host c p s')
  /\ (forall p, rows p = [] -> Main.tick host c p s = (s', Skipped))
  /\ (forall (b : Bot.State) (now : Z),
        (forall k, Bot.history (Bot.prune now b) !! k
                   = match Bot.history b !! k with
                     | Some l =>
                         match List.filter (fun t => now - Bot.DAY_MS <=? t) l with
                         | [] => None
                         | t :: r => Some (t :: r)
                         end
                     | None => None
                     end)
        /\ ((length (Bot.processedIds b) <= Bot.MAX_IDS)%nat ->
            Bot.processedIds (Bot.prune now b) = Bot.processedIds b)).
Proof.
  intros Hdue today s'. subst s'. rewrite Main_rollover_due by done.
  split; [|split; [|split; [|split; [|split; [|split; [|split]]]]]].
  - intros k. rewrite midnightPrune_history. fold today.
    destruct (Main.history s !! k) as [l|]; [apply kept_filter|reflexivity].
  - reflexivity.
  - reflexivity.
  - reflexivity.
  - intros p. unfold Main.tick. by rewrite Main_rollover_due.
  - intros p. unfold BackupLoop.tick. by rewrite Main_rollover_due.
  - intros p Hrows. unfold Main.tick, Main.handle. rewrite Main_rollover_due by done.
    by rewrite Hrows.
  - intros b now. split.
    + intros k. rewrite prune_history.
      destruct (Bot.history b !! k) as [l|]; [apply kept_filter|reflexivity].
    + intros Hlen. unfold Bot.prune. cbn [Bot.processedIds]. rewrite trimIds_spec.
      by rewrite (proj2 (Nat.ltb_ge _ _) Hlen).
Qed.

(** C8, the claim as stated fails on [bot.js]: "hi" is observed at 23:00 of
    10 January 2024 in Israel under identifier "1" and again at 08:00 of 11
    January under identifier "2".  The day boundary has advanced between the
    two, yet the second poll leaves identifier "1" in the set, keeps the
    instant of the day before in the list, and answers with its time. *)
Lemma C8_counterexample_bot_has_no_rollover :
  let host := referenceHost Zone.Asia_Jerusalem in
  let hi := [104; 105] in
  let t1 := 1704920400000 in
  let t2 := 1704952800000 in
  let s1 := (Bot.tick host (botClock t1) (pollOf [49] hi) (botWith [])).1 in
  let r := Bot.tick host (botClock t2) (pollOf [50] hi) s1 in
  Zone.startOfDayIn Zone.Asia_Jerusalem t1 1704837600000
  /\ Zone.startOfDayIn Zone.Asia_Jerusalem t2 1704924000000
  /\ t1 < 1704924000000
  /\ Bot.processedIds r.1 = [[49]; [50]]
  /\ Bot.history r.1 !! hi = Some [t1; t2]
  /\ r.2 = Replied (Bot.replyHead ++ hi ++ Bot.replyMiddle ++ [50; 51; 58; 48; 48]
                    ++ Bot.replyTail).
Proof. vm_compute. repeat split. Qed.

(** ** The polling callback of [bot.js] *)

Section BotFacts.
Variable host : Host.
Implicit Types (s : Bot.State) (c : Bot.Clock) (p : Poll) (k id text : jsstring).

(** A new message of at most three words is stored after the prune, and
    answered from what the prune left under its key. *)
Lemma Bot_tick_admit c p s row id text :
  delivers p row id text -> id ∉ Bot.processedIds s -> (wordCount text <= 3)%nat ->
  let s1 := Bot.prune (Bot.at_prune c) (Bot.markProcessed id s) in
  let key := Bot.historyKey host (JS.trim text) in
  let prev := default [] (Bot.history s1 !! key) in
  Bot.tick host c p s
  = (Bot.store key (prev ++ [Bot.messageDate host c row]) s1,
     Bot.answer host p (JS.trim text) prev).
Proof.
  intros (Hrow & Hid & Hne & Htext) Hnew Hq. unfold Bot.tick, JS.last_of.
  rewrite Hrow, Hid. destruct id as [|u id]; [done|].
  rewrite (proj2 (set_has_false _ _) Hnew), Htext.
  rewrite (proj2 (Bot_accepted_iff text) Hq). reflexivity.
Qed.

(** A poll whose prune removes nothing never shortens a list of the
    table. *)
Lemma Bot_tick_grows c p s :
  Bot.quiet c s ->
  forall k l, Bot.history s !! k = Some l ->
    exists l', Bot.history (Bot.tick host c p s).1 !! k = Some (l ++ l').
Proof.
  intros Hq.
  assert (forall k l, Bot.history s !! k = Some l ->
            exists l', Bot.history s !! k = Some (l ++ l')) as Hsame.
  { intros k l Hl. exists []. by rewrite app_nil_r. }
  unfold Bot.tick.
  destruct (JS.last_of (rows p)) as [row|]; [|done].
  destruct (data_id row) as [[|u id]|]; [done| |done].
  destruct (JS.set_has (u :: id) (Bot.processedIds s)); [done|].
  destruct (text_node row) as [text|]; [|done].
  destruct (Bot.accepted (JS.trim text)); [|done].
  intros k l Hl. simpl. unfold Bot.quiet in Hq. rewrite Hq.
  destruct (decide (Bot.historyKey host (JS.trim text) = k)) as [<-|Hne].
  - rewrite lookup_insert_eq, Hl. simpl. by eauto.
  - rewrite lookup_insert_ne by done. by apply Hsame.
Qed.

Lemma Bot_run_grows steps s :
  Bot.quietRun host steps s ->
  forall k l, Bot.history s !! k = Some l ->
    exists l', Bot.history (Bot.run host steps s) !! k = Some (l ++ l').
Proof.
  revert s. induction steps as [|[c p] steps IH]; intros s Hq k l Hl; simpl.
  - exists []. by rewrite app_nil_r.
  - simpl in Hq. destruct Hq as [Hq Hrest].
    destruct (Bot_tick_grows c p s Hq k l Hl) as [l1 Hl1].
    destruct (IH _ Hrest k _ Hl1) as [l2 Hl2]. exists (l1 ++ l2).
    by rewrite app_assoc.
Qed.

End BotFacts.

Lemma answer_nonempty_Main host p text (prior : list Z) :
  prior <> [] ->
  Main.answer host p text prior
  = if compose_box p then Replied (Main.buildReply host text prior)
    else ReplyNotSent (Main.buildReply host text prior).
Proof. by destruct prior. Qed.

Lemma answer_nonempty_Bot host p text (prior : list Z) :
  prior <> [] ->
  Bot.answer host p text prior
  = if compose_box p then Replied (Bot.buildReply host text prior)
    else ReplyNotSent (Bot.buildReply host text prior).
Proof. by destruct prior. Qed.

(** The sort of [buildReply] gives a sorted arrangement of its list. *)
Section Sorting.
Variable cmp : Z -> Z -> Z.
Variable R : Z -> Z -> Prop.
Hypothesis cmp_le : forall x y, cmp x y <= 0 -> R x y.
Hypothesis cmp_gt : forall x y, 0 < cmp x y -> R y x.

Lemma insert_by_perm x l : Permutation (x :: l) (JS.insert_by cmp x l).
Proof.
  induction l as [|y l IH]; simpl; [done|].
  destruct (cmp x y <=? 0); [done|].
  rewrite perm_swap. by constructor.
Qed.

Lemma sort_perm l : Permutation l (JS.sort cmp l).
Proof.
  induction l as [|x l IH]; simpl; [done|].
  rewrite <- insert_by_perm. by constructor.
Qed.

Lemma insert_by_sorted x l : Sorted R l -> Sorted R (JS.insert_by cmp x l).
Proof.
  induction l as [|y l IH]; intros Hs; simpl.
  - by repeat constructor.
  - destruct (cmp x y <=? 0) eqn:Hxy.
    + apply Z.leb_le in Hxy. constructor; [done|]. constructor. by apply cmp_le.
    + apply Z.leb_gt in Hxy. inversion Hs as [|? ? Hl Hhd]; subst.
      constructor; [by apply IH|].
      destruct l as [|z l]; simpl.
      * constructor. by apply cmp_gt.
      * destruct (cmp x z <=? 0); constructor; [by apply cmp_gt|].
        by inversion Hhd.
Qed.

Lemma sort_sorted l : Sorted R (JS.sort cmp l).
Proof. induction l as [|x l IH]; simpl; [constructor|by apply insert_by_sorted]. Qed.

End Sorting.

Lemma sort_ascending (l : list Z) :
  Permutation l (JS.sort (fun a b => a - b) l)
  /\ StronglySorted Z.le (JS.sort (fun a b => a - b) l).
Proof.
  split; [apply sort_perm|].
  apply Sorted_StronglySorted; [intros x y z; lia|].
  apply sort_sorted; intros x y; lia.
Qed.

Lemma sort_descending (l : list Z) :
  Permutation l (JS.sort (fun a b => b - a) l)
  /\ StronglySorted Z.ge (JS.sort (fun a b => b - a) l).
Proof.
  split; [apply sort_perm|].
  apply Sorted_StronglySorted; [intros x y z; lia|].
  apply sort_sorted; intros x y; lia.
Qed.

(** Two qualifying texts with one key: the commented variant detects the
    second as a duplicate of the first. *)
Lemma Main_detects (host : Host) (text1 text2 : jsstring) :
  qualifying text1 -> qualifying text2 ->
  Main.historyKey host (JS.trim text2) = Main.historyKey host (JS.trim text1) ->
  Main.detects host text1 text2.
Proof.
  intros Hq1 Hq2 Hkey s0 c1 p1 row1 id1 mid c2 p2 row2 id2
    Hd1 Hnew1 s1 Hmid s2 Hquiet Hd2 Hnew2 key before render template.
  assert (Main.history s1 !! key = Some (before ++ [Main.at_stamp c1])) as Hs1.
  { subst s1 before key. unfold Main.tick.
    rewrite (Main_handle_admit host c1 p1 _ row1 id1 text1) by done.
    rewrite Hkey. cbn [fst Main.store Main.setProcessed Main.history].
    apply lookup_insert_eq. }
  assert (exists between,
             Main.history s2 !! key = Some ((before ++ [Main.at_stamp c1]) ++ between)
             /\ (mid = [] -> between = [])) as (between & Hs2 & Hmid0).
  { destruct mid as [|cp mid].
    - exists []. split; [by rewrite app_nil_r|done].
    - destruct (Main_run_grows host (cp :: mid) s1 Hmid) as [_ Hgrow].
      destruct (Hgrow _ _ Hs1) as [l' Hl']. exists l'. split; [exact Hl'|discriminate]. }
  rewrite <- app_assoc in Hs2.
  exists between, (JS.sort (fun a b => a - b) (before ++ [Main.at_stamp c1] ++ between)).
  cbv zeta. set (prior := before ++ [Main.at_stamp c1] ++ between) in *.
  destruct (sort_ascending prior) as [Hperm Hsorted].
  assert (prior <> []) as Hne by (subst prior; by destruct before).
  assert (Main.tick host c2 p2 s2
          = (Main.store key (prior ++ [Main.at_stamp c2])
               (Main.setProcessed (JS.set_add id2 (Main.processedIds s2)) s2),
             Main.answer host p2 (JS.trim text2) prior)) as Htick.
  { rewrite Main_tick_quiet by done.
    rewrite (Main_handle_admit host c2 p2 s2 row2 id2 text2) by done.
    fold key. by rewrite Hs2. }
  rewrite Htick. cbn [fst snd].
  split; [exact Hs2|]. split; [exact Hmid0|]. split; [exact Hperm|].
  split; [exact Hsorted|].
  split; [by rewrite answer_nonempty_Main|]. split.
  - intros Hb Hbt. rewrite answer_nonempty_Main by done.
    assert (prior = [Main.at_stamp c1]) as -> by (subst prior; by rewrite Hb, Hbt).
    by destruct (compose_box p2).
  - cbn [Main.store Main.history]. apply lookup_insert_eq.
Qed.

(** Two qualifying texts with one key: [bot.js] detects the second as a
    duplicate of the first. *)
Lemma Bot_detects (host : Host) (text1 text2 : jsstring) :
  qualifying text1 -> qualifying text2 ->
  Bot.historyKey host (JS.trim text2) = Bot.historyKey host (JS.trim text1) ->
  Bot.detects host text1 text2.
Proof.
  intros [Hq1 Hq1'] [Hq2 Hq2'] Hkey s0 c1 p1 row1 id1 mid c2 p2 row2 id2
    Hd1 Hnew1 s1 Hmid s2 Hquiet Hd2 Hnew2 key before render template.
  assert (Bot.history s1 !! key = Some (before ++ [Bot.messageDate host c1 row1])) as Hs1.
  { subst s1 before key.
    rewrite (Bot_tick_admit host c1 p1 _ row1 id1 text1) by done.
    rewrite Hkey.
    cbn [fst Bot.store Bot.prune Bot.markProcessed Bot.history].
    apply lookup_insert_eq. }
  assert (exists between,
             Bot.history s2 !! key
             = Some ((before ++ [Bot.messageDate host c1 row1]) ++ between)
             /\ (mid = [] -> between = [])) as (between & Hs2 & Hmid0).
  { destruct mid as [|cp mid].
    - exists []. split; [by rewrite app_nil_r|done].
    - destruct (Bot_run_grows host (cp :: mid) s1 Hmid _ _ Hs1) as [l' Hl'].
      exists l'. split; [exact Hl'|discriminate]. }
  rewrite <- app_assoc in Hs2.
  exists between,
    (JS.sort (fun a b => b - a) (before ++ [Bot.messageDate host c1 row1] ++ between)).
  cbv zeta. set (prior := before ++ [Bot.messageDate host c1 row1] ++ between) in *.
  destruct (sort_descending prior) as [Hperm Hsorted].
  assert (prior <> []) as Hne by (subst prior; by destruct before).
  assert (Bot.tick host c2 p2 s2
          = (Bot.store key (prior ++ [Bot.messageDate host c2 row2])
               (Bot.prune (Bot.at_prune c2) (Bot.markProcessed id2 s2)),
             Bot.answer host p2 (JS.trim text2) prior)) as Htick.
  { rewrite (Bot_tick_admit host c2 p2 s2 row2 id2 text2) by done.
    fold key. cbn [Bot.prune Bot.markProcessed Bot.history].
    unfold Bot.quiet in Hquiet. by rewrite Hquiet, Hs2. }
  rewrite Htick. cbn [fst snd].
  split; [exact Hs2|]. split; [exact Hmid0|]. split; [exact Hperm|].
  split; [exact Hsorted|].
  split; [by rewrite answer_nonempty_Bot|]. split.
  - intros Hb Hbt. rewrite answer_nonempty_Bot by done.
    assert (prior = [Bot.messageDate host c1 row1]) as ->
      by (subst prior; by rewrite Hb, Hbt).
    by destruct (compose_box p2).
  - cbn [Bot.store Bot.history]. apply lookup_insert_eq.
Qed.

(** C2.  A qualifying text is observed, then polls follow in which nothing
    is evicted, then a qualifying text with the same key is observed under a
    new identifier.  The second observation builds a reply, typed when the
    compose box is there.  The reply is the template of the variant around
    the times of the list found under the key before the append: the list
    found before the first observation, the time of the first observation,
    and what the polls in between appended; the times are sorted, rendered
    in Asia/Jerusalem and joined by the separator of the variant.  The time
    of the second observation is appended to the list afterwards and is not
    in the reply.  When the key was not in the table before the first
    observation and no poll came in between, the reply lists the time of
    the first observation and nothing else.  This holds for the commented
    variant (no eviction: no day rollover is due) and for [bot.js] (no
    eviction: the prune of each poll removes nothing). *)
Theorem C2_second_observation_replies_with_prior_times
    (host : Host) (text1 text2 : jsstring) :
  qualifying text1 -> qualifying text2 ->
  toLowerCase host (JS.trim text2) = toLowerCase host (JS.trim text1) ->
  Main.detects host text1 text2 /\ Bot.detects host text1 text2.
Proof.
  intros Hq1 Hq2 Hkey. split; [by apply Main_detects | by apply Bot_detects].
Qed.

(** ** Texts without words, and identifiers delivered twice *)

(** The empty text is its own lower case. *)
Lemma toLowerCase_nil (host : Host) : toLowerCase host [] = [].
Proof. by rewrite toLowerCase_basicLatin by constructor. Qed.

Lemma trim_without_words text : wordCount text = O -> JS.trim text = [].
Proof.
  intros H0. apply (wordCount_nil_iff _ (trim_head text)). by rewrite wordCount_trim.
Qed.

(** The commented variant turns away every text that does not qualify:
    the table and the file stay as the rollover check left them, and there
    is no reply. *)
Lemma Main_tick_reject host c p s row text :
  last (rows p) = Some row -> text_node row = Some text -> ~ qualifying text ->
  Main.history (Main.tick host c p s).1 = Main.history (Main.rollover host c s)
  /\ Main.disk (Main.tick host c p s).1 = Main.disk (Main.rollover host c s)
  /\ (Main.tick host c p s).2 = Skipped.
Proof. intros. unfold Main.tick. by eapply Main_handle_reject. Qed.

(** [bot.js] does turn away a text of more than three words: nothing is
    stored and there is no reply. *)
Lemma Bot_tick_reject_long host c p s row text :
  last (rows p) = Some row -> text_node row = Some text -> (3 < wordCount text)%nat ->
  Bot.history (Bot.tick host c p s).1 = Bot.history s
  /\ Bot.disk (Bot.tick host c p s).1 = Bot.disk s
  /\ (Bot.tick host c p s).2 = Skipped.
Proof.
  intros Hrow Htext Hlong. unfold Bot.tick, JS.last_of. rewrite Hrow, Htext.
  assert (Bot.accepted (JS.trim text) = false) as ->.
  { destruct (Bot.accepted (JS.trim text)) eqn:Ha; [|done].
    apply Bot_accepted_iff in Ha. lia. }
  destruct (data_id row) as [[|u id]|]; [done| |done].
  by destruct (JS.set_has (u :: id) (Bot.processedIds s)).
Qed.

(** C3, on [bot.js].  A new message whose text has no word at all (empty
    after trimming) passes the filter of [bot.js]: its time is appended under
    the empty key, and it is answered as a duplicate when the empty key has
    earlier occurrences. *)
Theorem C3_bot_stores_text_without_words
    (host : Host) (c : Bot.Clock) (p : Poll) (s : Bot.State) row id text :
  delivers p row id text -> id ∉ Bot.processedIds s -> wordCount text = O ->
  let s1 := Bot.prune (Bot.at_prune c) (Bot.markProcessed id s) in
  let prev := default [] (Bot.history s1 !! []) in
  Bot.tick host c p s
  = (Bot.store [] (prev ++ [Bot.messageDate host c row]) s1, Bot.answer host p [] prev)
  /\ Bot.history (Bot.tick host c p s).1 !! [] = Some (prev ++ [Bot.messageDate host c row]).
Proof.
  intros Hd Hnew H0 s1 prev.
  pose proof (Bot_tick_admit host c p s row id text Hd Hnew) as Ht.
  rewrite (trim_without_words text H0) in Ht. unfold Bot.historyKey in Ht.
  rewrite toLowerCase_nil in Ht. simpl in Ht.
  rewrite Ht by lia. split; [reflexivity|]. simpl. apply lookup_insert_eq.
Qed.

(** C7, on [bot.js].  When the set of processed identifiers has reached
    [MAX_IDS], the poll that processes a new message empties the set, the
    identifier of that message included; the next poll sees the same row
    and processes it again: a second append, and a reply that lists the
    first delivery. *)
Theorem C7_bot_processes_redelivery
    (host : Host) (c1 c2 : Bot.Clock) (p : Poll) (s : Bot.State) row id text :
  delivers p row id text -> id ∉ Bot.processedIds s -> qualifying text ->
  (Bot.MAX_IDS <= length (Bot.processedIds s))%nat ->
  let s1 := (Bot.tick host c1 p s).1 in
  Bot.quiet c2 s1 ->
  let key := Bot.historyKey host (JS.trim text) in
  Bot.processedIds s1 = []
  /\ exists prior,
       Bot.history s1 !! key = Some (prior ++ [Bot.messageDate host c1 row])
       /\ Bot.history (Bot.tick host c2 p s1).1 !! key
          = Some ((prior ++ [Bot.messageDate host c1 row]) ++ [Bot.messageDate host c2 row])
       /\ replyOf (Bot.tick host c2 p s1).2
          = Some (Bot.buildReply host (JS.trim text)
                    (prior ++ [Bot.messageDate host c1 row])).
Proof.
  intros Hd Hnew [Hq1 Hq3] Hfull s1 Hquiet key.
  assert (Bot.tick host c1 p s
          = (let s1 := Bot.prune (Bot.at_prune c1) (Bot.markProcessed id s) in
             let prev := default [] (Bot.history s1 !! key) in
             (Bot.store key (prev ++ [Bot.messageDate host c1 row]) s1,
              Bot.answer host p (JS.trim text) prev))) as Ht1
    by (by apply Bot_tick_admit).
  assert (Bot.processedIds s1 = []) as Hids.
  { subst s1. rewrite Ht1. simpl. rewrite trimIds_spec.
    unfold JS.set_add. rewrite (proj2 (set_has_false _ _) Hnew).
    rewrite length_app. simpl.
    by rewrite (proj2 (Nat.ltb_lt _ _)) by lia. }
  split; [exact Hids|].
  set (prior := default [] (Bot.history (Bot.prune (Bot.at_prune c1)
                                           (Bot.markProcessed id s)) !! key)).
  assert (Bot.history s1 !! key = Some (prior ++ [Bot.messageDate host c1 row])) as Hs1.
  { subst s1. rewrite Ht1. simpl. apply lookup_insert_eq. }
  exists prior. split; [exact Hs1|].
  assert (id ∉ Bot.processedIds s1) as Hnew1 by (rewrite Hids; apply not_elem_of_nil).
  rewrite (Bot_tick_admit host c2 p s1 row id text) by done.
  cbn [fst snd Bot.store Bot.history Bot.prune Bot.markProcessed].
  unfold Bot.quiet in Hquiet. rewrite Hquiet. fold key. rewrite Hs1.
  cbn [default]. split; [apply lookup_insert_eq|].
  rewrite answer_nonempty_Bot by (by destruct prior).
  by destruct (compose_box p).
Qed.

(** In the commented variant an identifier stays in the set until the next
    day rollover: a second delivery of a message on the same day changes
    nothing and is not answered. *)
Lemma Main_redelivery_skipped host (s0 : Main.State) c1 p1 row1 mid c2 p2 row2 id :
  last (rows p1) = Some row1 -> data_id row1 = Some id ->
  let s1 := (Main.tick host c1 p1 s0).1 in
  Main.quietRun host mid s1 ->
  let s2 := Main.run host mid s1 in
  Main.quiet host c2 s2 ->
  last (rows p2) = Some row2 -> data_id row2 = Some id ->
  Main.tick host c2 p2 s2 = (s2, Skipped).
Proof.
  intros Hrow1 Hid1 s1 Hmid s2 Hquiet Hrow2 Hid2.
  rewrite Main_tick_quiet by done.
  destruct (decide (id = [])) as [->|Hne].
  - unfold Main.handle, JS.last_of. by rewrite Hrow2, Hid2.
  - eapply Main_handle_seen; [done..|].
    apply (Main_run_grows host mid s1 Hmid).
    subst s1. unfold Main.tick. by eapply Main_handle_marks.
Qed.

(** ** The history key *)







(** ** The reply *)

(** C6 (as amended).  Every variant renders the earlier times with
    [toLocaleTimeString] in the zone Asia/Jerusalem (two-digit hour and
    minute, 24 hour clock), joins them with its separator and puts them with
    the text of the message into its fixed template.  The commented variant
    and [backup/bot.js] list the times in ascending order; [bot.js] lists
    them in descending order, the latest first.  The reply is a function of
    the text and the list of times. *)
Theorem C6_reply_format (host : Host) (msg : jsstring) (times : list Z) :
  exists ascending descending,
    Permutation times ascending /\ StronglySorted Z.le ascending
    /\ Permutation times descending /\ StronglySorted Z.ge descending
    /\ Main.buildReply host msg times
       = Main.replyHead ++ msg ++ Main.replyMiddle
         ++ JS.join [44; 32]
              (map (toLocaleTimeString host Main.en_US Zone.Asia_Jerusalem) ascending)
    /\ Backup.buildReply host msg times
       = Backup.replyHead ++ msg ++ Backup.replyMiddle
         ++ JS.join [44; 32]
              (map (toLocaleTimeString host Backup.en_US Zone.Asia_Jerusalem) ascending)
         ++ Backup.replyTail
    /\ Bot.buildReply host msg times
       = Bot.replyHead ++ msg ++ Bot.replyMiddle
         ++ JS.join [32; 1493; 1489]
              (map (toLocaleTimeString host Bot.he_IL Zone.Asia_Jerusalem) descending)
         ++ Bot.replyTail.
Proof.
  exists (JS.sort (fun a b => a - b) times), (JS.sort (fun a b => b - a) times).
  destruct (sort_ascending times) as [Hp1 Hs1].
  destruct (sort_descending times) as [Hp2 Hs2].
  repeat split; done.
Qed.

(** C6, the claim as stated fails on [bot.js]: for occurrences at 08:00 and
    at 09:30 (Israel time, 10 January 2024) its reply reads "09:30" before
    "08:00". *)
Lemma C6_counterexample_descending :
  let host := referenceHost Zone.Asia_Jerusalem in
  let t1 := 1704866400000 in
  let t2 := 1704871800000 in
  t1 < t2
  /\ IsoDate.hhmm Zone.Asia_Jerusalem t1 = [48; 56; 58; 48; 48]
  /\ IsoDate.hhmm Zone.Asia_Jerusalem t2 = [48; 57; 58; 51; 48]
  /\ Bot.buildReply host [104; 105] [t1; t2]
     = Bot.replyHead ++ [104; 105] ++ Bot.replyMiddle
       ++ [48; 57; 58; 51; 48] ++ Bot.separator ++ [48; 56; 58; 48; 48]
       ++ Bot.replyTail.
Proof. repeat split. Qed.

(** ** The day boundary *)

(** C4, on [getIsraelMidnight].  At 14:00 of 10 January 2024 in Israel the
    start of the day in Asia/Jerusalem is 2024-01-09T22:00:00Z.  The function
    returns that instant when the process runs in Asia/Jerusalem; it returns
    2024-01-10T00:00:00Z when the process runs in UTC and
    2024-01-10T05:00:00Z when it runs five hours behind UTC: the midnight of
    the zone of the process, which is not a start of day in Asia/Jerusalem. *)
Theorem C4_getIsraelMidnight_reads_process_zone :
  let now := 1704888000000 in
  Zone.startOfDayIn Zone.Asia_Jerusalem now 1704837600000
  /\ getIsraelMidnight (referenceHost Zone.Asia_Jerusalem) now = 1704837600000
  /\ getIsraelMidnight (referenceHost Zone.Etc_UTC) now = 1704844800000
  /\ getIsraelMidnight (referenceHost Zone.EST) now = 1704862800000
  /\ ~ Zone.startOfDayIn Zone.Asia_Jerusalem now
         (getIsraelMidnight (referenceHost Zone.Etc_UTC) now)
  /\ ~ Zone.startOfDayIn Zone.Asia_Jerusalem now
         (getIsraelMidnight (referenceHost Zone.EST) now).
Proof.
  repeat split; try (vm_compute; reflexivity); vm_compute; discriminate.
Qed.

(** ** Calendar dates *)

Section CalendarFacts.
Import Calendar.

Lemma isLeap_era y era : isLeap (y + era * 400) = isLeap y.
Proof.
  unfold isLeap.
  replace ((y + era * 400) mod 4) with (y mod 4)
    by (Z.div_mod_to_equations; lia).
  replace ((y + era * 400) mod 100) with (y mod 100)
    by (Z.div_mod_to_equations; lia).
  replace ((y + era * 400) mod 400) with (y mod 400)
    by (Z.div_mod_to_equations; lia).
  reflexivity.
Qed.

Lemma daysInMonth_era y era m : daysInMonth (y + era * 400) m = daysInMonth y m.
Proof. unfold daysInMonth. by rewrite isLeap_era. Qed.

(** Month and day of a day of the year that starts on 1 March. *)
Lemma month_day_of_doy doy :
  0 <= doy <= 365 ->
  let mp := (5 * doy + 2) / 153 in
  let d := doy - (153 * mp + 2) / 5 + 1 in
  0 <= mp <= 11 /\ 1 <= d <= 31
  /\ (mp = 1 \/ mp = 3 \/ mp = 6 \/ mp = 8 -> d <= 30)
  /\ (mp = 11 -> d <= 29 /\ (d = 29 -> doy = 365)).
Proof.
  intros Hdoy mp d.
  assert (0 <= mp <= 11) as Hmp by (subst mp; Z.div_mod_to_equations; lia).
  assert (mp = 0 \/ mp = 1 \/ mp = 2 \/ mp = 3 \/ mp = 4 \/ mp = 5 \/ mp = 6
          \/ mp = 7 \/ mp = 8 \/ mp = 9 \/ mp = 10 \/ mp = 11) as Hcases by lia.
  assert (153 * mp <= 5 * doy + 2 < 153 * mp + 153) as Hb
    by (subst mp; Z.div_mod_to_equations; lia).
  subst d. clearbody mp.
  repeat (destruct Hcases as [->|Hcases]); try subst mp;
    match goal with
    | |- context [(153 * ?k + 2) / 5] =>
        let v := eval vm_compute in ((153 * k + 2) / 5) in
        change ((153 * k + 2) / 5) with v
    end; lia.
Qed.

Lemma civil_of_doe_spec doe :
  0 <= doe <= 146096 ->
  let '(yoe, carry, m, d) := civil_of_doe doe in
  0 <= yoe <= 399 /\ 1 <= m <= 12 /\ 1 <= d <= daysInMonth (yoe + carry) m
  /\ carry = (if m <=? 2 then 1 else 0)
  /\ yoe * 365 + yoe / 4 - yoe / 100
     + ((153 * (if 2 <? m then m - 3 else m + 9) + 2) / 5 + d - 1) = doe.
Proof.
  intros Hdoe. unfold civil_of_doe.
  set (c := Z.min (doe / 36524) 3).
  set (r1 := doe - 36524 * c).
  set (q := r1 / 1461).
  set (r2 := r1 - 1461 * q).
  set (yr := Z.min (r2 / 365) 3).
  set (doy := r2 - 365 * yr).
  set (yoe := 100 * c + 4 * q + yr).
  assert (0 <= yoe <= 399 /\ 0 <= doy <= 365
          /\ yoe * 365 + yoe / 4 - yoe / 100 + doy = doe
          /\ (doy = 365 -> (yoe + 1) mod 4 = 0
              /\ ((yoe + 1) mod 100 <> 0 \/ (yoe + 1) mod 400 = 0)))
    as (Hyoe & Hdoy & Hsum & Hleap).
  { subst yoe doy yr r2 q r1 c. repeat split; Z.div_mod_to_equations; lia. }
  clearbody yoe doy. clear c r1 q r2 yr.
  destruct (month_day_of_doy doy Hdoy) as (Hmp & Hd & H30 & H29).
  set (mp := (5 * doy + 2) / 153) in *.
  set (d := doy - (153 * mp + 2) / 5 + 1) in *.
  assert ((if mp <? 10 then mp + 3 else mp - 9)
          = if mp <? 10 then mp + 3 else mp - 9) as Hm by done.
  set (m := if mp <? 10 then mp + 3 else mp - 9) in *.
  assert ((if 2 <? m then m - 3 else m + 9) = mp) as Hback.
  { subst m. destruct (mp <? 10) eqn:H10;
      [apply Z.ltb_lt in H10 | apply Z.ltb_ge in H10].
    - by rewrite (proj2 (Z.ltb_lt 2 (mp + 3))) by lia; lia.
    - by rewrite (proj2 (Z.ltb_ge 2 (mp - 9))) by lia; lia. }
  split; [done|]. split.
  { subst m. destruct (mp <? 10) eqn:H10;
      [apply Z.ltb_lt in H10 | apply Z.ltb_ge in H10]; lia. }
  split; [|split; [done|]].
  - split; [lia|]. unfold daysInMonth, isLeap.
    destruct (m =? 2) eqn:Hm2.
    + apply Z.eqb_eq in Hm2.
      assert (mp = 11) as Hmp11.
      { subst m. destruct (mp <? 10) eqn:H10;
          [apply Z.ltb_lt in H10 | apply Z.ltb_ge in H10]; lia. }
      rewrite Hm2. change (2 <=? 2) with true. cbv iota.
      destruct (H29 Hmp11) as [Hle29 Hfeb].
      destruct (Z.eq_dec d 29) as [Hd29|Hd29]; [|destruct (_ && _); lia].
      destruct (Hleap (Hfeb Hd29)) as [H4 H100].
      rewrite (proj2 (Z.eqb_eq _ _) H4). simpl.
      destruct H100 as [H100|H400].
      * by rewrite (proj2 (Z.eqb_neq _ _) H100); simpl; lia.
      * by rewrite (proj2 (Z.eqb_eq _ _) H400), orb_true_r; lia.
    + apply Z.eqb_neq in Hm2.
      destruct ((m =? 4) || (m =? 6) || (m =? 9) || (m =? 11)) eqn:Hshort; [|lia].
      apply H30.
      rewrite !orb_true_iff, !Z.eqb_eq in Hshort.
      subst m. destruct (mp <? 10) eqn:H10;
        [apply Z.ltb_lt in H10 | apply Z.ltb_ge in H10]; lia.
  - rewrite Hback. subst d. lia.
Qed.

(** The calendar date of a day number is a date of the calendar, and it
    is the date of that day number. *)
Lemma civil_from_days_spec z :
  let '(y, m, d) := civil_from_days z in
  1 <= m <= 12 /\ 1 <= d <= daysInMonth y m /\ days_from_civil y m d = z
  /\ (z + 719468) / 146097 * 400 <= y <= (z + 719468) / 146097 * 400 + 400.
Proof.
  unfold civil_from_days.
  set (era := (z + 719468) / 146097).
  set (doe := z + 719468 - era * 146097).
  assert (0 <= doe <= 146096) as Hdoe
    by (subst doe era; Z.div_mod_to_equations; lia).
  pose proof (civil_of_doe_spec doe Hdoe) as Hspec.
  destruct (civil_of_doe doe) as [[[yoe carry] m] d].
  destruct Hspec as (Hyoe & Hm & Hd & Hcarry & Hsum).
  split; [done|]. split.
  { replace (yoe + era * 400 + carry) with (yoe + carry + era * 400) by lia.
    by rewrite daysInMonth_era. }
  split.
  - unfold days_from_civil. rewrite Hcarry.
    assert ((if m <=? 2 then yoe + era * 400 + (if m <=? 2 then 1 else 0) - 1
             else yoe + era * 400 + (if m <=? 2 then 1 else 0))
            = yoe + era * 400) as -> by (destruct (m <=? 2); lia).
    assert ((yoe + era * 400) / 400 = era) as ->
      by (Z.div_mod_to_equations; lia).
    replace (yoe + era * 400 - era * 400) with yoe by lia.
    subst doe. lia.
  - rewrite Hcarry. destruct (m <=? 2); lia.
Qed.

Lemma MakeDay_civil z :
  let '(y, m, d) := civil_from_days z in MakeDay y (m - 1) d = z.
Proof.
  pose proof (civil_from_days_spec z) as Hspec.
  destruct (civil_from_days z) as [[y m] d].
  destruct Hspec as (Hm & Hd & Hz & _). unfold MakeDay.
  assert ((m - 1) / 12 = 0) as -> by (Z.div_mod_to_equations; lia).
  assert ((m - 1) mod 12 + 1 = m) as -> by (Z.div_mod_to_equations; lia).
  rewrite Z.add_0_r. unfold days_from_civil in *. lia.
Qed.

End CalendarFacts.

(** ** Instants as ISO strings *)

Section IsoFacts.
Import Calendar IsoDate.

Lemma bind_Some_eq {A B} (x : A) (f : A -> option B) : Some x ≫= f = f x.
Proof. reflexivity. Qed.

Lemma expect_head c rest : expect c (c :: rest) = Some rest.
Proof. unfold expect. by rewrite Z.eqb_refl. Qed.

Lemma digit_of v : 0 <= v <= 9 -> digit (48 + v) = Some v.
Proof.
  intros Hv. unfold digit.
  rewrite (proj2 (Z.leb_le 48 (48 + v))), (proj2 (Z.leb_le (48 + v) 57)) by lia.
  simpl. f_equal. lia.
Qed.

Lemma digits_pad_more w k n acc rest :
  0 <= n < 10 ^ Z.of_nat w ->
  digits (w + k) acc (pad w n ++ rest) = digits k (acc * 10 ^ Z.of_nat w + n) rest.
Proof.
  revert k n acc rest. induction w as [|w IH]; intros k n acc rest Hn.
  - simpl in *. f_equal. lia.
  - rewrite Nat2Z.inj_succ, Z.pow_succ_r in Hn by lia.
    cbn [pad]. rewrite <- app_assoc.
    replace (S w + k)%nat with (w + S k)%nat by lia.
    rewrite IH by (Z.div_mod_to_equations; lia).
    cbn [app digits]. rewrite digit_of by (Z.div_mod_to_equations; lia).
    f_equal. rewrite Nat2Z.inj_succ, Z.pow_succ_r by lia.
    Z.div_mod_to_equations; lia.
Qed.

Lemma digits_pad w n rest :
  0 <= n < 10 ^ Z.of_nat w -> digits w 0 (pad w n ++ rest) = Some (n, rest).
Proof.
  intros Hn. pose proof (digits_pad_more w 0 n 0 rest Hn) as H.
  rewrite Nat.add_0_r in H. rewrite H. by simpl.
Qed.

Lemma pad_first w n :
  exists c tl, pad (S w) n = c :: tl /\ 48 <= c <= 57.
Proof.
  revert n. induction w as [|w IH]; intros n.
  - exists (48 + n mod 10), []. split; [done|]. Z.div_mod_to_equations; lia.
  - destruct (IH (n / 10)) as (c & tl & Hc & Hrange).
    exists c, (tl ++ [48 + n mod 10]). split; [|done].
    change (pad (S (S w)) n) with (pad (S w) (n / 10) ++ [48 + n mod 10]).
    by rewrite Hc.
Qed.

Lemma parseYear_yearString y rest :
  -999999 <= y <= 999999 -> parseYear (yearString y ++ rest) = Some (y, rest).
Proof.
  intros Hy. unfold yearString.
  destruct ((0 <=? y) && (y <=? 9999)) eqn:Hsmall.
  - apply andb_true_iff in Hsmall as [H0 H9]. apply Z.leb_le in H0, H9.
    destruct (pad_first 3 y) as (c & tl & Hc & Hrange).
    pose proof (digits_pad 4 y rest) as Hd. rewrite Hc in *.
    cbn [app parseYear].
    rewrite (proj2 (Z.eqb_neq c 43)), (proj2 (Z.eqb_neq c 45)) by lia.
    apply Hd. simpl. lia.
  - apply andb_false_iff in Hsmall. rewrite Z.leb_gt, Z.leb_gt in Hsmall.
    destruct (y <? 0) eqn:Hneg; [apply Z.ltb_lt in Hneg | apply Z.ltb_ge in Hneg].
    + cbn [app parseYear]. change (45 =? 43) with false. change (45 =? 45) with true.
      cbv iota. rewrite digits_pad by (simpl; lia).
      rewrite (proj2 (Z.eqb_neq _ 0)) by lia. do 2 f_equal. lia.
    + cbn [app parseYear]. change (43 =? 43) with true. cbv iota.
      rewrite digits_pad by (simpl; lia). do 2 f_equal. lia.
Qed.

(** Reading back what [toISOString] writes gives the instant, to the
    millisecond, whatever the zone of the process. *)
Lemma parse_toISOString t : validTime t -> parse (toISOString t) = Some t.
Proof.
  intros Ht. unfold validTime, maxTime in Ht. unfold toISOString, parse.
  pose proof (civil_from_days_spec (Day t)) as Hspec.
  pose proof (MakeDay_civil (Day t)) as Hmk.
  destruct (civil_from_days (Day t)) as [[y m] d].
  destruct Hspec as (Hm & Hd & _ & Hy).
  assert (-100000000 <= Day t <= 100000000) as Hday
    by (unfold Day, msPerDay; Z.div_mod_to_equations; lia).
  assert (d <= 31) as Hd31.
  { destruct Hd as [_ Hd]. unfold daysInMonth in Hd.
    destruct (m =? 2); [destruct (isLeap y)|destruct (_ || _)]; lia. }
  set (tod := TimeWithinDay t).
  assert (0 <= tod < 86400000) as Htod
    by (subst tod; unfold TimeWithinDay, msPerDay; Z.div_mod_to_equations; lia).
  rewrite parseYear_yearString by (Z.div_mod_to_equations; lia).
  repeat first
    [ rewrite bind_Some_eq; cbv beta iota
    | rewrite <- app_comm_cons; rewrite expect_head
    | rewrite app_nil_l
    | rewrite expect_head
    | rewrite digits_pad by (simpl; Z.div_mod_to_equations; lia) ].
  assert (validFields m d (tod / 3600000) (tod / 60000 mod 60)
            (tod / 1000 mod 60) (tod mod 1000) = true) as ->.
  { unfold validFields.
    rewrite !andb_true_iff, orb_true_iff, !Z.leb_le.
    repeat split; try lia; try (left); Z.div_mod_to_equations; lia. }
  rewrite Hmk.
  assert (MakeDate (Day t) (MakeTime (tod / 3600000) (tod / 60000 mod 60)
                              (tod / 1000 mod 60) (tod mod 1000)) = t) as ->.
  { unfold MakeDate, MakeTime. subst tod. unfold TimeWithinDay, Day, msPerDay in *.
    Z.div_mod_to_equations; lia. }
  unfold TimeClip, maxTime.
  by rewrite (proj2 (Z.leb_le _ _)), (proj2 (Z.leb_le _ _)) by lia.
Qed.

End IsoFacts.

(** ** The text of the history file *)

Section JsonFacts.
Import JSON.

Lemma hexValue_hexDigit v : 0 <= v <= 15 -> hexValue (hexDigit v) = Some v.
Proof.
  intros Hv. unfold hexValue, hexDigit.
  destruct (v <? 10) eqn:H10; [apply Z.ltb_lt in H10 | apply Z.ltb_ge in H10].
  - rewrite (proj2 (Z.leb_le 48 (48 + v))), (proj2 (Z.leb_le (48 + v) 57)) by lia.
    simpl. f_equal. lia.
  - rewrite (proj2 (Z.leb_gt (87 + v) 57)) by lia. rewrite andb_false_r.
    rewrite (proj2 (Z.leb_le 97 (87 + v))), (proj2 (Z.leb_le (87 + v) 102)) by lia.
    simpl. f_equal. lia.
Qed.

Lemma readChars_unicodeEscape c rest :
  0 <= c < 65536 ->
  readChars (unicodeEscape c ++ rest) = prepend c (readChars rest).
Proof.
  intros Hc. unfold unicodeEscape. cbn [app readChars].
  change (92 =? 34) with false. change (92 =? 92) with true.
  change (117 =? 117) with true. cbv iota.
  unfold hex4.
  rewrite !hexValue_hexDigit by (Z.div_mod_to_equations; lia).
  rewrite !bind_Some_eq.
  replace (c / 4096 mod 16 * 4096 + c / 256 mod 16 * 256 + c / 16 mod 16 * 16 + c mod 16)
    with c by (Z.div_mod_to_equations; lia).
  reflexivity.
Qed.

Lemma readChars_raw c rest :
  32 <= c -> c <> 34 -> c <> 92 -> readChars (c :: rest) = prepend c (readChars rest).
Proof.
  intros H32 H34 H92. cbn [readChars].
  rewrite (proj2 (Z.eqb_neq c 34)), (proj2 (Z.eqb_neq c 92)) by done.
  by rewrite (proj2 (Z.ltb_ge c 32)) by done.
Qed.

Lemma readChars_short e c rest :
  unescape e = Some c -> e <> 117 ->
  readChars (92 :: e :: rest) = prepend c (readChars rest).
Proof.
  intros He Hu. cbn [readChars].
  change (92 =? 34) with false. change (92 =? 92) with true. cbv iota.
  rewrite (proj2 (Z.eqb_neq e 117)) by done. by rewrite He.
Qed.

Lemma readChars_escapeUnit c rest :
  0 <= c < 65536 ->
  readChars (escapeUnit c ++ rest) = prepend c (readChars rest).
Proof.
  intros Hc. unfold escapeUnit.
  repeat match goal with
         | |- context [if ?x =? ?k then _ else _] =>
             destruct (Z.eqb_spec x k) as [->|?];
             [by apply readChars_short|]
         end.
  destruct (c <? 32) eqn:H32; [apply Z.ltb_lt in H32 | apply Z.ltb_ge in H32].
  - by apply readChars_unicodeEscape.
  - by apply readChars_raw.
Qed.

Lemma surrogate_range c : isHigh c = true \/ isLow c = true -> 55296 <= c <= 57343.
Proof.
  unfold isHigh, isLow. rewrite !andb_true_iff, !Z.leb_le. lia.
Qed.

(** Reading the characters of a quoted string gives the string back. *)
Lemma readChars_quoteBody s rest :
  isString s -> readChars (quoteBody s ++ 34 :: rest) = Some (s, rest).
Proof.
  remember (length s) as n eqn:Hn. revert s Hn.
  induction n as [n IH] using lt_wf_ind. intros s Hn Hs.
  destruct s as [|c s]; [done|].
  inversion Hs as [|? ? Hc Hs']; subst. cbn [quoteBody].
  destruct (isHigh c) eqn:Hhigh.
  - pose proof (surrogate_range c (or_introl Hhigh)) as Hcr.
    destruct s as [|d s].
    + rewrite readChars_unicodeEscape by done. by simpl.
    + inversion Hs' as [|? ? Hd Hs'']; subst.
      destruct (isLow d) eqn:Hlow.
      * pose proof (surrogate_range d (or_intror Hlow)) as Hdr.
        cbn [app]. rewrite (readChars_raw c), (readChars_raw d) by lia.
        rewrite (IH (length s)) by (simpl; done || lia). reflexivity.
      * rewrite <- app_assoc, readChars_unicodeEscape by done.
        rewrite (IH (length (d :: s))) by (simpl; done || lia). reflexivity.
  - destruct (isLow c) eqn:Hlow.
    + rewrite <- app_assoc, readChars_unicodeEscape by done.
      rewrite (IH (length s)) by (simpl; done || lia). reflexivity.
    + rewrite <- app_assoc, readChars_escapeUnit by done.
      rewrite (IH (length s)) by (simpl; done || lia). reflexivity.
Qed.

Lemma readString_quote s rest :
  isString s -> readString (quote s ++ rest) = Some (s, rest).
Proof.
  intros Hs. unfold quote, readString. cbn [app].
  change (34 =? 34) with true. cbv iota.
  rewrite <- app_assoc. by apply readChars_quoteBody.
Qed.

Lemma quote_head s : exists tl, quote s = 34 :: tl.
Proof. unfold quote. by eexists. Qed.

Lemma join_cons2 (sep : jsstring) (p q : jsstring) (ps : list jsstring) :
  JS.join sep (p :: q :: ps) = p ++ sep ++ JS.join sep (q :: ps).
Proof. reflexivity. Qed.

(** The strings of an array, from the first one to the bracket. *)
Lemma readItems_join (x : jsstring) (xs : list jsstring) fuel rest :
  Forall isString (x :: xs) -> (length xs < fuel)%nat ->
  readItems fuel (JS.join [44] (map quote (x :: xs)) ++ 93 :: rest)
  = Some (x :: xs, rest).
Proof.
  revert x fuel. induction xs as [|y xs IH]; intros x fuel Hall Hfuel;
    (destruct fuel as [|fuel]; [simpl in Hfuel; lia|]);
    inversion Hall as [|? ? Hx Hxs]; subst.
  - cbn [map JS.join readItems]. rewrite readString_quote by done.
    rewrite bind_Some_eq. cbv beta iota. cbn [skipWs].
    change (isJsonWs 93) with false. cbv iota.
    change (93 =? 44) with false. change (93 =? 93) with true. reflexivity.
  - cbn [map]. rewrite join_cons2. cbn [readItems].
    rewrite <- app_assoc, readString_quote by done.
    rewrite bind_Some_eq. cbv beta iota. cbn [app skipWs].
    change (isJsonWs 44) with false. cbv iota.
    change (44 =? 44) with true. cbv iota.
    destruct (quote_head y) as [tl Hq].
    assert (skipWs (JS.join [44] (quote y :: map quote xs) ++ 93 :: rest)
            = JS.join [44] (quote y :: map quote xs) ++ 93 :: rest) as ->.
    { destruct (map quote xs); cbn [JS.join]; rewrite Hq; reflexivity. }
    change (quote y :: map quote xs) with (map quote (y :: xs)).
    rewrite IH by (done || simpl in *; lia).
    reflexivity.
Qed.

Lemma join_length (l : list jsstring) :
  (length l <= length (JS.join [44%Z] (map quote l)) + 1)%nat.
Proof.
  induction l as [|x l IH]; [simpl; lia|].
  destruct l as [|y l]; [simpl; lia|].
  cbn [map] in *. rewrite join_cons2. rewrite !length_app. simpl in *. lia.
Qed.

Lemma readArray_stringify (l : list jsstring) rest :
  Forall isString l -> readArray (stringifyArray l ++ rest) = Some (l, rest).
Proof.
  intros Hl. unfold stringifyArray, readArray. cbn [app].
  change (91 =? 91) with true. cbv iota.
  destruct l as [|x xs].
  - reflexivity.
  - rewrite <- app_assoc. cbn [app].
    destruct (quote_head x) as [tl Hq].
    assert (skipWs (JS.join [44] (map quote (x :: xs)) ++ 93 :: rest)
            = JS.join [44] (map quote (x :: xs)) ++ 93 :: rest) as Hskip.
    { cbn [map]. destruct (map quote xs); cbn [JS.join]; rewrite Hq; reflexivity. }
    rewrite Hskip.
    assert (exists tl', JS.join [44] (map quote (x :: xs)) ++ 93 :: rest = 34 :: tl')
      as [tl' Htl].
    { cbn [map]. destruct (map quote xs); cbn [JS.join]; rewrite Hq; by eexists. }
    rewrite Htl at 1. change (34 =? 93) with false. cbv iota.
    apply readItems_join; [done|].
    pose proof (join_length (x :: xs)) as Hlen.
    rewrite length_app. simpl in *. lia.
Qed.

Lemma readMember_stringify e rest :
  isMember e -> readMember (stringifyMember e ++ rest) = Some (e, rest).
Proof.
  intros [Hk Harr]. unfold stringifyMember, readMember.
  rewrite <- app_assoc, readString_quote by done.
  rewrite bind_Some_eq. cbv beta iota. cbn [app skipWs].
  change (isJsonWs 58) with false. cbv iota. change (58 =? 58) with true. cbv iota.
  assert (skipWs (stringifyArray (snd e) ++ rest) = stringifyArray (snd e) ++ rest)
    as -> by reflexivity.
  rewrite readArray_stringify by done. rewrite bind_Some_eq.
  by destruct e.
Qed.

Lemma stringifyMember_head e : exists tl, stringifyMember e = 34 :: tl.
Proof. unfold stringifyMember, quote. by eexists. Qed.

Lemma join_members_head e (es : JSON.object) rest :
  exists tl, JS.join [44] (map stringifyMember (e :: es)) ++ rest = 34 :: tl.
Proof.
  destruct (stringifyMember_head e) as [tl Hq].
  cbn [map]. destruct (map stringifyMember es); cbn [JS.join]; rewrite Hq; by eexists.
Qed.

Lemma skipWs_quote tl : skipWs (34 :: tl) = 34 :: tl.
Proof. reflexivity. Qed.

Lemma readMembers_join e (es : JSON.object) fuel rest :
  Forall isMember (e :: es) -> (length es < fuel)%nat ->
  readMembers fuel (JS.join [44] (map stringifyMember (e :: es)) ++ 125 :: rest)
  = Some (e :: es, rest).
Proof.
  revert e fuel. induction es as [|e' es IH]; intros e fuel Hall Hfuel;
    (destruct fuel as [|fuel]; [simpl in Hfuel; lia|]);
    inversion Hall as [|? ? He Hes]; subst.
  - cbn [map JS.join readMembers]. rewrite readMember_stringify by done.
    rewrite bind_Some_eq. cbv beta iota. cbn [skipWs].
    change (isJsonWs 125) with false. cbv iota.
    change (125 =? 44) with false. change (125 =? 125) with true. reflexivity.
  - cbn [map]. rewrite join_cons2. cbn [readMembers].
    rewrite <- app_assoc, readMember_stringify by done.
    rewrite bind_Some_eq. cbv beta iota. cbn [app skipWs].
    change (isJsonWs 44) with false. cbv iota.
    change (44 =? 44) with true. cbv iota.
    change (stringifyMember e' :: map stringifyMember es)
      with (map stringifyMember (e' :: es)).
    destruct (join_members_head e' es (125 :: rest)) as [tl Htl].
    rewrite Htl, skipWs_quote, <- Htl.
    rewrite IH by (done || simpl in *; lia).
    reflexivity.
Qed.

Lemma join_members_length (l : JSON.object) :
  (length l <= length (JS.join [44%Z] (map stringifyMember l)) + 1)%nat.
Proof.
  induction l as [|x l IH]; [simpl; lia|].
  destruct l as [|y l]; [simpl; lia|].
  cbn [map] in *. rewrite join_cons2. rewrite !length_app. simpl in *. lia.
Qed.

(** [JSON.parse] gives back the object [JSON.stringify] wrote. *)
Lemma parse_stringify (obj : JSON.object) :
  Forall isMember obj -> parse (stringify obj) = Some obj.
Proof.
  intros Hobj. unfold stringify, parse. cbn [app skipWs].
  change (isJsonWs 123) with false. cbv iota. change (123 =? 123) with true. cbv iota.
  destruct obj as [|e es].
  - reflexivity.
  - destruct (join_members_head e es [125]) as [tl Htl].
    rewrite Htl, skipWs_quote. change (34 =? 125) with false. cbv iota.
    rewrite <- Htl.
    rewrite readMembers_join; [reflexivity|done|].
    pose proof (join_members_length (e :: es)) as Hlen.
    rewrite length_app. simpl in *. lia.
Qed.

End JsonFacts.

(** ** Saving and loading the table *)

Section PersistFacts.
Import Calendar IsoDate.

Lemma pad_isString w n : isString (pad w n).
Proof.
  revert n. induction w as [|w IH]; intros n; [constructor|].
  cbn [pad]. apply Forall_app. split; [apply IH|].
  constructor; [|constructor]. Z.div_mod_to_equations; lia.
Qed.

Lemma yearString_isString y : isString (yearString y).
Proof.
  unfold yearString. destruct (_ && _); [apply pad_isString|].
  constructor; [destruct (y <? 0); lia | apply pad_isString].
Qed.

Lemma isString_app (a b : jsstring) : isString a -> isString b -> isString (a ++ b).
Proof. intros Ha Hb. apply Forall_app. by split. Qed.

Lemma isString_unit c : 0 <= c < 65536 -> isString [c].
Proof. intros Hc. unfold isString. constructor; [exact Hc|constructor]. Qed.

Lemma toISOString_isString t : isString (toISOString t).
Proof.
  unfold toISOString. destruct (civil_from_days (Day t)) as [[y m] d].
  repeat match goal with
         | |- isString (_ ++ _) => apply isString_app
         end;
    first [ apply yearString_isString | apply pad_isString
          | apply isString_unit; lia ].
Qed.

Lemma newDate_toISOString (ts : list Z) :
  Forall validTime ts ->
  map Persist.newDate (map toISOString ts) = map Some ts.
Proof.
  induction 1 as [|t ts Ht _ IH]; [done|]. cbn [map].
  unfold Persist.newDate at 1. by rewrite parse_toISOString, IH.
Qed.

Lemma fold_set_absent {V} (g : list jsstring -> V) (l : JSON.object)
    (m0 : gmap jsstring V) k :
  k ∉ l.*1 ->
  fold_left (fun m (e : jsstring * list jsstring) => <[fst e := g (snd e)]> m) l m0 !! k
  = m0 !! k.
Proof.
  revert m0. induction l as [|[k0 v0] l IH]; intros m0 Hk; simpl; [done|].
  simpl in Hk. apply not_elem_of_cons in Hk as [Hne Hk].
  rewrite IH by done. by apply lookup_insert_ne.
Qed.

Lemma fold_set_present {V} (g : list jsstring -> V) (l : JSON.object)
    (m0 : gmap jsstring V) k v :
  NoDup l.*1 -> (k, v) ∈ l ->
  fold_left (fun m (e : jsstring * list jsstring) => <[fst e := g (snd e)]> m) l m0 !! k
  = Some (g v).
Proof.
  revert m0. induction l as [|[k0 v0] l IH]; intros m0 Hnd Hin; simpl.
  - by apply elem_of_nil in Hin.
  - simpl in Hnd. apply NoDup_cons in Hnd as [Hfresh Hnd].
    apply elem_of_cons in Hin as [Heq|Hin].
    + inversion Heq; subst k0 v0.
      rewrite fold_set_absent by done. apply lookup_insert_eq.
    + by apply IH.
Qed.

(** Loading the file that [persist] wrote gives the table back. *)
Lemma load_persist (h : gmap jsstring (list Z)) :
  Persist.wellFormed h -> Persist.load (Some (Persist.persist h)) = Persist.asDates h.
Proof.
  intros Hwf. unfold Persist.load, Persist.persist.
  set (f := fun e : jsstring * list Z => (fst e, map toISOString (snd e))).
  rewrite parse_stringify.
  2:{ apply Forall_forall. intros e He.
      apply list_elem_of_fmap in He as ([k ts] & -> & Hin).
      apply elem_of_map_to_list in Hin. destruct (Hwf _ _ Hin) as [Hk _].
      split; [exact Hk|]. simpl.
      apply Forall_forall. intros x Hx.
      apply list_elem_of_fmap in Hx as (t & -> & _). apply toISOString_isString. }
  assert ((map f (map_to_list h)).*1 = (map_to_list h).*1) as Hkeys.
  { rewrite <- list_fmap_compose. by apply list_fmap_ext. }
  apply map_eq. intros k. unfold Persist.asDates. rewrite lookup_fmap.
  destruct (h !! k) as [ts|] eqn:Hk; simpl.
  - rewrite (fold_set_present _ _ _ k (map toISOString ts)).
    + f_equal. apply newDate_toISOString. by destruct (Hwf _ _ Hk).
    + rewrite Hkeys. apply NoDup_fst_map_to_list.
    + apply (list_elem_of_fmap_2 f _ (k, ts)). by apply elem_of_map_to_list.
  - rewrite fold_set_absent; [done|]. rewrite Hkeys.
    intros Hin. apply list_elem_of_fmap in Hin as ([k' ts] & -> & Hin).
    apply elem_of_map_to_list in Hin. simpl in *. congruence.
Qed.

End PersistFacts.

(** C10.  For a table whose keys are strings and whose instants are time
    values of Dates, with any number of keys and of instants under a key,
    loading the text that [persist] writes gives back the same keys with the
    same instants, every one a valid Date equal to the original to the
    millisecond.  An instant is written by [toISOString], in UTC, and read
    back without reference to the zone of the process. *)
Theorem C10_persist_then_load (h : gmap jsstring (list Z)) :
  Persist.wellFormed h ->
  Persist.load (Some (Persist.persist h)) = Persist.asDates h
  /\ (forall k, Persist.load (Some (Persist.persist h)) !! k = (map Some) <$> (h !! k))
  /\ (forall k ts t, h !! k = Some ts -> In t ts ->
        Persist.newDate (IsoDate.toISOString t) = Some t).
Proof.
  intros Hwf. split; [by apply load_persist|]. split.
  - intros k. rewrite load_persist by done. unfold Persist.asDates. apply lookup_fmap.
  - intros k ts t Hk Hin. destruct (Hwf _ _ Hk) as [_ Hts].
    rewrite Forall_forall in Hts. apply parse_toISOString, Hts.
    by apply list_elem_of_In.
Qed.

(** From 1970 on, [getIsraelMidnight] is the instant at which the clock of
    the process shows 00:00 on the date that Asia/Jerusalem shows now. *)
Lemma getIsraelMidnight_is_process_midnight (host : Host) (now : Z) :
  0 <= Zone.LocalTime Zone.Asia_Jerusalem now ->
  getIsraelMidnight host now
  = Zone.UTC (processZone host)
      (Calendar.Day (Zone.LocalTime Zone.Asia_Jerusalem now) * Calendar.msPerDay).
Proof.
  intros Hpos. unfold getIsraelMidnight, Zone.toLocaleDateString_enUS.
  set (D := Calendar.Day (Zone.LocalTime Zone.Asia_Jerusalem now)).
  assert (0 <= D) as HD
    by (subst D; unfold Calendar.Day, Calendar.msPerDay; Z.div_mod_to_equations; lia).
  pose proof (civil_from_days_spec D) as Hspec.
  pose proof (MakeDay_civil D) as Hmk.
  destruct (Calendar.civil_from_days D) as [[y m] d].
  destruct Hspec as (_ & _ & _ & Hy).
  assert (100 <= y) as Hy100 by (Z.div_mod_to_equations; lia).
  unfold Zone.newDate_local.
  rewrite (proj2 (Z.leb_gt y 99)) by lia. rewrite andb_false_r.
  rewrite Hmk. unfold Calendar.MakeDate, Calendar.MakeTime. f_equal. lia.
Qed.

(** With the process in Asia/Jerusalem the function gives the start of the
    day on the two days of 2024 on which the clocks change: 29 March, when
    the day starts at 22:00 UTC of the day before, and 27 October, when it
    starts at 21:00 UTC. *)
Lemma getIsraelMidnight_on_days_of_change :
  let host := referenceHost Zone.Asia_Jerusalem in
  getIsraelMidnight host 1711706400000 = 1711663200000
  /\ Zone.startOfDayIn Zone.Asia_Jerusalem 1711706400000 1711663200000
  /\ getIsraelMidnight host 1730023200000 = 1729976400000
  /\ Zone.startOfDayIn Zone.Asia_Jerusalem 1730023200000 1729976400000.
Proof. vm_compute. repeat split. Qed.

(** ** The scenarios of the specification, on the commented variant *)

(** "hi" at 08:00 is stored without a reply; "hi" at 09:30 is answered with
    "08:00" and both times are stored; the first poll of the next day evicts
    the key, and "hi" at 08:05 of that day is a first occurrence again. *)
Lemma scenario_hi_twice_then_next_day :
  let host := referenceHost Zone.Asia_Jerusalem in
  let hi := [104; 105] in
  let r1 := Main.tick host (mainClock 1704866400000) (pollOf [49] hi) mainMorning in
  let r2 := Main.tick host (mainClock 1704871800000) (pollOf [50] hi) r1.1 in
  let r3 := Main.tick host (mainClock 1704953100000) (pollOf [51] hi) r2.1 in
  r1.2 = Recorded
  /\ Main.history r1.1 !! hi = Some [1704866400000]
  /\ r2.2 = Replied (Main.replyHead ++ hi ++ Main.replyMiddle ++ [48; 56; 58; 48; 48])
  /\ Main.history r2.1 !! hi = Some [1704866400000; 1704871800000]
  /\ Main.history (Main.rollover host (mainClock 1704953100000) r2.1) !! hi = None
  /\ r3.2 = Recorded
  /\ Main.history r3.1 !! hi = Some [1704953100000].
Proof. vm_compute. repeat split. Qed.

(** "ok" under the identifier E1, E1 shown again, then "ok" under E2: the
    second delivery of E1 is skipped and E2 finds one earlier occurrence. *)
Lemma scenario_redelivery_then_new_event :
  let host := referenceHost Zone.Asia_Jerusalem in
  let ok := [111; 107] in
  let r1 := Main.tick host (mainClock 1704866400000) (pollOf [69; 49] ok) mainMorning in
  let r2 := Main.tick host (mainClock 1704866404000) (pollOf [69; 49] ok) r1.1 in
  let r3 := Main.tick host (mainClock 1704866408000) (pollOf [69; 50] ok) r2.1 in
  r1.2 = Recorded
  /\ r2 = (r1.1, Skipped)
  /\ r3.2 = Replied (Main.buildReply host ok [1704866400000])
  /\ Main.history r3.1 !! ok = Some [1704866400000; 1704866408000].
Proof. vm_compute. repeat split. Qed.

(** ** The theorems at concrete polls *)

Lemma delivers_pollOf id text : id <> [] -> delivers (pollOf id text) (rowOf id text) id text.
Proof. intros Hne. by repeat split. Qed.

Lemma not_in_by_decide (id : jsstring) (ids : list jsstring) :
  bool_decide (id ∈ ids) = false -> id ∉ ids.
Proof. apply bool_decide_eq_false. Qed.

(** "hi" at 08:00 under identifier "1", then "Hi " at 09:30 under "2", with
    an empty table before and no poll in between: the reply of each variant
    is its template around "Hi" and "08:00". *)
Lemma C2_witness :
  let host := referenceHost Zone.Asia_Jerusalem in
  let text1 := [104; 105] in
  let text2 := [72; 105; 32] in
  let p1 := pollOf [49] text1 in
  let p2 := pollOf [50] text2 in
  let m1 := (Main.tick host (mainClock 1704866400000) p1 mainMorning).1 in
  let b1 := (Bot.tick host (botClock 1704866400000) p1 (botWith [])).1 in
  (qualifying text1 /\ qualifying text2
   /\ toLowerCase host (JS.trim text2) = toLowerCase host (JS.trim text1))
  /\ replyOf (Main.tick host (mainClock 1704871800000) p2 m1).2
     = Some (Main.replyHead ++ [72; 105] ++ Main.replyMiddle ++ [48; 56; 58; 48; 48])
  /\ replyOf (Bot.tick host (botClock 1704871800000) p2 b1).2
     = Some (Bot.replyHead ++ [72; 105] ++ Bot.replyMiddle ++ [48; 56; 58; 48; 48]
             ++ Bot.replyTail).
Proof.
  intros host text1 text2 p1 p2 m1 b1.
  assert (qualifying text1) as Hq1 by (unfold qualifying; vm_compute; lia).
  assert (qualifying text2) as Hq2 by (unfold qualifying; vm_compute; lia).
  assert (toLowerCase host (JS.trim text2) = toLowerCase host (JS.trim text1)) as Hkey
    by (vm_compute; reflexivity).
  split; [exact (conj Hq1 (conj Hq2 Hkey))|].
  destruct (C2_second_observation_replies_with_prior_times host text1 text2 Hq1 Hq2 Hkey)
    as [Hmain Hbot].
  split.
  - destruct (Hmain mainMorning (mainClock 1704866400000) p1 (rowOf [49] text1) [49] []
                (mainClock 1704871800000) p2 (rowOf [50] text2) [50])
      as (between & listed & _ & Hmid & _ & _ & _ & Hone & _).
    + apply delivers_pollOf. discriminate.
    + apply not_in_by_decide. vm_compute. reflexivity.
    + exact I.
    + unfold Main.quiet. vm_compute. discriminate.
    + apply delivers_pollOf. discriminate.
    + apply not_in_by_decide. vm_compute. reflexivity.
    + exact (Hone eq_refl (Hmid eq_refl)).
  - destruct (Hbot (botWith []) (botClock 1704866400000) p1 (rowOf [49] text1) [49] []
                (botClock 1704871800000) p2 (rowOf [50] text2) [50])
      as (between & listed & _ & Hmid & _ & _ & _ & Hone & _).
    + apply delivers_pollOf. discriminate.
    + apply not_in_by_decide. vm_compute. reflexivity.
    + exact I.
    + unfold Bot.quiet. vm_compute. reflexivity.
    + apply delivers_pollOf. discriminate.
    + apply not_in_by_decide. vm_compute. reflexivity.
    + exact (Hone eq_refl (Hmid eq_refl)).
Defined.


(** The premises of [Main.detects] and [Bot.detects] hold for "hi" at 08:00
    under identifier "1" and "Hi " at 09:30 under "2", and the reply of both
    variants lists 08:00. *)
Lemma detects_at_two_polls :
  let host := referenceHost Zone.Asia_Jerusalem in
  let p1 := pollOf [49] [104; 105] in
  let p2 := pollOf [50] [72; 105; 32] in
  let m1 := (Main.tick host (mainClock 1704866400000) p1 mainMorning).1 in
  let b1 := (Bot.tick host (botClock 1704866400000) p1 (botWith [])).1 in
  (Main.tick host (mainClock 1704871800000) p2 m1).2
  = Replied (Main.buildReply host [72; 105] [1704866400000])
  /\ (Bot.tick host (botClock 1704871800000) p2 b1).2
     = Replied (Bot.buildReply host [72; 105] [1704866400000])
  /\ Main.quiet host (mainClock 1704871800000) m1
  /\ Bot.quiet (botClock 1704871800000) b1
  /\ ([49] ∉ Main.processedIds (Main.rollover host (mainClock 1704866400000) mainMorning))
  /\ ([50] ∉ Main.processedIds m1)
  /\ ([49] ∉ Bot.processedIds (botWith []))
  /\ ([50] ∉ Bot.processedIds b1).
Proof.
  repeat split; try (vm_compute; reflexivity); try (vm_compute; discriminate);
    apply not_in_by_decide; vm_compute; reflexivity.
Qed.

(** A message with an empty text, twice, under two identifiers. *)
Lemma C3_witness :
  let host := referenceHost Zone.Asia_Jerusalem in
  let c := botClock 1704866400000 in
  let p := pollOf [49] [] in
  wordCount [] = O
  /\ Bot.history (Bot.tick host c p (botWith [])).1 !! [] = Some [1704866400000].
Proof.
  intros host c p. split; [reflexivity|].
  apply (C3_bot_stores_text_without_words host c p (botWith []) (rowOf [49] []) [49] []).
  - by apply delivers_pollOf.
  - apply not_in_by_decide. vm_compute. reflexivity.
  - reflexivity.
Defined.

(** On the same two polls the empty text is answered by [bot.js] and
    turned away by the commented variant. *)
Lemma empty_text_answered_by_bot_only :
  let host := referenceHost Zone.Asia_Jerusalem in
  let s1 := (Bot.tick host (botClock 1704866400000) (pollOf [49] []) (botWith [])).1 in
  let r2 := Bot.tick host (botClock 1704871800000) (pollOf [50] [32; 32]) s1 in
  let m1 := (Main.tick host (mainClock 1704866400000) (pollOf [49] []) mainMorning).1 in
  let n2 := Main.tick host (mainClock 1704871800000) (pollOf [50] [32; 32]) m1 in
  Bot.history r2.1 !! [] = Some [1704866400000; 1704871800000]
  /\ r2.2 = Replied (Bot.buildReply host [] [1704866400000])
  /\ Main.history n2.1 = ∅
  /\ n2.2 = Skipped.
Proof. vm_compute. repeat split. Qed.

(** With two thousand identifiers processed, the message "hi" under a new
    identifier is shown by two polls in a row, four seconds apart. *)
Lemma C7_witness :
  let host := referenceHost Zone.Asia_Jerusalem in
  let c1 := botClock 1704866400000 in
  let c2 := botClock 1704866404000 in
  let p := pollOf [49] [104; 105] in
  let s := botWith manyIds in
  let s1 := (Bot.tick host c1 p s).1 in
  (Bot.MAX_IDS <= length (Bot.processedIds s))%nat
  /\ Bot.processedIds s1 = []
  /\ exists prior,
       Bot.history s1 !! [104; 105] = Some (prior ++ [1704866400000])
       /\ Bot.history (Bot.tick host c2 p s1).1 !! [104; 105]
          = Some ((prior ++ [1704866400000]) ++ [1704866404000])
       /\ replyOf (Bot.tick host c2 p s1).2
          = Some (Bot.buildReply host [104; 105] (prior ++ [1704866400000])).
Proof.
  intros host c1 c2 p s s1.
  assert ((Bot.MAX_IDS <= length (Bot.processedIds s))%nat) as Hfull.
  { change (Bot.processedIds s) with manyIds. unfold manyIds, Bot.MAX_IDS.
    rewrite length_map, length_seq. lia. }
  assert ([49] ∉ Bot.processedIds s) as Hnew.
  { change (Bot.processedIds s) with manyIds. unfold manyIds.
    intros Hin. apply list_elem_of_fmap in Hin as (n & Heq & Hn).
    apply elem_of_seq in Hn. injection Heq as Heq. lia. }
  assert (delivers p (rowOf [49] [104; 105]) [49] [104; 105]) as Hd
    by (by apply delivers_pollOf).
  assert (qualifying [104; 105]) as Hq by (unfold qualifying; vm_compute; lia).
  split; [exact Hfull|].
  apply (C7_bot_processes_redelivery host c1 c2 p s (rowOf [49] [104; 105])
           [49] [104; 105] Hd Hnew Hq Hfull).
  unfold Bot.quiet.
  rewrite (Bot_tick_admit host c1 p s (rowOf [49] [104; 105]) [49] [104; 105] Hd Hnew)
    by (destruct Hq; done).
  cbn [fst Bot.history Bot.store Bot.prune Bot.markProcessed]. unfold s, botWith.
  cbn [Bot.history]. vm_compute. reflexivity.
Defined.

(** The first poll of 11 January 2024, at 08:05 Israel time, with the
    boundary of 10 January recorded: "hi" keeps its instant of 07:00 of the
    day and loses that of the day before, "ok" is dropped. *)
Lemma C8_witness :
  let host := referenceHost Zone.Asia_Jerusalem in
  let c := mainClock 1704953100000 in
  let s := {| Main.history := <[ [104; 105] := [1704866400000; 1704949200000] ]>
                                {[ [111; 107] := [1704866400000] ]};
              Main.processedIds := [[49]; [50]];
              Main.lastPruneMidnight := 1704837600000; Main.disk := None |} in
  let s' := Main.rollover host c s in
  Main.lastPruneMidnight s < getIsraelMidnight host (Main.at_check c)
  /\ Main.history s' !! [104; 105] = Some [1704949200000]
  /\ Main.history s' !! [111; 107] = None
  /\ Main.processedIds s' = []
  /\ Main.lastPruneMidnight s' = 1704924000000.
Proof.
  intros host c s s'.
  assert (Main.lastPruneMidnight s < getIsraelMidnight host (Main.at_check c)) as Hdue
    by (vm_compute; reflexivity).
  split; [exact Hdue|].
  destruct (C8_rollover_evicts_clears_records host c s Hdue) as (Hh & Hids & Hlast & _).
  split; [etransitivity; [apply Hh|vm_compute; reflexivity]|].
  split; [etransitivity; [apply Hh|vm_compute; reflexivity]|].
  split; [exact Hids|]. etransitivity; [exact Hlast|vm_compute; reflexivity].
Defined.

(** A table with two keys, one of them with two instants. *)
Lemma C10_witness :
  let h : gmap jsstring (list Z) :=
    <[ [104; 105] := [1704866400000; 1704871800123] ]> {[ [111; 107] := [1704866400000] ]} in
  Persist.wellFormed h
  /\ Persist.load (Some (Persist.persist h)) = Persist.asDates h.
Proof.
  intros h.
  assert (Persist.wellFormed h) as Hwf.
  { intros k ts Hk. subst h.
    apply lookup_insert_Some in Hk as [[<- <-]|[_ Hk]].
    - split; repeat constructor; unfold Calendar.validTime, Calendar.maxTime; lia.
    - apply lookup_singleton_Some in Hk as [<- <-].
      split; repeat constructor; unfold Calendar.validTime, Calendar.maxTime; lia. }
  split; [exact Hwf|]. apply (C10_persist_then_load h Hwf).
Defined.

(** * Further properties of the code *)

(** ** The text filters *)

(** X1.  The filter of the commented variant lets a trimmed text through
    exactly when the text has one, two or three words: [split], the removal
    of empty pieces and the three tests amount to counting the runs of code
    units that are not white space. *)
Theorem X1_main_filter_counts_words (text : jsstring) :
  Main.accepted (JS.trim text) = true <-> (1 <= wordCount text <= 3)%nat.
Proof. apply Main_accepted_iff. Qed.

(** X2.  In the commented variant a new message whose text has no word or
    more than three words is marked as processed and nothing else happens:
    the table, the file and the recorded boundary are as the rollover check
    left them, and there is no reply. *)
Theorem X2_main_other_text_only_marked
    (host : Host) (c : Main.Clock) (p : Poll) (s : Main.State) row id text :
  delivers p row id text -> ~ qualifying text ->
  let before := Main.rollover host c s in
  let after := (Main.tick host c p s).1 in
  Main.history after = Main.history before
  /\ Main.disk after = Main.disk before
  /\ Main.lastPruneMidnight after = Main.lastPruneMidnight before
  /\ (Main.tick host c p s).2 = Skipped
  /\ id ∈ Main.processedIds after.
Proof.
  intros (Hrow & Hid & Hne & Htext) Hq before after.
  destruct (Main_handle_reject host c p before row text Hrow Htext Hq)
    as (Hh & Hd & Ho).
  split; [exact Hh|]. split; [exact Hd|]. split.
  - subst after. unfold Main.tick, Main.handle, JS.last_of. fold before.
    rewrite Hrow, Hid, Htext. destruct id as [|u id]; [done|].
    destruct (JS.set_has (u :: id) (Main.processedIds before)); [done|].
    by destruct (Main.accepted (JS.trim text)).
  - split; [exact Ho|]. by eapply Main_handle_marks.
Qed.

Lemma X2_witness :
  let host := referenceHost Zone.Asia_Jerusalem in
  let text := [97; 32; 98; 32; 99; 32; 100] in
  let r := Main.tick host (mainClock 1704866400000) (pollOf [49] text) mainMorning in
  ~ qualifying text
  /\ Main.history r.1 = ∅ /\ r.2 = Skipped /\ [49] ∈ Main.processedIds r.1.
Proof.
  intros host text r.
  assert (~ qualifying text) as Hq by (unfold qualifying; vm_compute; lia).
  split; [exact Hq|].
  destruct (X2_main_other_text_only_marked host (mainClock 1704866400000)
              (pollOf [49] text) mainMorning (rowOf [49] text) [49] text)
    as (Hh & _ & _ & Ho & Hin); [by apply delivers_pollOf|exact Hq|].
  split; [exact Hh|]. split; [exact Ho|exact Hin].
Defined.

(** X3.  The filter of [bot.js] and of [backup/bot.js] lets a trimmed text
    through exactly when the text has at most three words; a text without
    any word is let through, because [split] gives one piece for the empty
    string. *)
Theorem X3_bot_and_backup_filter_count_pieces (text : jsstring) :
  (Bot.accepted (JS.trim text) = true <-> (wordCount text <= 3)%nat)
  /\ (BackupLoop.accepted (JS.trim text) = true <-> (wordCount text <= 3)%nat).
Proof. split; apply Bot_accepted_iff. Qed.

(** ** Identifiers and lists between two day rollovers *)

(** X4.  In the commented variant a message that a poll has seen is skipped
    by every later poll that shows it again before the next day rollover,
    whatever was polled in between and whatever its text: the state is left
    as it is and there is no reply. *)
Theorem X4_main_same_message_skipped
    (host : Host) (s0 : Main.State) c1 p1 row1 mid c2 p2 row2 id :
  last (rows p1) = Some row1 -> data_id row1 = Some id ->
  let s1 := (Main.tick host c1 p1 s0).1 in
  Main.quietRun host mid s1 ->
  let s2 := Main.run host mid s1 in
  Main.quiet host c2 s2 ->
  last (rows p2) = Some row2 -> data_id row2 = Some id ->
  Main.tick host c2 p2 s2 = (s2, Skipped).
Proof.
  intros Hrow1 Hid1 s1 Hmid s2 Hquiet Hrow2 Hid2.
  rewrite Main_tick_quiet by done.
  destruct (decide (id = [])) as [->|Hne].
  - unfold Main.handle, JS.last_of. by rewrite Hrow2, Hid2.
  - eapply Main_handle_seen; [done..|].
    apply (Main_run_grows host mid s1 Hmid).
    subst s1. unfold Main.tick. by eapply Main_handle_marks.
Qed.

Lemma X4_witness :
  let host := referenceHost Zone.Asia_Jerusalem in
  let p := pollOf [49] [104; 105] in
  let mid := [(mainClock 1704866404000, pollOf [50] [111; 107])] in
  let s1 := (Main.tick host (mainClock 1704866400000) p mainMorning).1 in
  let s2 := Main.run host mid s1 in
  Main.quietRun host mid s1 /\ Main.quiet host (mainClock 1704866408000) s2
  /\ Main.tick host (mainClock 1704866408000) p s2 = (s2, Skipped).
Proof.
  intros host p mid s1 s2.
  assert (Main.quietRun host mid s1) as Hmid
    by (split; [unfold Main.quiet; vm_compute; discriminate | exact I]).
  assert (Main.quiet host (mainClock 1704866408000) s2) as Hq
    by (unfold Main.quiet; vm_compute; discriminate).
  split; [exact Hmid|]. split; [exact Hq|].
  exact (X4_main_same_message_skipped host mainMorning (mainClock 1704866400000) p
           (rowOf [49] [104; 105]) mid (mainClock 1704866408000) p
           (rowOf [49] [104; 105]) [49] eq_refl eq_refl Hmid Hq eq_refl eq_refl).
Defined.

(** X5.  In the commented variant, as long as no day rollover is due, polls
    only add: an identifier that is in the set stays in it, and a list of
    the table is only ever extended at its end. *)
Theorem X5_main_polls_only_append
    (host : Host) (steps : list (Main.Clock * Poll)) (s : Main.State) :
  Main.quietRun host steps s ->
  (forall id, id ∈ Main.processedIds s -> id ∈ Main.processedIds (Main.run host steps s))
  /\ (forall k l, Main.history s !! k = Some l ->
        exists l', Main.history (Main.run host steps s) !! k = Some (l ++ l')).
Proof. apply Main_run_grows. Qed.

Lemma X5_witness :
  let host := referenceHost Zone.Asia_Jerusalem in
  let steps := [(mainClock 1704866404000, pollOf [50] [104; 105]);
                (mainClock 1704866408000, pollOf [51] [111; 107])] in
  let s := (Main.tick host (mainClock 1704866400000) (pollOf [49] [104; 105])
              mainMorning).1 in
  Main.quietRun host steps s
  /\ exists l', Main.history (Main.run host steps s) !! [104; 105]
               = Some ([1704866400000] ++ l').
Proof.
  intros host steps s.
  assert (Main.quietRun host steps s) as Hq.
  { split; [unfold Main.quiet; vm_compute; discriminate|].
    split; [unfold Main.quiet; vm_compute; discriminate | exact I]. }
  split; [exact Hq|].
  apply (proj2 (X5_main_polls_only_append host steps s Hq)).
  vm_compute. reflexivity.
Defined.

(** ** Evictions one after the other *)

Lemma keep_keep_le (c1 c2 : Z) (ts : list Z) :
  c1 <= c2 -> Evict.keep c2 (Evict.keep c1 ts) = Evict.keep c2 ts.
Proof.
  intros Hle. unfold Evict.keep. induction ts as [|t ts IH]; [done|].
  cbn [List.filter]. destruct (c1 <=? t) eqn:H1.
  - cbn [List.filter]. destruct (c2 <=? t); by rewrite IH.
  - apply Z.leb_gt in H1. rewrite (proj2 (Z.leb_gt c2 t)) by lia. exact IH.
Qed.

Lemma kept_compose (c1 c2 : Z) (ts : list Z) :
  c1 <= c2 -> Evict.kept c1 ts ≫= Evict.kept c2 = Evict.kept c2 ts.
Proof.
  intros Hle. destruct (Evict.kept c1 ts) as [r|] eqn:E; simpl.
  - apply kept_Some in E as [<- _]. unfold Evict.kept. by rewrite keep_keep_le.
  - apply kept_None in E. unfold Evict.kept.
    by rewrite <- (keep_keep_le c1 c2 ts Hle), E.
Qed.

Lemma loop_compose (c1 c2 : Z) (h : gmap jsstring (list Z)) :
  c1 <= c2 -> Evict.loop c2 (Evict.loop c1 h) = Evict.loop c2 h.
Proof.
  intros Hle. apply map_eq; intros k. rewrite !loop_lookup.
  destruct (h !! k) as [ts|]; simpl; [by apply kept_compose|done].
Qed.

(** X6.  An eviction followed by an eviction with a later boundary gives
    what the later one gives alone: for the loop over the table, for
    [midnightPrune] run on two days, and for [prune] of [bot.js] run at two
    instants. *)
Theorem X6_later_eviction_absorbs_earlier (host : Host) (c1 c2 now1 now2 : Z) :
  (c1 <= c2 -> forall h, Evict.loop c2 (Evict.loop c1 h) = Evict.loop c2 h)
  /\ (getIsraelMidnight host now1 <= getIsraelMidnight host now2 ->
      forall s, Main.midnightPrune host now2 (Main.midnightPrune host now1 s)
                = Main.midnightPrune host now2 s)
  /\ (now1 <= now2 ->
      forall s, Bot.prune now2 (Bot.prune now1 s) = Bot.prune now2 s).
Proof.
  split; [|split].
  - intros Hle h. by apply loop_compose.
  - intros Hle s. unfold Main.midnightPrune. simpl. by rewrite loop_compose.
  - intros Hle s. unfold Bot.prune. simpl.
    rewrite loop_compose by lia. by rewrite trimIds_idempotent.
Qed.

Lemma X6_witness :
  let h : gmap jsstring (list Z) := {[ [104; 105] := [5; 10; 20] ]} in
  3 <= 7 /\ Evict.loop 7 (Evict.loop 3 h) = Evict.loop 7 h.
Proof.
  intros h. assert (3 <= 7) as Hle by lia. split; [exact Hle|].
  exact (proj1 (X6_later_eviction_absorbs_earlier (referenceHost Zone.Etc_UTC) 3 7 0 0)
           Hle h).
Defined.

Lemma loop_noEmptyList (c : Z) (h : gmap jsstring (list Z)) : noEmptyList (Evict.loop c h).
Proof.
  intros k l Hl. rewrite loop_lookup in Hl.
  destruct (h !! k) as [ts|]; simpl in Hl; [|done].
  by apply kept_Some in Hl as [_ Hne].
Qed.

Lemma loop_nothingBefore (c : Z) (h : gmap jsstring (list Z)) : nothingBefore c (Evict.loop c h).
Proof.
  intros k l Hl. rewrite loop_lookup in Hl.
  destruct (h !! k) as [ts|]; simpl in Hl; [|done].
  apply kept_Some in Hl as [<- _]. apply Forall_forall. intros t Ht.
  apply list_elem_of_In, elem_of_keep in Ht. lia.
Qed.

Lemma loop_fixed (c : Z) (h : gmap jsstring (list Z)) :
  noEmptyList h -> nothingBefore c h -> Evict.loop c h = h.
Proof.
  intros Hne Hnb. apply map_eq; intros k. rewrite loop_lookup.
  destruct (h !! k) as [ts|] eqn:Hk; simpl; [|done].
  apply kept_Some. split; [|by eapply Hne].
  specialize (Hnb k ts Hk). unfold Evict.keep.
  apply forallb_filter_id, forallb_forall. intros t Ht.
  rewrite Forall_forall in Hnb. apply Z.leb_le, Hnb. by apply list_elem_of_In.
Qed.

(** X7.  Whatever the table and the boundary, the table after an eviction
    has no key with an empty list and no instant before the boundary, and it
    has no key and no instant that the table did not have. *)
Theorem X7_evicted_table (cutoff : Z) (h : gmap jsstring (list Z)) :
  noEmptyList (Evict.loop cutoff h)
  /\ nothingBefore cutoff (Evict.loop cutoff h)
  /\ (forall k l, Evict.loop cutoff h !! k = Some l ->
        exists l0, h !! k = Some l0 /\ sublist l l0).
Proof.
  split; [apply loop_noEmptyList|]. split; [apply loop_nothingBefore|].
  intros k l Hl. rewrite loop_lookup in Hl.
  destruct (h !! k) as [ts|]; simpl in Hl; [|done].
  exists ts. split; [done|]. apply kept_Some in Hl as [<- _].
  unfold Evict.keep. induction ts as [|t ts IH]; simpl; [constructor|].
  destruct (cutoff <=? t); by constructor.
Qed.

(** X8.  A table that has no empty list and no instant before the boundary
    is left as it is by an eviction: a second [midnightPrune] on the same
    day removes nothing. *)
Theorem X8_eviction_keeps_current_table (cutoff : Z) (h : gmap jsstring (list Z)) :
  noEmptyList h -> nothingBefore cutoff h -> Evict.loop cutoff h = h.
Proof. apply loop_fixed. Qed.

Lemma X8_witness :
  let h : gmap jsstring (list Z) := {[ [104; 105] := [10; 20] ]} in
  noEmptyList h /\ nothingBefore 7 h /\ Evict.loop 7 h = h.
Proof.
  intros h.
  assert (noEmptyList h) as Hne.
  { intros k l Hk. apply lookup_singleton_Some in Hk as [_ <-]. discriminate. }
  assert (nothingBefore 7 h) as Hnb.
  { intros k l Hk. apply lookup_singleton_Some in Hk as [_ <-].
    repeat constructor; lia. }
  split; [exact Hne|]. split; [exact Hnb|].
  exact (X8_eviction_keeps_current_table 7 h Hne Hnb).
Defined.

(** ** What every poll keeps *)

Lemma insert_noEmptyList (h : gmap jsstring (list Z)) k (prev : list Z) t :
  noEmptyList h -> noEmptyList (<[k := prev ++ [t]]> h).
Proof.
  intros Hne k' l Hl. destruct (decide (k = k')) as [<-|Hkk].
  - rewrite lookup_insert_eq in Hl. injection Hl as <-. by destruct prev.
  - rewrite lookup_insert_ne in Hl by done. by eapply Hne.
Qed.

Lemma Main_rollover_noEmptyList host c s :
  noEmptyList (Main.history s) -> noEmptyList (Main.history (Main.rollover host c s)).
Proof.
  intros Hne. unfold Main.rollover. destruct (_ <? _); [|done].
  apply loop_noEmptyList.
Qed.

(** X9.  No poll of any variant puts an empty list in the table: if no key
    holds an empty list before a poll, none does after it, so a key found in
    the table always has an earlier occurrence to report. *)
Theorem X9_no_empty_list_after_poll (host : Host) (p : Poll) :
  (forall c s, noEmptyList (Main.history s) ->
               noEmptyList (Main.history (Main.tick host c p s).1))
  /\ (forall c s, noEmptyList (Main.history s) ->
               noEmptyList (Main.history (BackupLoop.tick host c p s).1))
  /\ (forall c s, noEmptyList (Bot.history s) ->
               noEmptyList (Bot.history (Bot.tick host c p s).1)).
Proof.
  split; [|split].
  - intros c s Hne. apply (Main_rollover_noEmptyList host c) in Hne.
    unfold Main.tick, Main.handle.
    destruct (JS.last_of (rows p)) as [row|]; [|done].
    destruct (data_id row) as [[|u id]|]; [done| |done].
    destruct (JS.set_has _ _); [done|].
    destruct (text_node row) as [text|]; [|done].
    destruct (Main.accepted _); [|done].
    simpl. by apply insert_noEmptyList.
  - intros c s Hne. apply (Main_rollover_noEmptyList host c) in Hne.
    unfold BackupLoop.tick, BackupLoop.handle.
    destruct (JS.last_of (rows p)) as [row|]; [|done].
    destruct (data_id row) as [[|u id]|]; [done| |done].
    destruct (JS.set_has _ _); [done|].
    destruct (text_node row) as [text|]; [|done].
    destruct (BackupLoop.accepted _); [|done].
    simpl. by apply insert_noEmptyList.
  - intros c s Hne. unfold Bot.tick.
    destruct (JS.last_of (rows p)) as [row|]; [|done].
    destruct (data_id row) as [[|u id]|]; [done| |done].
    destruct (JS.set_has _ _); [done|].
    destruct (text_node row) as [text|]; [|done].
    destruct (Bot.accepted _); [|done].
    simpl. apply insert_noEmptyList, loop_noEmptyList.
Qed.

Lemma X9_witness :
  let host := referenceHost Zone.Asia_Jerusalem in
  noEmptyList (Main.history
                 (Main.tick host (mainClock 1704866400000) (pollOf [49] [104; 105])
                    mainMorning).1).
Proof.
  intros host.
  apply (proj1 (X9_no_empty_list_after_poll host (pollOf [49] [104; 105]))).
  intros k l Hk. change (Main.history mainMorning) with (∅ : gmap jsstring (list Z)) in Hk.
  by rewrite lookup_empty in Hk.
Defined.

(** X10.  The file follows the table: if the file holds what [persist]
    writes for the table before a poll, it does so after the poll, in every
    variant; reading the file back then gives the table, when the keys are
    strings and the instants are time values of Dates. *)
Theorem X10_file_follows_table (host : Host) (p : Poll) :
  (forall c s, fileHoldsTable (Main.history s) (Main.disk s) ->
      let s' := (Main.tick host c p s).1 in
      fileHoldsTable (Main.history s') (Main.disk s')
      /\ (Persist.wellFormed (Main.history s') ->
          Persist.load (Main.disk s') = Persist.asDates (Main.history s')))
  /\ (forall c s, fileHoldsTable (Main.history s) (Main.disk s) ->
      let s' := (BackupLoop.tick host c p s).1 in
      fileHoldsTable (Main.history s') (Main.disk s')
      /\ (Persist.wellFormed (Main.history s') ->
          Persist.load (Main.disk s') = Persist.asDates (Main.history s')))
  /\ (forall c s, fileHoldsTable (Bot.history s) (Bot.disk s) ->
      let s' := (Bot.tick host c p s).1 in
      fileHoldsTable (Bot.history s') (Bot.disk s')
      /\ (Persist.wellFormed (Bot.history s') ->
          Persist.load (Bot.disk s') = Persist.asDates (Bot.history s'))).
Proof.
  assert (forall h d, fileHoldsTable h d ->
            Persist.wellFormed h -> Persist.load d = Persist.asDates h) as Hload.
  { intros h d -> Hwf. by apply load_persist. }
  assert (forall c s, fileHoldsTable (Main.history s) (Main.disk s) ->
            fileHoldsTable (Main.history (Main.rollover host c s))
                           (Main.disk (Main.rollover host c s))) as Hroll.
  { intros c s Hs. unfold Main.rollover. by destruct (_ <? _). }
  split; [|split].
  - intros c s Hs s'.
    cut (fileHoldsTable (Main.history s') (Main.disk s'));
      [intros Hs'; split; [exact Hs'|by apply Hload]|].
    apply (Hroll c) in Hs. subst s'. unfold Main.tick, Main.handle.
    destruct (JS.last_of (rows p)) as [row|]; [|done].
    destruct (data_id row) as [[|u id]|]; [done| |done].
    destruct (JS.set_has _ _); [done|].
    destruct (text_node row) as [text|]; [|done].
    by destruct (Main.accepted _).
  - intros c s Hs s'.
    cut (fileHoldsTable (Main.history s') (Main.disk s'));
      [intros Hs'; split; [exact Hs'|by apply Hload]|].
    apply (Hroll c) in Hs. subst s'. unfold BackupLoop.tick, BackupLoop.handle.
    destruct (JS.last_of (rows p)) as [row|]; [|done].
    destruct (data_id row) as [[|u id]|]; [done| |done].
    destruct (JS.set_has _ _); [done|].
    destruct (text_node row) as [text|]; [|done].
    by destruct (BackupLoop.accepted _).
  - intros c s Hs s'.
    cut (fileHoldsTable (Bot.history s') (Bot.disk s'));
      [intros Hs'; split; [exact Hs'|by apply Hload]|].
    subst s'. unfold Bot.tick.
    destruct (JS.last_of (rows p)) as [row|]; [|done].
    destruct (data_id row) as [[|u id]|]; [done| |done].
    destruct (JS.set_has _ _); [done|].
    destruct (text_node row) as [text|]; [|done].
    by destruct (Bot.accepted _).
Qed.

Lemma X10_witness :
  let host := referenceHost Zone.Asia_Jerusalem in
  let s := (Main.tick host (mainClock 1704866400000) (pollOf [49] [104; 105])
              mainMorning).1 in
  let s' := (Main.tick host (mainClock 1704866404000) (pollOf [50] [104; 105]) s).1 in
  fileHoldsTable (Main.history s) (Main.disk s)
  /\ fileHoldsTable (Main.history s') (Main.disk s').
Proof.
  intros host s s'.
  assert (fileHoldsTable (Main.history s) (Main.disk s)) as Hs by reflexivity.
  split; [exact Hs|].
  exact (proj1 (proj1 (X10_file_follows_table host (pollOf [50] [104; 105]))
                  (mainClock 1704866404000) s Hs)).
Defined.

Lemma replyOf_answer_Main host p b text (prev : list Z) :
  replyOf (Main.answer host (withComposeBox b p) text prev)
  = replyOf (Main.answer host p text prev).
Proof. destruct prev; [done|]. simpl. by destruct b, (compose_box p). Qed.

Lemma replyOf_answer_Backup host p b text (prev : list Z) :
  replyOf (BackupLoop.answer host (withComposeBox b p) text prev)
  = replyOf (BackupLoop.answer host p text prev).
Proof. destruct prev; [done|]. simpl. by destruct b, (compose_box p). Qed.

Lemma replyOf_answer_Bot host p b text (prev : list Z) :
  replyOf (Bot.answer host (withComposeBox b p) text prev)
  = replyOf (Bot.answer host p text prev).
Proof. destruct prev; [done|]. simpl. by destruct b, (compose_box p). Qed.

(** X11.  Whether the compose box is found changes neither the state a poll
    leaves nor the reply it builds, in any variant: without the box the
    occurrence is appended and written to the file all the same, and the
    reply that is built is the one that would have been typed. *)
Theorem X11_compose_box_does_not_matter (host : Host) (p : Poll) (b : bool) :
  (forall c s,
      (Main.tick host c (withComposeBox b p) s).1 = (Main.tick host c p s).1
      /\ replyOf (Main.tick host c (withComposeBox b p) s).2
         = replyOf (Main.tick host c p s).2)
  /\ (forall c s,
      (BackupLoop.tick host c (withComposeBox b p) s).1 = (BackupLoop.tick host c p s).1
      /\ replyOf (BackupLoop.tick host c (withComposeBox b p) s).2
         = replyOf (BackupLoop.tick host c p s).2)
  /\ (forall c s,
      (Bot.tick host c (withComposeBox b p) s).1 = (Bot.tick host c p s).1
      /\ replyOf (Bot.tick host c (withComposeBox b p) s).2
         = replyOf (Bot.tick host c p s).2).
Proof.
  split; [|split].
  - intros c s. unfold Main.tick, Main.handle. cbn [rows withComposeBox].
    destruct (JS.last_of (rows p)) as [row|]; [|done].
    destruct (data_id row) as [[|u id]|]; [done| |done].
    destruct (JS.set_has _ _); [done|].
    destruct (text_node row) as [text|]; [|done].
    destruct (Main.accepted _); [|done].
    split; [done|]. apply replyOf_answer_Main.
  - intros c s. unfold BackupLoop.tick, BackupLoop.handle. cbn [rows withComposeBox].
    destruct (JS.last_of (rows p)) as [row|]; [|done].
    destruct (data_id row) as [[|u id]|]; [done| |done].
    destruct (JS.set_has _ _); [done|].
    destruct (text_node row) as [text|]; [|done].
    destruct (BackupLoop.accepted _); [|done].
    split; [done|]. apply replyOf_answer_Backup.
  - intros c s. unfold Bot.tick. cbn [rows withComposeBox].
    destruct (JS.last_of (rows p)) as [row|]; [|done].
    destruct (data_id row) as [[|u id]|]; [done| |done].
    destruct (JS.set_has _ _); [done|].
    destruct (text_node row) as [text|]; [|done].
    destruct (Bot.accepted _); [|done].
    split; [done|]. apply replyOf_answer_Bot.
Qed.

(** ** Midnight, the rollover and the Date of a message *)

Lemma newDate_local_civil (pz : Zone.TimeZone) (D h mn : Z) :
  0 <= D ->
  let '(y, m, d) := Calendar.civil_from_days D in
  Zone.newDate_local pz y (m - 1) d h mn 0 0
  = Zone.UTC pz (D * Calendar.msPerDay + h * 3600000 + mn * 60000).
Proof.
  intros HD.
  pose proof (civil_from_days_spec D) as Hspec.
  pose proof (MakeDay_civil D) as Hmk.
  destruct (Calendar.civil_from_days D) as [[y m] d].
  destruct Hspec as (_ & _ & _ & Hy).
  assert (100 <= y) as Hy100 by (Z.div_mod_to_equations; lia).
  unfold Zone.newDate_local.
  rewrite (proj2 (Z.leb_gt y 99)) by lia. rewrite andb_false_r.
  rewrite Hmk. unfold Calendar.MakeDate, Calendar.MakeTime. f_equal. lia.
Qed.

Lemma fixed_offsetsWithinADay (off : Z) : offsetsWithinADay (Zone.fixed off).
Proof. intros a b. simpl. unfold Calendar.msPerDay. lia. Qed.

Lemma Asia_Jerusalem_offsetsWithinADay : offsetsWithinADay Zone.Asia_Jerusalem.
Proof.
  intros a b. simpl.
  assert (forall t, Zone.il_local_offset t = Zone.hours 2
                    \/ Zone.il_local_offset t = Zone.hours 3) as H.
  { intros t. unfold Zone.il_local_offset.
    destruct (Calendar.civil_from_days (Calendar.Day t)) as [[y m] d].
    destruct (_ && _); auto. }
  unfold Zone.hours, Calendar.msPerDay in *. destruct (H a), (H b); lia.
Qed.

Lemma getIsraelMidnight_lt (host : Host) (now1 now2 : Z) :
  offsetsWithinADay (processZone host) ->
  0 <= Zone.LocalTime Zone.Asia_Jerusalem now1 ->
  0 <= Zone.LocalTime Zone.Asia_Jerusalem now2 ->
  getIsraelMidnight host now1 < getIsraelMidnight host now2
  <-> Calendar.Day (Zone.LocalTime Zone.Asia_Jerusalem now1)
      < Calendar.Day (Zone.LocalTime Zone.Asia_Jerusalem now2).
Proof.
  intros Hoff H1 H2. rewrite !getIsraelMidnight_is_process_midnight by done.
  set (D1 := Calendar.Day _). set (D2 := Calendar.Day _).
  unfold Zone.UTC.
  pose proof (Hoff (D1 * Calendar.msPerDay) (D2 * Calendar.msPerDay)) as Ha.
  pose proof (Hoff (D2 * Calendar.msPerDay) (D1 * Calendar.msPerDay)) as Hb.
  unfold Calendar.msPerDay in *.
  split; intros Hlt.
  - destruct (Z_lt_le_dec D1 D2) as [|Hge]; [done|].
    destruct (Z.eq_dec D1 D2) as [Heq|Hne]; [rewrite Heq in Hlt; lia|]. nia.
  - nia.
Qed.

(** X12.  [getIsraelMidnight] depends on the instant only through the
    calendar date in Israel: two instants of the same Israel date give the
    same value, and in a process whose zone has offsets less than a day
    apart (a fixed offset, or Asia/Jerusalem) a later Israel date gives a
    larger value and an earlier one a smaller value. *)
Theorem X12_getIsraelMidnight_follows_israel_date (host : Host) (now1 now2 : Z) :
  0 <= Zone.LocalTime Zone.Asia_Jerusalem now1 ->
  0 <= Zone.LocalTime Zone.Asia_Jerusalem now2 ->
  (Calendar.Day (Zone.LocalTime Zone.Asia_Jerusalem now1)
   = Calendar.Day (Zone.LocalTime Zone.Asia_Jerusalem now2) ->
   getIsraelMidnight host now1 = getIsraelMidnight host now2)
  /\ (offsetsWithinADay (processZone host) ->
      (getIsraelMidnight host now1 < getIsraelMidnight host now2
       <-> Calendar.Day (Zone.LocalTime Zone.Asia_Jerusalem now1)
           < Calendar.Day (Zone.LocalTime Zone.Asia_Jerusalem now2))).
Proof.
  intros H1 H2. split.
  - intros Heq. rewrite !getIsraelMidnight_is_process_midnight by done.
    by rewrite Heq.
  - intros Hoff. by apply getIsraelMidnight_lt.
Qed.

Lemma X12_witness :
  let host := referenceHost Zone.EST in
  getIsraelMidnight host 1704866400000 = getIsraelMidnight host 1704888000000.
Proof.
  intros host.
  assert (0 <= Zone.LocalTime Zone.Asia_Jerusalem 1704866400000) as H1
    by (vm_compute; discriminate).
  assert (0 <= Zone.LocalTime Zone.Asia_Jerusalem 1704888000000) as H2
    by (vm_compute; discriminate).
  exact (proj1 (X12_getIsraelMidnight_follows_israel_date host _ _ H1 H2) eq_refl).
Defined.

(** X13.  In a process whose zone has offsets less than a day apart, with
    [lastPruneMidnight] as [midnightPrune] set it at the instant [t0], the
    check at the head of the callback leaves the state alone while the date
    in Israel is that of [t0] or earlier, and runs [midnightPrune] once the
    date in Israel is later. *)
Theorem X13_rollover_when_israel_date_advances
    (host : Host) (c : Main.Clock) (s : Main.State) (t0 : Z) :
  offsetsWithinADay (processZone host) ->
  0 <= Zone.LocalTime Zone.Asia_Jerusalem t0 ->
  0 <= Zone.LocalTime Zone.Asia_Jerusalem (Main.at_check c) ->
  Main.lastPruneMidnight s = getIsraelMidnight host t0 ->
  (Calendar.Day (Zone.LocalTime Zone.Asia_Jerusalem (Main.at_check c))
   <= Calendar.Day (Zone.LocalTime Zone.Asia_Jerusalem t0) ->
   Main.rollover host c s = s)
  /\ (Calendar.Day (Zone.LocalTime Zone.Asia_Jerusalem t0)
      < Calendar.Day (Zone.LocalTime Zone.Asia_Jerusalem (Main.at_check c)) ->
      Main.rollover host c s = Main.midnightPrune host (Main.at_prune c) s).
Proof.
  intros Hoff H0 Hc Hlast.
  pose proof (getIsraelMidnight_lt host t0 (Main.at_check c) Hoff H0 Hc) as Hiff.
  split; intros Hd.
  - apply Main_rollover_quiet. unfold Main.quiet. rewrite Hlast.
    destruct (Z_lt_le_dec (getIsraelMidnight host t0)
                (getIsraelMidnight host (Main.at_check c))) as [Hlt|Hge]; [|lia].
    apply Hiff in Hlt. lia.
  - apply Main_rollover_due. rewrite Hlast. by apply Hiff.
Qed.

Lemma X13_witness :
  let host := referenceHost Zone.Asia_Jerusalem in
  Main.rollover host (mainClock 1704871800000) mainMorning = mainMorning
  /\ Main.rollover host (mainClock 1704953100000) mainMorning
     = Main.midnightPrune host 1704953100000 mainMorning.
Proof.
  intros host.
  assert (0 <= Zone.LocalTime Zone.Asia_Jerusalem 1704866400000) as H0
    by (vm_compute; discriminate).
  assert (0 <= Zone.LocalTime Zone.Asia_Jerusalem 1704871800000) as H1
    by (vm_compute; discriminate).
  assert (0 <= Zone.LocalTime Zone.Asia_Jerusalem 1704953100000) as H2
    by (vm_compute; discriminate).
  assert (Main.lastPruneMidnight mainMorning = getIsraelMidnight host 1704866400000)
    as Hlast by (vm_compute; reflexivity).
  split.
  - apply (proj1 (X13_rollover_when_israel_date_advances host
                    (mainClock 1704871800000) mainMorning 1704866400000
                    Asia_Jerusalem_offsetsWithinADay H0 H1 Hlast)).
    vm_compute; discriminate.
  - apply (proj2 (X13_rollover_when_israel_date_advances host
                    (mainClock 1704953100000) mainMorning 1704866400000
                    Asia_Jerusalem_offsetsWithinADay H0 H2 Hlast)).
    vm_compute; reflexivity.
Defined.

(** X14.  In [bot.js] a row that shows a time [h]:[mn] is stamped with that
    time of day on today's date of the process zone, seconds and
    milliseconds zero, whatever the clock reads within the day; with a
    process zone of fixed offset and [h] below 24 and [mn] below 60 the stamp
    lies on the process zone's date of today and shows [h]:[mn] there.  A
    row that shows no time is stamped with the reading of the clock. *)
Theorem X14_bot_message_date (host : Host) (c : Bot.Clock) (r : Row) (h mn : Z) :
  0 <= Zone.LocalTime (processZone host) (Bot.at_today c) ->
  let today := Calendar.Day (Zone.LocalTime (processZone host) (Bot.at_today c)) in
  (pre_plain_time r = None -> Bot.messageDate host c r = Bot.at_stamp c)
  /\ (pre_plain_time r = Some (h, mn) ->
      Bot.messageDate host c r
      = Zone.UTC (processZone host)
          (today * Calendar.msPerDay + h * 3600000 + mn * 60000))
  /\ (pre_plain_time r = Some (h, mn) ->
      forall off, processZone host = Zone.fixed off ->
      0 <= h < 24 -> 0 <= mn < 60 ->
      Calendar.Day (Zone.LocalTime (processZone host) (Bot.messageDate host c r)) = today
      /\ Calendar.TimeWithinDay
           (Zone.LocalTime (processZone host) (Bot.messageDate host c r))
         = h * 3600000 + mn * 60000).
Proof.
  intros Hpos today.
  assert (0 <= today) as Htoday
    by (subst today; unfold Calendar.Day, Calendar.msPerDay;
        Z.div_mod_to_equations; lia).
  assert (pre_plain_time r = Some (h, mn) ->
          Bot.messageDate host c r
          = Zone.UTC (processZone host)
              (today * Calendar.msPerDay + h * 3600000 + mn * 60000)) as Hform.
  { intros Hr. unfold Bot.messageDate. rewrite Hr. fold today.
    pose proof (newDate_local_civil (processZone host) today h mn Htoday) as Hnd.
    by destruct (Calendar.civil_from_days today) as [[y m] d]. }
  split; [|split].
  - intros Hr. unfold Bot.messageDate. by rewrite Hr.
  - exact Hform.
  - intros Hr off Hpz Hh Hmn. rewrite (Hform Hr). clear Hform.
    generalize dependent today. rewrite Hpz. intros today Htoday.
    unfold Zone.LocalTime, Zone.UTC, Calendar.Day, Calendar.TimeWithinDay,
      Calendar.msPerDay. simpl.
    split; Z.div_mod_to_equations; lia.
Qed.

Lemma X14_witness :
  let host := referenceHost Zone.EST in
  let c := {| Bot.at_stamp := 1704888000123; Bot.at_today := 1704888000456;
              Bot.at_prune := 1704888000789 |} in
  Bot.messageDate host c (rowAt [49] [104; 105] 6 58) = 1704887880000.
Proof.
  intros host c.
  assert (0 <= Zone.LocalTime (processZone host) (Bot.at_today c)) as Hpos
    by (vm_compute; discriminate).
  exact (proj1 (proj2 (X14_bot_message_date host c (rowAt [49] [104; 105] 6 58) 6 58 Hpos))
           eq_refl).
Defined.

(** ** The order of the times in a reply *)

Lemma sorted_perm_eq (R : Z -> Z -> Prop) (l1 l2 : list Z) :
  (forall x y, R x y -> R y x -> x = y) ->
  StronglySorted R l1 -> StronglySorted R l2 -> Permutation l1 l2 -> l1 = l2.
Proof.
  intros Hanti. revert l2. induction l1 as [|a l1 IH]; intros l2 Hs1 Hs2 Hp.
  - by apply Permutation_nil in Hp.
  - destruct l2 as [|b l2]; [by apply Permutation_sym, Permutation_nil in Hp|].
    apply StronglySorted_inv in Hs1 as [Hs1 Ha].
    apply StronglySorted_inv in Hs2 as [Hs2 Hb].
    rewrite Forall_forall in Ha, Hb.
    assert (a = b) as <-.
    { assert (a ∈ b :: l2) as Hin1 by (rewrite <- Hp; left).
      assert (b ∈ a :: l1) as Hin2 by (rewrite Hp; left).
      apply elem_of_cons in Hin1 as [|Hin1]; [done|].
      apply elem_of_cons in Hin2 as [|Hin2]; [done|].
      apply Hanti; [by apply Ha|by apply Hb]. }
    f_equal. apply IH; [done|done|]. by apply Permutation_cons_inv in Hp.
Qed.

Lemma sort_ascending_perm (l1 l2 : list Z) :
  Permutation l1 l2 -> JS.sort (fun a b => a - b) l1 = JS.sort (fun a b => a - b) l2.
Proof.
  intros Hp. destruct (sort_ascending l1) as [Hp1 Hs1].
  destruct (sort_ascending l2) as [Hp2 Hs2].
  apply (sorted_perm_eq Z.le); [intros x y; lia|done|done|].
  eapply Permutation_trans; [apply Permutation_sym, Hp1|].
  eapply Permutation_trans; [exact Hp|exact Hp2].
Qed.

Lemma sort_descending_perm (l1 l2 : list Z) :
  Permutation l1 l2 -> JS.sort (fun a b => b - a) l1 = JS.sort (fun a b => b - a) l2.
Proof.
  intros Hp. destruct (sort_descending l1) as [Hp1 Hs1].
  destruct (sort_descending l2) as [Hp2 Hs2].
  apply (sorted_perm_eq Z.ge); [intros x y; lia|done|done|].
  eapply Permutation_trans; [apply Permutation_sym, Hp1|].
  eapply Permutation_trans; [exact Hp|exact Hp2].
Qed.

(** X15.  The reply does not depend on the order in which the earlier
    occurrences are handed to [buildReply]: two lists with the same instants,
    each as often, give the same reply in every variant. *)
Theorem X15_reply_ignores_order_of_times (host : Host) (msg : jsstring) (times1 times2 : list Z) :
  Permutation times1 times2 ->
  Main.buildReply host msg times1 = Main.buildReply host msg times2
  /\ Backup.buildReply host msg times1 = Backup.buildReply host msg times2
  /\ Bot.buildReply host msg times1 = Bot.buildReply host msg times2.
Proof.
  intros Hp. unfold Main.buildReply, Backup.buildReply, Bot.buildReply.
  by rewrite (sort_ascending_perm _ _ Hp), (sort_descending_perm _ _ Hp).
Qed.

Lemma X15_witness :
  let host := referenceHost Zone.Asia_Jerusalem in
  Bot.buildReply host [104; 105] [1704866400000; 1704871800000]
  = Bot.buildReply host [104; 105] [1704871800000; 1704866400000].
Proof.
  intros host.
  exact (proj2 (proj2 (X15_reply_ignores_order_of_times host [104; 105] _ _
                         (perm_swap 1704871800000 1704866400000 [])))).
Defined.

(** X16.  [prune] of [bot.js] leaves at most [MAX_IDS] identifiers, adds
    none, and removes none from a set of at most [MAX_IDS]. *)
Theorem X16_bot_prune_bounds_identifiers (now : Z) (s : Bot.State) :
  (length (Bot.processedIds (Bot.prune now s)) <= Bot.MAX_IDS)%nat
  /\ (forall id, id ∈ Bot.processedIds (Bot.prune now s) -> id ∈ Bot.processedIds s)
  /\ ((length (Bot.processedIds s) <= Bot.MAX_IDS)%nat ->
      Bot.processedIds (Bot.prune now s) = Bot.processedIds s).
Proof.
  unfold Bot.prune. cbn [Bot.processedIds]. rewrite trimIds_spec.
  destruct (Bot.MAX_IDS <? length (Bot.processedIds s))%nat eqn:Hlen.
  - apply Nat.ltb_lt in Hlen. split; [simpl; lia|]. split.
    + intros id Hin. by apply elem_of_nil in Hin.
    + lia.
  - apply Nat.ltb_ge in Hlen. done.
Qed.

(** ** The start of the process *)

Section StartupFacts.
Implicit Types (h acc : gmap jsstring (list (option Z))) (k : jsstring)
  (ds : list (option Z)).

Lemma startup_visit_same (cutoff : Z) acc k ds :
  Startup.timeValues <$> (Startup.visit cutoff acc (k, ds) !! k)
  = Startup.keptDates cutoff ds.
Proof.
  unfold Startup.visit, Startup.keptDates; simpl.
  destruct (Startup.recentDates cutoff ds) as [|d r]; simpl.
  - by rewrite lookup_delete_eq.
  - by rewrite lookup_insert_eq.
Qed.

Lemma startup_visit_other (cutoff : Z) acc k k' ds :
  k <> k' -> Startup.visit cutoff acc (k, ds) !! k' = acc !! k'.
Proof.
  intros Hne. unfold Startup.visit; simpl.
  destruct (0 <? length (Startup.recentDates cutoff ds))%nat.
  - by apply lookup_insert_ne.
  - by apply lookup_delete_ne.
Qed.

Lemma startup_fold_absent (cutoff : Z) (l : list (jsstring * list (option Z))) acc k :
  k ∉ l.*1 -> fold_left (Startup.visit cutoff) l acc !! k = acc !! k.
Proof.
  revert acc. induction l as [|[k0 ds0] l IH]; intros acc Hk; simpl; [done|].
  simpl in Hk. apply not_elem_of_cons in Hk as [Hne Hk].
  rewrite IH by done. apply startup_visit_other. congruence.
Qed.

Lemma startup_fold_present (cutoff : Z) (l : list (jsstring * list (option Z))) acc k ds :
  NoDup l.*1 -> (k, ds) ∈ l ->
  Startup.timeValues <$> (fold_left (Startup.visit cutoff) l acc !! k)
  = Startup.keptDates cutoff ds.
Proof.
  revert acc. induction l as [|[k0 ds0] l IH]; intros acc Hnd Hin; simpl.
  - by apply elem_of_nil in Hin.
  - simpl in Hnd. apply NoDup_cons in Hnd as [Hfresh Hnd].
    apply elem_of_cons in Hin as [Heq|Hin].
    + inversion Heq; subst k0 ds0.
      rewrite startup_fold_absent by done. apply startup_visit_same.
    + by apply IH.
Qed.

(** The table after the start-up prune, key by key. *)
Lemma startup_loop_lookup (cutoff : Z) h k :
  (Startup.timeValues <$> Startup.loop cutoff h) !! k
  = h !! k ≫= Startup.keptDates cutoff.
Proof.
  rewrite lookup_fmap. unfold Startup.loop.
  destruct (h !! k) as [ds|] eqn:Hk; simpl.
  - apply startup_fold_present.
    + apply NoDup_fst_map_to_list.
    + by apply elem_of_map_to_list.
  - rewrite startup_fold_absent; [by rewrite Hk|].
    intros Hin. apply list_elem_of_fmap in Hin as [[k' ds] [-> Hin]].
    apply elem_of_map_to_list in Hin. simpl in *. congruence.
Qed.

Lemma recentDates_valid (cutoff : Z) ds d :
  In d (Startup.recentDates cutoff ds) -> exists v, d = Some v /\ cutoff <= v.
Proof.
  unfold Startup.recentDates. rewrite filter_In. intros [_ Hd].
  destruct d as [v|]; [|done]. exists v. split; [done|]. by apply Z.leb_le.
Qed.

Lemma timeValues_recent (cutoff : Z) ds :
  Forall (fun t => cutoff <= t) (Startup.timeValues (Startup.recentDates cutoff ds)).
Proof.
  unfold Startup.recentDates, Startup.timeValues.
  induction ds as [|[v|] ds IH]; simpl; [constructor| |done].
  destruct (cutoff <=? v) eqn:Hv; [|done]. simpl.
  constructor; [by apply Z.leb_le|done].
Qed.

Lemma keptDates_Some (cutoff : Z) ds l :
  Startup.keptDates cutoff ds = Some l ->
  l <> [] /\ Forall (fun t => cutoff <= t) l.
Proof.
  unfold Startup.keptDates.
  pose proof (timeValues_recent cutoff ds) as Hall.
  pose proof (recentDates_valid cutoff ds) as Hvalid.
  destruct (Startup.recentDates cutoff ds) as [|d r]; [done|].
  intros [= <-]. split; [|done].
  destruct (Hvalid d) as (v & -> & _); [by left|]. done.
Qed.

Lemma recentDates_Some (cutoff : Z) (l : list Z) :
  Startup.recentDates cutoff (map Some l) = map Some (Evict.keep cutoff l).
Proof.
  unfold Startup.recentDates, Evict.keep.
  induction l as [|t l IH]; simpl; [done|].
  destruct (cutoff <=? t); simpl; by rewrite IH.
Qed.

Lemma timeValues_Some (l : list Z) : Startup.timeValues (map Some l) = l.
Proof.
  unfold Startup.timeValues. induction l as [|t l IH]; simpl; [done|].
  f_equal. exact IH.
Qed.

Lemma keptDates_asDates (cutoff : Z) (l : list Z) :
  Startup.keptDates cutoff (map Some l) = Evict.kept cutoff l.
Proof.
  unfold Startup.keptDates, Evict.kept. rewrite recentDates_Some.
  destruct (Evict.keep cutoff l) as [|t r]; [done|].
  f_equal. exact (timeValues_Some (t :: r)).
Qed.

Lemma startup_loop_asDates (cutoff : Z) (t : gmap jsstring (list Z)) :
  Startup.timeValues <$> Startup.loop cutoff (Persist.asDates t) = Evict.loop cutoff t.
Proof.
  apply map_eq; intros k. rewrite startup_loop_lookup, loop_lookup.
  unfold Persist.asDates. rewrite lookup_fmap.
  destruct (t !! k) as [l|]; simpl; [apply keptDates_asDates|done].
Qed.

End StartupFacts.

Lemma start_after_persist (host : Host) (now : Z) (s : Main.State) :
  Persist.wellFormed (Main.history s) ->
  fileHoldsTable (Main.history s) (Main.disk s) ->
  Startup.start host now (Main.disk s) = Main.midnightPrune host now s.
Proof.
  intros Hwf Hfile. unfold Startup.start, Startup.pruneLoaded, Main.midnightPrune.
  rewrite Hfile, load_persist by done. by rewrite startup_loop_asDates.
Qed.

Lemma timeValues_recentDates (cutoff : Z) (dates : list (option Z)) :
  Startup.timeValues (Startup.recentDates cutoff dates)
  = omap (fun d : option Z =>
            match d with
            | Some t => if cutoff <=? t then Some t else None
            | None => None
            end) dates.
Proof.
  unfold Startup.timeValues, Startup.recentDates.
  induction dates as [|[t|] dates IH]; simpl; [reflexivity| |exact IH].
  destruct (cutoff <=? t); simpl; [f_equal; exact IH|exact IH].
Qed.

Lemma keptDates_omap (cutoff : Z) (dates : list (option Z)) :
  Startup.keptDates cutoff dates
  = match omap (fun d : option Z =>
                  match d with
                  | Some t => if cutoff <=? t then Some t else None
                  | None => None
                  end) dates with
    | [] => None
    | t :: l => Some (t :: l)
    end.
Proof.
  rewrite <- timeValues_recentDates. unfold Startup.keptDates.
  pose proof (recentDates_valid cutoff dates) as Hvalid.
  destruct (Startup.recentDates cutoff dates) as [|d r]; [reflexivity|].
  destruct (Hvalid d) as (v & -> & _); [by left|]. reflexivity.
Qed.

(** X17.  The state the prune at the start of the process leaves, whatever
    table of Dates the load block filled: under every key the time values
    of the Dates that are valid and not before today's boundary, in their
    order, and no entry when there is none; so no key holds an empty list
    and no instant lies before the boundary.  No identifier counts as
    processed, the boundary is recorded, and the file has been rewritten
    from the pruned table. *)
Theorem X17_state_after_start (host : Host) (now : Z)
    (loaded : gmap jsstring (list (option Z))) :
  let s := Startup.pruneLoaded host now loaded in
  let cutoff := getIsraelMidnight host now in
  let recent := fun d : option Z =>
    match d with
    | Some t => if cutoff <=? t then Some t else None
    | None => None
    end in
  (forall k, Main.history s !! k
             = match loaded !! k with
               | Some dates =>
                   match omap recent dates with
                   | [] => None
                   | t :: l => Some (t :: l)
                   end
               | None => None
               end)
  /\ noEmptyList (Main.history s)
  /\ nothingBefore cutoff (Main.history s)
  /\ Main.processedIds s = []
  /\ Main.lastPruneMidnight s = cutoff
  /\ fileHoldsTable (Main.history s) (Main.disk s).
Proof.
  intros s cutoff recent.
  assert (forall k, Main.history s !! k
                    = loaded !! k ≫= Startup.keptDates cutoff) as Hlook
    by (intros k; apply startup_loop_lookup).
  split; [|split; [|split; [|split; [reflexivity|split; reflexivity]]]].
  - intros k. rewrite Hlook. destruct (loaded !! k) as [dates|]; [|reflexivity].
    apply keptDates_omap.
  - intros k l Hl. rewrite Hlook in Hl.
    destruct (loaded !! k) as [ds|]; [|discriminate].
    by apply keptDates_Some in Hl as [Hne _].
  - intros k l Hl. rewrite Hlook in Hl.
    destruct (loaded !! k) as [ds|]; [|discriminate].
    by apply keptDates_Some in Hl as [_ Hall].
Qed.

(** X18.  Stopping the process and starting it again on the file it wrote
    is a [midnightPrune]: the table is evicted at the boundary of the day of
    the start, the set of processed identifiers is empty, and the file is
    rewritten.  When the table held nothing from before that boundary, it
    comes back as it was. *)
Theorem X18_restart_is_midnightPrune (host : Host) (now : Z) (s : Main.State) :
  Persist.wellFormed (Main.history s) ->
  fileHoldsTable (Main.history s) (Main.disk s) ->
  Startup.start host now (Main.disk s) = Main.midnightPrune host now s
  /\ (noEmptyList (Main.history s) ->
      nothingBefore (getIsraelMidnight host now) (Main.history s) ->
      Main.history (Startup.start host now (Main.disk s)) = Main.history s).
Proof.
  intros Hwf Hfile. split; [by apply start_after_persist|].
  intros Hne Hnb. rewrite start_after_persist by done.
  unfold Main.midnightPrune. cbn [Main.history]. by apply loop_fixed.
Qed.

Lemma X18_witness :
  let host := referenceHost Zone.Asia_Jerusalem in
  let h : gmap jsstring (list Z) := {[ [104; 105] := [1704866400000] ]} in
  let s := {| Main.history := h; Main.processedIds := [[49]];
              Main.lastPruneMidnight := 1704837600000;
              Main.disk := Some (Persist.persist h) |} in
  Startup.start host 1704953100000 (Main.disk s)
  = Main.midnightPrune host 1704953100000 s.
Proof.
  intros host h s.
  assert (fileHoldsTable (Main.history s) (Main.disk s)) as Hfile by reflexivity.
  assert (Persist.wellFormed (Main.history s)) as Hwf.
  { intros k ts Hk. change (Main.history s) with h in Hk. subst h.
    apply lookup_singleton_Some in Hk as [<- <-].
    split; repeat constructor; unfold Calendar.validTime, Calendar.maxTime; lia. }
  exact (proj1 (X18_restart_is_midnightPrune host 1704953100000 s Hwf Hfile)).
Defined.

(** X19.  The identifiers of processed messages do not survive a restart.
    When the process is started again on the day of an occurrence recorded
    under a key, and the newest row of the page shows a qualifying text with
    that key, the first poll appends to the list and builds the reply from
    the list as the file held it, whether or not that row had been processed
    before the restart. *)
Theorem X19_first_poll_after_restart
    (host : Host) (now : Z) (c : Main.Clock) (p : Poll) (s : Main.State)
    row id text (prev : list Z) :
  Persist.wellFormed (Main.history s) ->
  fileHoldsTable (Main.history s) (Main.disk s) ->
  delivers p row id text -> qualifying text ->
  let key := Main.historyKey host (JS.trim text) in
  Main.history s !! key = Some prev -> prev <> [] ->
  Forall (fun t => getIsraelMidnight host now <= t) prev ->
  let s0 := Startup.start host now (Main.disk s) in
  Main.quiet host c s0 ->
  Main.history (Main.tick host c p s0).1 !! key = Some (prev ++ [Main.at_stamp c])
  /\ replyOf (Main.tick host c p s0).2 = Some (Main.buildReply host (JS.trim text) prev).
Proof.
  intros Hwf Hfile Hd Hq key Hprev Hne Hall s0 Hquiet.
  assert (Main.history s0 !! key = Some prev) as Hk0.
  { subst s0. rewrite start_after_persist by done.
    unfold Main.midnightPrune. cbn [Main.history].
    rewrite loop_lookup, Hprev. simpl. apply kept_Some. split; [|done].
    unfold Evict.keep. apply forallb_filter_id, forallb_forall.
    intros t Ht. rewrite Forall_forall in Hall.
    apply Z.leb_le, Hall. by apply list_elem_of_In. }
  assert (id ∉ Main.processedIds s0) as Hnew.
  { subst s0. unfold Startup.start. cbn [Main.processedIds]. apply not_elem_of_nil. }
  rewrite Main_tick_quiet by done.
  rewrite (Main_handle_admit host c p s0 row id text Hd Hnew Hq).
  fold key. rewrite Hk0. cbn [default fst snd Main.store Main.history].
  split; [apply lookup_insert_eq|].
  rewrite answer_nonempty_Main by done. by destruct (compose_box p).
Qed.

Lemma X19_witness :
  let host := referenceHost Zone.Asia_Jerusalem in
  let p := pollOf [49] [104; 105] in
  let h : gmap jsstring (list Z) := {[ [104; 105] := [1704866400000] ]} in
  let s := {| Main.history := h; Main.processedIds := [[49]];
              Main.lastPruneMidnight := 1704837600000;
              Main.disk := Some (Persist.persist h) |} in
  let s0 := Startup.start host 1704866460000 (Main.disk s) in
  [49] ∈ Main.processedIds s
  /\ Main.history (Main.tick host (mainClock 1704866464000) p s0).1 !! [104; 105]
     = Some ([1704866400000] ++ [1704866464000])
  /\ replyOf (Main.tick host (mainClock 1704866464000) p s0).2
     = Some (Main.buildReply host (JS.trim [104; 105]) [1704866400000]).
Proof.
  intros host p h s s0.
  assert (fileHoldsTable (Main.history s) (Main.disk s)) as Hfile by reflexivity.
  assert (Persist.wellFormed (Main.history s)) as Hwf.
  { intros k ts Hk. change (Main.history s) with h in Hk. subst h.
    apply lookup_singleton_Some in Hk as [<- <-].
    split; repeat constructor; unfold Calendar.validTime, Calendar.maxTime; lia. }
  assert (qualifying [104; 105]) as Hq by (unfold qualifying; vm_compute; lia).
  assert (Main.history s !! Main.historyKey host (JS.trim [104; 105]) = Some [1704866400000])
    as Hprev by (change (Main.history s) with h; apply lookup_singleton_eq).
  assert (Forall (fun t => getIsraelMidnight host 1704866460000 <= t) [1704866400000])
    as Hall by (repeat constructor; vm_compute; discriminate).
  assert (Main.quiet host (mainClock 1704866464000) s0) as Hquiet
    by (unfold Main.quiet; vm_compute; discriminate).
  split; [apply list_elem_of_singleton; reflexivity|].
  exact (X19_first_poll_after_restart host 1704866460000 (mainClock 1704866464000) p s
           (rowOf [49] [104; 105]) [49] [104; 105] [1704866400000] Hwf Hfile
           (delivers_pollOf [49] [104; 105] ltac:(discriminate)) Hq Hprev
           ltac:(discriminate) Hall Hquiet).
Defined.

(** ** The polling callback of [backup/bot.js] *)

Section BackupFacts.
Variable host : Host.

Lemma Backup_tick_quiet c p s :
  Main.quiet host c s -> BackupLoop.tick host c p s = BackupLoop.handle host c p s.
Proof. intros Hq. unfold BackupLoop.tick. by rewrite Main_rollover_quiet. Qed.

Lemma Backup_handle_admit c p s row id text :
  delivers p row id text -> id ∉ Main.processedIds s -> (wordCount text <= 3)%nat ->
  let key := toLowerCase host (JS.trim text) in
  let prev := default [] (Main.history s !! key) in
  BackupLoop.handle host c p s
  = (Main.store key (prev ++ [Main.at_stamp c])
       (Main.setProcessed (JS.set_add id (Main.processedIds s)) s),
     BackupLoop.answer host p (JS.trim text) prev).
Proof.
  intros (Hrow & Hid & Hne & Htext) Hnew Hq. unfold BackupLoop.handle, JS.last_of.
  rewrite Hrow, Hid. destruct id as [|u id]; [done|].
  rewrite (proj2 (set_has_false _ _) Hnew), Htext.
  change (BackupLoop.accepted (JS.trim text)) with (Bot.accepted (JS.trim text)).
  rewrite (proj2 (Bot_accepted_iff text) Hq). reflexivity.
Qed.

Lemma Backup_handle_reject c p s row text :
  last (rows p) = Some row -> text_node row = Some text -> (3 < wordCount text)%nat ->
  Main.history (BackupLoop.handle host c p s).1 = Main.history s
  /\ Main.disk (BackupLoop.handle host c p s).1 = Main.disk s
  /\ (BackupLoop.handle host c p s).2 = Skipped.
Proof.
  intros Hrow Htext Hq. unfold BackupLoop.handle, JS.last_of. rewrite Hrow, Htext.
  assert (BackupLoop.accepted (JS.trim text) = false) as ->.
  { destruct (BackupLoop.accepted (JS.trim text)) eqn:Ha; [|done].
    change (BackupLoop.accepted (JS.trim text)) with (Bot.accepted (JS.trim text)) in Ha.
    apply Bot_accepted_iff in Ha. lia. }
  destruct (data_id row) as [[|u id]|]; [done| |done].
  by destruct (JS.set_has (u :: id) (Main.processedIds s)).
Qed.

Lemma Backup_handle_seen c p s row id :
  last (rows p) = Some row -> data_id row = Some id -> id ∈ Main.processedIds s ->
  BackupLoop.handle host c p s = (s, Skipped).
Proof.
  intros Hrow Hid Hin. unfold BackupLoop.handle, JS.last_of. rewrite Hrow, Hid.
  destruct id as [|u id]; [done|].
  by rewrite (proj2 (set_has_true _ _) Hin).
Qed.

Lemma Backup_handle_marks c p s row id :
  last (rows p) = Some row -> data_id row = Some id -> id <> [] ->
  id ∈ Main.processedIds (BackupLoop.handle host c p s).1.
Proof.
  intros Hrow Hid Hne. unfold BackupLoop.handle, JS.last_of. rewrite Hrow, Hid.
  destruct id as [|u id]; [done|].
  destruct (JS.set_has (u :: id) (Main.processedIds s)) eqn:Hhas.
  - by apply set_has_true in Hhas.
  - assert (u :: id ∈ JS.set_add (u :: id) (Main.processedIds s)) as Hin
      by (apply set_add_elem; by left).
    destruct (text_node row) as [text|]; [|done].
    by destruct (BackupLoop.accepted (JS.trim text)).
Qed.

Lemma Backup_handle_keeps_ids c p s id :
  id ∈ Main.processedIds s -> id ∈ Main.processedIds (BackupLoop.handle host c p s).1.
Proof.
  intros Hin. unfold BackupLoop.handle.
  destruct (JS.last_of (rows p)) as [row|]; [|done].
  destruct (data_id row) as [[|u id']|]; [done| |done].
  destruct (JS.set_has (u :: id') (Main.processedIds s)); [done|].
  assert (id ∈ JS.set_add (u :: id') (Main.processedIds s)) as Hin'
    by (apply set_add_elem; by right).
  destruct (text_node row) as [text|]; [|done].
  by destruct (BackupLoop.accepted (JS.trim text)).
Qed.

Lemma Backup_run_keeps_ids steps s id :
  BackupLoop.quietRun host steps s ->
  id ∈ Main.processedIds s -> id ∈ Main.processedIds (BackupLoop.run host steps s).
Proof.
  revert s. induction steps as [|[c p] steps IH]; intros s Hq Hin; simpl; [done|].
  simpl in Hq. destruct Hq as [Hq Hrest]. apply IH; [done|].
  rewrite Backup_tick_quiet by done. by apply Backup_handle_keeps_ids.
Qed.

End BackupFacts.

(** X20.  The callback of [backup/bot.js] on a new message: a text of at
    most three words, the text without any word included, is appended under
    its lower-cased trimmed form, and the reply is built from the list found
    before the append when that list is not empty; a text of more than three
    words leaves the table and the file alone.  Either way the identifier
    is recorded. *)
Theorem X20_backup_callback_on_new_message
    (host : Host) (c : Main.Clock) (p : Poll) (s : Main.State) row id text :
  delivers p row id text ->
  let before := Main.rollover host c s in
  id ∉ Main.processedIds before ->
  let after := (BackupLoop.tick host c p s).1 in
  let key := toLowerCase host (JS.trim text) in
  let prev := default [] (Main.history before !! key) in
  id ∈ Main.processedIds after
  /\ ((wordCount text <= 3)%nat ->
      Main.history after !! key = Some (prev ++ [Main.at_stamp c])
      /\ fileHoldsTable (Main.history after) (Main.disk after)
      /\ replyOf (BackupLoop.tick host c p s).2
         = match prev with
           | [] => None
           | _ :: _ => Some (Backup.buildReply host (JS.trim text) prev)
           end)
  /\ ((3 < wordCount text)%nat ->
      Main.history after = Main.history before
      /\ Main.disk after = Main.disk before
      /\ (BackupLoop.tick host c p s).2 = Skipped).
Proof.
  intros Hd before Hnew after key prev.
  pose proof Hd as (Hrow & Hid & Hne & Htext).
  split; [by eapply Backup_handle_marks|]. split.
  - intros Hq. subst after. unfold BackupLoop.tick. fold before.
    rewrite (Backup_handle_admit host c p before row id text Hd Hnew Hq).
    fold key. fold prev. cbn [fst snd Main.store Main.history Main.disk].
    split; [apply lookup_insert_eq|]. split; [reflexivity|].
    destruct prev as [|t prev]; [done|]. simpl. by destruct (compose_box p).
  - intros Hq. subst after. unfold BackupLoop.tick. fold before.
    by eapply Backup_handle_reject.
Qed.

Lemma X20_witness :
  let host := referenceHost Zone.Asia_Jerusalem in
  let r1 := BackupLoop.tick host (mainClock 1704866400000) (pollOf [49] [32]) mainMorning in
  let r2 := BackupLoop.tick host (mainClock 1704871800000) (pollOf [50] []) r1.1 in
  Main.history r1.1 !! [] = Some [1704866400000]
  /\ Main.history r2.1 !! [] = Some [1704866400000; 1704871800000]
  /\ replyOf r2.2 = Some (Backup.buildReply host [] [1704866400000]).
Proof.
  intros host r1 r2.
  assert (Main.history r1.1 !! [] = Some [1704866400000]) as H1.
  { refine (proj1 (proj1 (proj2 (X20_backup_callback_on_new_message host
              (mainClock 1704866400000) (pollOf [49] [32]) mainMorning
              (rowOf [49] [32]) [49] [32] (delivers_pollOf [49] [32] _) _)) _)).
    - discriminate.
    - apply not_in_by_decide. vm_compute. reflexivity.
    - vm_compute. lia. }
  split; [exact H1|].
  assert ([50] ∉ Main.processedIds
            (Main.rollover host (mainClock 1704871800000) r1.1)) as Hnew
    by (apply not_in_by_decide; vm_compute; reflexivity).
  assert (wordCount [] <= 3)%nat as Hq by (vm_compute; lia).
  destruct (proj1 (proj2 (X20_backup_callback_on_new_message host
              (mainClock 1704871800000) (pollOf [50] []) r1.1
              (rowOf [50] []) [50] [] (delivers_pollOf [50] [] ltac:(discriminate))
              Hnew)) Hq) as (Hh & _ & Hr).
  split; [exact Hh|exact Hr].
Defined.

(** X21.  In [backup/bot.js] a message that a poll has seen is skipped by
    every later poll that shows it again before the next day rollover,
    whatever was polled in between. *)
Theorem X21_backup_same_message_skipped
    (host : Host) (s0 : Main.State) c1 p1 row1 mid c2 p2 row2 id :
  last (rows p1) = Some row1 -> data_id row1 = Some id ->
  let s1 := (BackupLoop.tick host c1 p1 s0).1 in
  BackupLoop.quietRun host mid s1 ->
  let s2 := BackupLoop.run host mid s1 in
  Main.quiet host c2 s2 ->
  last (rows p2) = Some row2 -> data_id row2 = Some id ->
  BackupLoop.tick host c2 p2 s2 = (s2, Skipped).
Proof.
  intros Hrow1 Hid1 s1 Hmid s2 Hquiet Hrow2 Hid2.
  rewrite Backup_tick_quiet by done.
  destruct (decide (id = [])) as [->|Hne].
  - unfold BackupLoop.handle, JS.last_of. by rewrite Hrow2, Hid2.
  - eapply Backup_handle_seen; [done..|].
    apply Backup_run_keeps_ids; [done|].
    subst s1. unfold BackupLoop.tick. by eapply Backup_handle_marks.
Qed.

Lemma X21_witness :
  let host := referenceHost Zone.Asia_Jerusalem in
  let p := pollOf [49] [104; 105] in
  let mid := [(mainClock 1704866404000, pollOf [50] [111; 107])] in
  let s1 := (BackupLoop.tick host (mainClock 1704866400000) p mainMorning).1 in
  let s2 := BackupLoop.run host mid s1 in
  BackupLoop.quietRun host mid s1 /\ Main.quiet host (mainClock 1704866408000) s2
  /\ BackupLoop.tick host (mainClock 1704866408000) p s2 = (s2, Skipped).
Proof.
  intros host p mid s1 s2.
  assert (BackupLoop.quietRun host mid s1) as Hmid
    by (split; [unfold Main.quiet; vm_compute; discriminate | exact I]).
  assert (Main.quiet host (mainClock 1704866408000) s2) as Hq
    by (unfold Main.quiet; vm_compute; discriminate).
  split; [exact Hmid|]. split; [exact Hq|].
  exact (X21_backup_same_message_skipped host mainMorning (mainClock 1704866400000) p
           (rowOf [49] [104; 105]) mid (mainClock 1704866408000) p
           (rowOf [49] [104; 105]) [49] eq_refl eq_refl Hmid Hq eq_refl eq_refl).
Defined.

(** ** What a poll never does *)

Lemma replyOf_answer_Some_Main host p text (prev : list Z) r :
  replyOf (Main.answer host p text prev) = Some r ->
  prev <> [] /\ r = Main.buildReply host text prev.
Proof.
  destruct prev as [|t prev]; [done|]. simpl.
  destruct (compose_box p); simpl; intros [= <-]; done.
Qed.

Lemma replyOf_answer_Some_Backup host p text (prev : list Z) r :
  replyOf (BackupLoop.answer host p text prev) = Some r ->
  prev <> [] /\ r = Backup.buildReply host text prev.
Proof.
  destruct prev as [|t prev]; [done|]. simpl.
  destruct (compose_box p); simpl; intros [= <-]; done.
Qed.

Lemma replyOf_answer_Some_Bot host p text (prev : list Z) r :
  replyOf (Bot.answer host p text prev) = Some r ->
  prev <> [] /\ r = Bot.buildReply host text prev.
Proof.
  destruct prev as [|t prev]; [done|]. simpl.
  destruct (compose_box p); simpl; intros [= <-]; done.
Qed.

Lemma default_nonempty (o : option (list Z)) :
  default [] o <> [] -> o = Some (default [] o).
Proof. by destruct o. Qed.

(** X22.  No variant builds a reply for a first occurrence.  A poll that
    builds a reply was shown a new message whose text passed the filter, and
    the table, as the rollover check (in [bot.js]: the eviction of the same
    poll) left it, held a list that is not empty under the key of that text;
    the reply is built from that list. *)
Theorem X22_reply_only_for_listed_key (host : Host) (p : Poll) (r : jsstring) :
  (forall c s, replyOf (Main.tick host c p s).2 = Some r ->
     exists row id text prev,
       delivers p row id text
       /\ (id ∉ Main.processedIds (Main.rollover host c s))
       /\ qualifying text
       /\ Main.history (Main.rollover host c s) !! Main.historyKey host (JS.trim text)
          = Some prev
       /\ prev <> [] /\ r = Main.buildReply host (JS.trim text) prev)
  /\ (forall c s, replyOf (BackupLoop.tick host c p s).2 = Some r ->
     exists row id text prev,
       delivers p row id text
       /\ (id ∉ Main.processedIds (Main.rollover host c s))
       /\ (wordCount text <= 3)%nat
       /\ Main.history (Main.rollover host c s) !! toLowerCase host (JS.trim text)
          = Some prev
       /\ prev <> [] /\ r = Backup.buildReply host (JS.trim text) prev)
  /\ (forall c s, replyOf (Bot.tick host c p s).2 = Some r ->
     exists row id text prev,
       delivers p row id text
       /\ (id ∉ Bot.processedIds s)
       /\ (wordCount text <= 3)%nat
       /\ Evict.loop (Bot.at_prune c - Bot.DAY_MS) (Bot.history s)
            !! Bot.historyKey host (JS.trim text) = Some prev
       /\ prev <> [] /\ r = Bot.buildReply host (JS.trim text) prev).
Proof.
  split; [|split].
  - intros c s. unfold Main.tick, Main.handle, JS.last_of.
    set (s' := Main.rollover host c s).
    destruct (last (rows p)) as [row|] eqn:Hrow; [|done].
    destruct (data_id row) as [[|u id]|] eqn:Hid; [done| |done].
    destruct (JS.set_has (u :: id) (Main.processedIds s')) eqn:Hhas; [done|].
    destruct (text_node row) as [text|] eqn:Htext; [|done].
    destruct (Main.accepted (JS.trim text)) eqn:Hacc; [|done].
    cbn [snd Main.setProcessed Main.history]. intros Hr.
    apply replyOf_answer_Some_Main in Hr as [Hne ->].
    exists row, (u :: id), text, (default [] (Main.history s' !! Main.historyKey host (JS.trim text))).
    split; [by repeat split|]. split; [by apply set_has_false|].
    split; [by apply Main_accepted_iff|].
    split; [by apply default_nonempty|]. done.
  - intros c s. unfold BackupLoop.tick, BackupLoop.handle, JS.last_of.
    set (s' := Main.rollover host c s).
    destruct (last (rows p)) as [row|] eqn:Hrow; [|done].
    destruct (data_id row) as [[|u id]|] eqn:Hid; [done| |done].
    destruct (JS.set_has (u :: id) (Main.processedIds s')) eqn:Hhas; [done|].
    destruct (text_node row) as [text|] eqn:Htext; [|done].
    destruct (BackupLoop.accepted (JS.trim text)) eqn:Hacc; [|done].
    cbn [snd Main.setProcessed Main.history]. intros Hr.
    apply replyOf_answer_Some_Backup in Hr as [Hne ->].
    exists row, (u :: id), text, (default [] (Main.history s' !! toLowerCase host (JS.trim text))).
    split; [by repeat split|]. split; [by apply set_has_false|].
    split; [by apply Bot_accepted_iff|].
    split; [by apply default_nonempty|]. done.
  - intros c s. unfold Bot.tick, JS.last_of.
    destruct (last (rows p)) as [row|] eqn:Hrow; [|done].
    destruct (data_id row) as [[|u id]|] eqn:Hid; [done| |done].
    destruct (JS.set_has (u :: id) (Bot.processedIds s)) eqn:Hhas; [done|].
    destruct (text_node row) as [text|] eqn:Htext; [|done].
    destruct (Bot.accepted (JS.trim text)) eqn:Hacc; [|done].
    cbn [snd Bot.prune Bot.markProcessed Bot.history]. intros Hr.
    apply replyOf_answer_Some_Bot in Hr as [Hne ->].
    exists row, (u :: id), text,
      (default [] (Evict.loop (Bot.at_prune c - Bot.DAY_MS) (Bot.history s)
                     !! Bot.historyKey host (JS.trim text))).
    split; [by repeat split|]. split; [by apply set_has_false|].
    split; [by apply Bot_accepted_iff|].
    split; [by apply default_nonempty|]. done.
Qed.

Lemma X22_witness :
  let host := referenceHost Zone.Asia_Jerusalem in
  let hi := [104; 105] in
  let s1 := (Main.tick host (mainClock 1704866400000) (pollOf [49] hi) mainMorning).1 in
  let c := mainClock 1704871800000 in
  exists row id text prev,
    delivers (pollOf [50] hi) row id text
    /\ (id ∉ Main.processedIds (Main.rollover host c s1))
    /\ qualifying text
    /\ Main.history (Main.rollover host c s1) !! Main.historyKey host (JS.trim text) = Some prev
    /\ prev <> []
    /\ Main.replyHead ++ hi ++ Main.replyMiddle ++ [48; 56; 58; 48; 48]
       = Main.buildReply host (JS.trim text) prev.
Proof.
  intros host hi s1 c.
  apply (proj1 (X22_reply_only_for_listed_key host (pollOf [50] hi)
                  (Main.replyHead ++ hi ++ Main.replyMiddle ++ [48; 56; 58; 48; 48]))).
  vm_compute. reflexivity.
Defined.

(** X23.  A poll changes the list of one key at most.  In the two variants
    with the day rollover, every key other than the lower-cased trimmed text
    of the newest row holds after the poll what the rollover check left
    under it; in [bot.js] it holds what it held, or what the eviction of the
    poll left of it. *)
Theorem X23_other_keys_untouched (host : Host) (p : Poll) (k : jsstring) :
  (forall row text, last (rows p) = Some row -> text_node row = Some text ->
     k <> toLowerCase host (JS.trim text)) ->
  (forall c s, Main.history (Main.tick host c p s).1 !! k
               = Main.history (Main.rollover host c s) !! k)
  /\ (forall c s, Main.history (BackupLoop.tick host c p s).1 !! k
               = Main.history (Main.rollover host c s) !! k)
  /\ (forall c s, Bot.history (Bot.tick host c p s).1 !! k = Bot.history s !! k
               \/ Bot.history (Bot.tick host c p s).1 !! k
                  = Bot.history s !! k ≫= Evict.kept (Bot.at_prune c - Bot.DAY_MS)).
Proof.
  intros Hk. split; [|split].
  - intros c s. unfold Main.tick, Main.handle, JS.last_of.
    set (s' := Main.rollover host c s).
    destruct (last (rows p)) as [row|] eqn:Hrow; [|done].
    destruct (data_id row) as [[|u id]|]; [done| |done].
    destruct (JS.set_has _ _); [done|].
    destruct (text_node row) as [text|] eqn:Htext; [|done].
    destruct (Main.accepted _); [|done].
    cbn [fst Main.store Main.setProcessed Main.history].
    apply lookup_insert_ne. intros Heq. by apply (Hk row text).
  - intros c s. unfold BackupLoop.tick, BackupLoop.handle, JS.last_of.
    set (s' := Main.rollover host c s).
    destruct (last (rows p)) as [row|] eqn:Hrow; [|done].
    destruct (data_id row) as [[|u id]|]; [done| |done].
    destruct (JS.set_has _ _); [done|].
    destruct (text_node row) as [text|] eqn:Htext; [|done].
    destruct (BackupLoop.accepted _); [|done].
    cbn [fst Main.store Main.setProcessed Main.history].
    apply lookup_insert_ne. intros Heq. by apply (Hk row text).
  - intros c s. unfold Bot.tick, JS.last_of.
    destruct (last (rows p)) as [row|] eqn:Hrow; [|by left].
    destruct (data_id row) as [[|u id]|]; [by left| |by left].
    destruct (JS.set_has _ _); [by left|].
    destruct (text_node row) as [text|] eqn:Htext; [|by left].
    destruct (Bot.accepted _); [|by left].
    right. cbn [fst Bot.store Bot.prune Bot.markProcessed Bot.history].
    rewrite lookup_insert_ne by (intros Heq; by apply (Hk row text)).
    apply loop_lookup.
Qed.

Lemma X23_witness :
  let host := referenceHost Zone.Asia_Jerusalem in
  let s := (Main.tick host (mainClock 1704866400000) (pollOf [49] [104; 105])
              mainMorning).1 in
  let c := mainClock 1704866404000 in
  Main.history (Main.tick host c (pollOf [50] [111; 107]) s).1 !! [104; 105]
  = Main.history (Main.rollover host c s) !! [104; 105].
Proof.
  intros host s c.
  refine (proj1 (X23_other_keys_untouched host (pollOf [50] [111; 107]) [104; 105] _) c s).
  intros row text [= <-] [= <-]. discriminate.
Defined.

(** X24.  The commented variant and [backup/bot.js] leave the same state
    after a poll, unless the newest row shows a text without any word: the
    two differ in the wording of the reply and in that text only. *)
Theorem X24_midnight_variants_agree
    (host : Host) (c : Main.Clock) (p : Poll) (s : Main.State) :
  (forall row text, last (rows p) = Some row -> text_node row = Some text ->
     wordCount text <> O) ->
  (Main.tick host c p s).1 = (BackupLoop.tick host c p s).1
  /\ (replyOf (Main.tick host c p s).2 = None
      <-> replyOf (BackupLoop.tick host c p s).2 = None).
Proof.
  intros Hw. unfold Main.tick, BackupLoop.tick, Main.handle, BackupLoop.handle, JS.last_of.
  set (s' := Main.rollover host c s).
  destruct (last (rows p)) as [row|] eqn:Hrow; [|done].
  destruct (data_id row) as [[|u id]|]; [done| |done].
  destruct (JS.set_has _ _); [done|].
  destruct (text_node row) as [text|] eqn:Htext; [|done].
  specialize (Hw row text eq_refl Htext).
  assert (Main.accepted (JS.trim text) = BackupLoop.accepted (JS.trim text)) as ->.
  { change (BackupLoop.accepted (JS.trim text)) with (Bot.accepted (JS.trim text)).
    pose proof (Main_accepted_iff text) as H1.
    pose proof (Bot_accepted_iff text) as H2. unfold qualifying in H1.
    destruct (Main.accepted (JS.trim text)), (Bot.accepted (JS.trim text)); try done.
    - assert (wordCount text <= 3)%nat by (apply H1; done).
      assert (false = true) by (apply H2; lia). done.
    - assert (wordCount text <= 3)%nat by (apply H2; done).
      assert (false = true) by (apply H1; lia). done. }
  destruct (BackupLoop.accepted (JS.trim text)); [|done].
  split; [reflexivity|]. cbn [snd].
  unfold Main.historyKey.
  destruct (default [] _) as [|t prev]; [done|]. simpl.
  by destruct (compose_box p).
Qed.

Lemma X24_witness :
  let host := referenceHost Zone.Asia_Jerusalem in
  let c := mainClock 1704866400000 in
  let p := pollOf [49] [104; 105] in
  (Main.tick host c p mainMorning).1 = (BackupLoop.tick host c p mainMorning).1.
Proof.
  intros host c p.
  refine (proj1 (X24_midnight_variants_agree host c p mainMorning _)).
  intros row text [= <-] [= <-]. vm_compute. discriminate.
Defined.

(** ** Identifiers in [bot.js] below the bound *)

Lemma Bot_tick_marks host c p s row id :
  last (rows p) = Some row -> data_id row = Some id -> id <> [] ->
  (length (Bot.processedIds s) < Bot.MAX_IDS)%nat ->
  id ∈ Bot.processedIds (Bot.tick host c p s).1.
Proof.
  intros Hrow Hid Hne Hlen. unfold Bot.tick, JS.last_of. rewrite Hrow, Hid.
  destruct id as [|u id]; [done|].
  destruct (JS.set_has (u :: id) (Bot.processedIds s)) eqn:Hhas.
  - by apply set_has_true in Hhas.
  - assert (u :: id ∈ JS.set_add (u :: id) (Bot.processedIds s)) as Hin
      by (apply set_add_elem; by left).
    destruct (text_node row) as [text|]; [|done].
    destruct (Bot.accepted (JS.trim text)); [|done].
    cbn [fst Bot.store Bot.prune Bot.markProcessed Bot.processedIds].
    rewrite trimIds_spec.
    assert (length (JS.set_add (u :: id) (Bot.processedIds s)) <= Bot.MAX_IDS)%nat as Hle.
    { unfold JS.set_add. rewrite Hhas, length_app. simpl. lia. }
    by rewrite (proj2 (Nat.ltb_ge _ _) Hle).
Qed.

(** X25.  In [bot.js], while the set of processed identifiers is below
    [MAX_IDS], a message that a poll has seen is skipped by the next poll
    that shows it again: the state is left as it is and there is no reply. *)
Theorem X25_bot_same_message_skipped_below_bound
    (host : Host) (c1 c2 : Bot.Clock) (p1 p2 : Poll) (s : Bot.State) row1 row2 id :
  last (rows p1) = Some row1 -> data_id row1 = Some id ->
  last (rows p2) = Some row2 -> data_id row2 = Some id ->
  (length (Bot.processedIds s) < Bot.MAX_IDS)%nat ->
  let s1 := (Bot.tick host c1 p1 s).1 in
  Bot.tick host c2 p2 s1 = (s1, Skipped).
Proof.
  intros Hrow1 Hid1 Hrow2 Hid2 Hlen s1.
  destruct (decide (id = [])) as [->|Hne].
  - unfold Bot.tick, JS.last_of. by rewrite Hrow2, Hid2.
  - assert (id ∈ Bot.processedIds s1) as Hin by (by eapply Bot_tick_marks).
    unfold Bot.tick at 1, JS.last_of. rewrite Hrow2, Hid2.
    destruct id as [|u id]; [done|].
    by rewrite (proj2 (set_has_true _ _) Hin).
Qed.

Lemma X25_witness :
  let host := referenceHost Zone.Asia_Jerusalem in
  let p := pollOf [49] [104; 105] in
  let s1 := (Bot.tick host (botClock 1704866400000) p (botWith [])).1 in
  Bot.tick host (botClock 1704866404000) p s1 = (s1, Skipped).
Proof.
  intros host p s1.
  refine (X25_bot_same_message_skipped_below_bound host (botClock 1704866400000)
            (botClock 1704866404000) p p (botWith []) (rowOf [49] [104; 105])
            (rowOf [49] [104; 105]) [49] eq_refl eq_refl eq_refl eq_refl _).
  unfold Bot.MAX_IDS. simpl. lia.
Defined.
